(** * The temporal future-prediction engine of beverse-lite

    A shallow embedding of [future_prediction.py]: the classes [ConvBlock],
    [SpatialGRU], [Interpolate], [Bottleneck] and [FuturePrediction], their
    constructors ([__init__]) and their [forward] methods; and of the feature
    pyramid [FPN] of [fpn.py].

    - Python exceptions are values of [exn]; a computation that can raise
      returns a [result].
    - A constructor runs in [ctor]: exceptions plus a counter that hands
      every layer with learned parameters its own parameter block, so two
      layers built with equal hyper-parameters are still different layers.
    - A tensor is a shape together with a function from indices to scalars.
      The scalars are an arbitrary carrier with the operations of exact
      arithmetic ([Scalar]); the numeric kernels of the PyTorch layers are
      opaque ([Kernels]), only their shape rules and error conditions are
      written out, as PyTorch documents them. Modules are in the mode they are
      constructed in (training). *)

From Stdlib Require Import ZArith List String Bool Lia QArith DecimalString.
From Stdlib Require Import Ring_theory Ring InitialRing.
Import ListNotations.
Local Open Scope Z_scope.


(** ** Python: exceptions, results, names *)

Inductive exn : Type :=
| AssertionError (msg : string)
| ValueError (msg : string)
| TypeError (msg : string)
| NameError (msg : string)
| IndexError (msg : string)
| RuntimeError (msg : string)
| NotImplementedError (msg : string).

Inductive result (A : Type) : Type :=
| Ok (a : A)
| Raise (e : exn).

Arguments Ok {A} a.
Arguments Raise {A} e.

Definition bind {A B : Type} (c : result A) (k : A -> result B) : result B :=
  match c with
  | Ok a => k a
  | Raise e => Raise e
  end.

Declare Scope result_scope.
Delimit Scope result_scope with result.
Notation "x <- c ;; k" := (bind c (fun x => k))
  (at level 61, c at next level, right associativity) : result_scope.
Notation "c ;;; k" := (bind c (fun _ => k))
  (at level 61, right associativity) : result_scope.

(** [raises c] : the computation ends in an exception, whichever it is. *)
Definition raises {A : Type} (c : result A) : Prop :=
  exists e, c = Raise e.

Definition is_AssertionError (e : exn) : bool :=
  match e with AssertionError _ => true | _ => false end.

Definition is_TypeError (e : exn) : bool :=
  match e with TypeError _ => true | _ => false end.

Definition is_ValueError (e : exn) : bool :=
  match e with ValueError _ => true | _ => false end.

(** The computation does not end in an [AssertionError]. *)
Definition no_assertion {A : Type} (c : result A) : Prop :=
  forall e, c = Raise e -> is_AssertionError e = false.

(** [assert cond, msg] *)
Definition py_assert (cond : bool) (msg : string) : result unit :=
  if cond then Ok tt else Raise (AssertionError msg).

(** [str(n)] for an int, as an f-string or [format] prints it. *)
Definition str_of_Z (z : Z) : string := NilZero.string_of_int (Z.to_int z).

(** [a or b] on an optional int: [None] and [0] are falsy. *)
Definition py_or (a : option Z) (b : Z) : Z :=
  match a with
  | None => b
  | Some v => if v =? 0 then b else v
  end.

(** [range(n)] *)
Definition py_range (n : Z) : list Z :=
  map Z.of_nat (seq 0 (Z.to_nat n)).

(** [int(a / 2)]: true division, then truncation toward zero. *)
Definition int_half (a : Z) : Z := Z.quot a 2.

(** The names bound at the top of [future_prediction.py]: its three imports
    of torch, [warp_features], and its own classes. [partial] is not among
    them (and is not a builtin). *)
Definition module_globals : list string :=
  ["torch"; "nn"; "F"; "warp_features"; "ConvBlock"; "SpatialGRU";
   "Interpolate"; "Bottleneck"; "FuturePrediction"]%string.

Definition lookup_global (name : string) : result unit :=
  if existsb (String.eqb name) module_globals then Ok tt
  else Raise (NameError ("name '" ++ name ++ "' is not defined")%string).

(** [l.append(x, ...)]: the method takes exactly one argument. *)
Definition list_append {A : Type} (l : list A) (args : list A) : result (list A) :=
  match args with
  | [x] => Ok (l ++ [x])
  | _ => Raise (TypeError ("list.append() takes exactly one argument ("
                           ++ str_of_Z (Z.of_nat (List.length args)) ++ " given)")%string)
  end.

(** ** Constructors: exceptions and fresh parameter blocks *)

Definition ctor (A : Type) : Type := nat -> result (A * nat).

Definition cret {A : Type} (a : A) : ctor A := fun n => Ok (a, n).

Definition cbind {A B : Type} (c : ctor A) (k : A -> ctor B) : ctor B :=
  fun n =>
    match c n with
    | Ok (a, n') => k a n'
    | Raise e => Raise e
    end.

Definition craise {A : Type} (e : exn) : ctor A := fun _ => Raise e.

Definition lift {A : Type} (c : result A) : ctor A :=
  fun n => match c with Ok a => Ok (a, n) | Raise e => Raise e end.

(** A new parameter block (weights, biases, running statistics). *)
Definition fresh : ctor nat := fun n => Ok (n, S n).

Declare Scope ctor_scope.
Delimit Scope ctor_scope with ctor.
Notation "x <- c ;; k" := (cbind c (fun x => k))
  (at level 61, c at next level, right associativity) : ctor_scope.
Notation "c ;;; k" := (cbind c (fun _ => k))
  (at level 61, right associativity) : ctor_scope.

(** The object a constructor call yields, when it yields one. *)
Definition constructs {A : Type} (c : ctor A) (n : nat) (a : A) : Prop :=
  exists n', c n = Ok (a, n').

Definition ctor_raises {A : Type} (c : ctor A) : Prop :=
  forall n, raises (c n).

(** ** torch.nn layers

    The hyper-parameters a layer is built with, and the parameter block it
    owns. Floats that are hyper-parameters (a slope, a probability) are
    rationals. *)

Record Conv2d : Type := mkConv2d {
  conv_params : nat;
  conv_in_channels : Z;
  conv_out_channels : Z;
  conv_kernel_size : Z;
  conv_stride : Z;
  conv_padding : Z;
  conv_dilation : Z;
  conv_groups : Z;
  conv_bias : bool
}.

Record ConvTranspose2d : Type := mkConvTranspose2d {
  convt_params : nat;
  convt_in_channels : Z;
  convt_out_channels : Z;
  convt_kernel_size : Z;
  convt_stride : Z;
  convt_padding : Z;
  convt_output_padding : Z;
  convt_dilation : Z;
  convt_groups : Z;
  convt_bias : bool
}.

Record BatchNorm2d : Type := mkBatchNorm2d {
  bn_params : nat;
  bn_num_features : Z
}.

(** class Interpolate(nn.Module): [__init__] stores the scale factor. *)
Record Interpolate : Type := mkInterpolate {
  interp_scale_factor : Z
}.

Definition Interpolate_init (scale_factor : Z) : ctor Interpolate :=
  cret {| interp_scale_factor := scale_factor |}.

Inductive module : Type :=
| MConv2d (m : Conv2d)
| MConvTranspose2d (m : ConvTranspose2d)
| MBatchNorm2d (m : BatchNorm2d)
| MInstanceNorm2d (num_features : Z)
| MReLU (inplace : bool)
| MLeakyReLU (negative_slope : Q) (inplace : bool)
| MELU (inplace : bool)
| MTanh
| MDropout2d (p : Q)
| MMaxPool2d (kernel_size stride : Z)
| MInterpolate (m : Interpolate).

(** The checks of torch's [_ConvNd.__init__], and the sizes of the weight
    it allocates. *)
Definition convnd_check (in_channels out_channels kernel_size groups : Z) : result unit :=
  if groups <=? 0 then Raise (ValueError "groups must be a positive integer")
  else if negb (in_channels mod groups =? 0)
  then Raise (ValueError "in_channels must be divisible by groups")
  else if negb (out_channels mod groups =? 0)
  then Raise (ValueError "out_channels must be divisible by groups")
  else if (in_channels <? 0) || (out_channels <? 0) || (kernel_size <? 0)
  then Raise (RuntimeError "Trying to create tensor with negative dimension")
  else Ok tt.

(** [nn.Conv2d(in_channels, out_channels, kernel_size, stride=1, padding=0,
    dilation=1, groups=1, bias=True)] *)
Definition nn_Conv2d (in_channels out_channels kernel_size stride padding
                      dilation groups : Z) (bias : bool) : ctor module :=
  (lift (convnd_check in_channels out_channels kernel_size groups) ;;;
   id <- fresh ;;
   cret (MConv2d (mkConv2d id in_channels out_channels kernel_size stride
                           padding dilation groups bias)))%ctor.

(** [nn.ConvTranspose2d(in_channels, out_channels, kernel_size, stride=1,
    padding=0, output_padding=0, groups=1, bias=True, dilation=1)] *)
Definition nn_ConvTranspose2d (in_channels out_channels kernel_size stride padding
                               output_padding groups : Z) (bias : bool)
                              (dilation : Z) : ctor module :=
  (lift (convnd_check in_channels out_channels kernel_size groups) ;;;
   id <- fresh ;;
   cret (MConvTranspose2d
           (mkConvTranspose2d id in_channels out_channels kernel_size stride
                              padding output_padding dilation groups bias)))%ctor.

(** [nn.BatchNorm2d(num_features)] allocates [num_features] statistics. *)
Definition nn_BatchNorm2d (num_features : Z) : ctor module :=
  (if num_features <? 0
   then craise (RuntimeError "Trying to create tensor with negative dimension")
   else id <- fresh ;; cret (MBatchNorm2d (mkBatchNorm2d id num_features)))%ctor.

(** [nn.InstanceNorm2d(num_features)]: not affine, no running statistics. *)
Definition nn_InstanceNorm2d (num_features : Z) : ctor module :=
  cret (MInstanceNorm2d num_features).

Definition nn_ReLU (inplace : bool) : ctor module := cret (MReLU inplace).

Definition nn_LeakyReLU (negative_slope : Q) (inplace : bool) : ctor module :=
  cret (MLeakyReLU negative_slope inplace).

Definition nn_ELU (inplace : bool) : ctor module := cret (MELU inplace).

(** [nn.Tanh] declares no [__init__] of its own: it takes no argument, and
    a keyword passed to it is refused by [nn.Module.__init__]. The model
    receives the names of the keywords of the call. *)
Definition nn_Tanh (kwargs : list string) : ctor module :=
  match kwargs with
  | [] => cret MTanh
  | k :: _ => craise (TypeError ("Tanh.__init__() got an unexpected keyword argument '"
                                 ++ k ++ "'")%string)
  end.

(** [nn.Dropout2d(p)] *)
Definition nn_Dropout2d (p : Q) : ctor module :=
  if Qle_bool 0 p && Qle_bool p 1 then cret (MDropout2d p)
  else craise (ValueError "dropout probability has to be between 0 and 1").

Definition nn_MaxPool2d (kernel_size stride : Z) : ctor module :=
  cret (MMaxPool2d kernel_size stride).

(** What a call can pass where [nn.Sequential] expects modules. *)
Inductive pyarg (A : Type) : Type :=
| ArgModule (m : A)
| ArgList (l : list A).

Arguments ArgModule {A} m.
Arguments ArgList {A} l.

(** [nn.Sequential(m1, m2, ...)]: every argument is registered with [add_module],
    which refuses what is not a module. *)
Fixpoint nn_Sequential {A : Type} (args : list (pyarg A)) : result (list A) :=
  match args with
  | [] => Ok []
  | ArgModule m :: rest =>
      (ms <- nn_Sequential rest ;; Ok (m :: ms))%result
  | ArgList _ :: _ => Raise (TypeError "list is not a Module subclass")
  end.

(** ** Tensors

    The scalars of a tensor are kept abstract: a carrier with the
    operations of exact arithmetic and the logistic function. *)

Class Scalar : Type := {
  R : Type;
  r0 : R;
  r1 : R;
  radd : R -> R -> R;
  rmul : R -> R -> R;
  rsub : R -> R -> R;
  ropp : R -> R;
  sigmoid : R -> R
}.

Record tensor {SC : Scalar} : Type := mkTensor {
  shape : list Z;
  data : list Z -> R
}.

Arguments mkTensor {SC} shape data.

(** The numeric payload of the layers, the source index that the
    library's nearest-neighbour resampling computes in single precision,
    and the one function of this repository that [future_prediction.py]
    imports and that is not part of the sources at hand
    ([utils.warp_features]): all three are parameters. *)
Class Kernels {SC : Scalar} : Type := {
  kernel : module -> tensor -> list Z -> R;
  nearest_source_index : Z -> Z -> Z -> Z;
  warp_features : tensor -> tensor -> string -> result tensor
}.

(** The laws of exact arithmetic, for the statements that compute. *)
Class ExactArith (SC : Scalar) : Prop := {
  scalar_ring : ring_theory r0 r1 radd rmul rsub ropp (@eq R)
}.

Definition numel (s : list Z) : Z := fold_right Z.mul 1 s.

Fixpoint shape_eqb (a b : list Z) : bool :=
  match a, b with
  | [], [] => true
  | x :: a', y :: b' => (x =? y) && shape_eqb a' b'
  | _, _ => false
  end.

(** [idx] addresses an element of a tensor of shape [s]. *)
Fixpoint in_range (s idx : list Z) : Prop :=
  match s, idx with
  | [], [] => True
  | d :: s', i :: idx' => 0 <= i < d /\ in_range s' idx'
  | _, _ => False
  end.

(** Row-major offset of an index, and its inverse. *)
Fixpoint ravel (s idx : list Z) : Z :=
  match s, idx with
  | _ :: s', i :: idx' => i * numel s' + ravel s' idx'
  | _, _ => 0
  end.

Fixpoint unravel (s : list Z) (n : Z) : list Z :=
  match s with
  | [] => []
  | _ :: s' => n / numel s' :: unravel s' (n mod numel s')
  end.

(** Broadcasting of two shapes, read from the last axis. *)
Fixpoint broadcast_rev (a b : list Z) : option (list Z) :=
  match a, b with
  | [], _ => Some b
  | _, [] => Some a
  | x :: a', y :: b' =>
      match broadcast_rev a' b' with
      | Some r =>
          if x =? y then Some (x :: r)
          else if x =? 1 then Some (y :: r)
          else if y =? 1 then Some (x :: r)
          else None
      | None => None
      end
  end.

Definition broadcast_shapes (a b : list Z) : option (list Z) :=
  option_map (@rev Z) (broadcast_rev (rev a) (rev b)).

Fixpoint bcast_axes (s idx : list Z) : list Z :=
  match s, idx with
  | d :: s', i :: idx' => (if d =? 1 then 0 else i) :: bcast_axes s' idx'
  | _, _ => []
  end.

(** The element of an operand of shape [s] that position [idx] of the
    broadcast result reads. *)
Definition bcast_idx (s idx : list Z) : list Z :=
  bcast_axes s (skipn (List.length idx - List.length s) idx).

Section Torch.

Context {SC : Scalar} {KN : Kernels}.

Local Open Scope result_scope.

(** [x.shape[-k]] *)
Definition shape_from_end (x : tensor) (k : nat) : result Z :=
  match nth_error (rev (shape x)) (pred k) with
  | Some d => Ok d
  | None => Raise (IndexError "tuple index out of range")
  end.

(** [torch.zeros(d1, ..., dn)] *)
Definition torch_zeros (size : list Z) : result tensor :=
  if existsb (fun d => d <? 0) size
  then Raise (RuntimeError "Trying to create tensor with negative dimension")
  else Ok (mkTensor size (fun _ => r0)).

(** [x[:, t]] *)
Definition select1 (x : tensor) (t : Z) : result tensor :=
  match shape x with
  | d0 :: d1 :: inner =>
      let t' := if t <? 0 then t + d1 else t in
      if (0 <=? t') && (t' <? d1)
      then Ok (mkTensor (d0 :: inner)
                 (fun idx => match idx with
                             | i0 :: r => data x (i0 :: t' :: r)
                             | [] => r0
                             end))
      else Raise (IndexError "index out of range for dimension 1")
  | _ => Raise (IndexError "too many indices for tensor")
  end.

(** A 1-D tensor of size 0, which [torch.cat] skips. *)
Definition legacy_empty (x : tensor) : bool :=
  match shape x with
  | [d] => d =? 0
  | _ => false
  end.

Definition dim1 (x : tensor) : Z := nth 1 (shape x) 0.

Definition same_except_dim1 (a b : list Z) : bool :=
  match a, b with
  | a0 :: _ :: ar, b0 :: _ :: br => (a0 =? b0) && shape_eqb ar br
  | _, _ => false
  end.

Fixpoint cat1_data (ts : list tensor) (i0 c : Z) (r : list Z) : R :=
  match ts with
  | [] => r0
  | y :: ys =>
      if c <? dim1 y then data y (i0 :: c :: r)
      else cat1_data ys i0 (c - dim1 y) r
  end.

(** [torch.cat(ts, dim=1)] *)
Definition torch_cat1 (ts : list tensor) : result tensor :=
  match ts with
  | [] => Raise (RuntimeError "torch.cat(): expected a non-empty list of Tensors")
  | _ =>
      match filter (fun y => negb (legacy_empty y)) ts with
      | [] => Ok (mkTensor [0] (fun _ => r0))
      | x :: rest =>
          match shape x with
          | d0 :: _ :: inner =>
              if forallb (fun y => same_except_dim1 (shape x) (shape y)) rest
              then Ok (mkTensor
                         (d0 :: fold_right Z.add 0 (map dim1 (x :: rest)) :: inner)
                         (fun idx => match idx with
                                     | i0 :: c :: r => cat1_data (x :: rest) i0 c r
                                     | _ => r0
                                     end))
              else Raise (RuntimeError
                            "Sizes of tensors must match except in dimension 1")
          | _ => Raise (IndexError "Dimension out of range")
          end
      end
  end.

(** [torch.stack(ts, dim=1)] *)
Definition torch_stack1 (ts : list tensor) : result tensor :=
  match ts with
  | [] => Raise (RuntimeError "stack expects a non-empty TensorList")
  | x :: rest =>
      if forallb (fun y => shape_eqb (shape x) (shape y)) rest
      then match shape x with
           | d0 :: inner =>
               Ok (mkTensor
                     (d0 :: Z.of_nat (List.length ts) :: inner)
                     (fun idx => match idx with
                                 | i0 :: t :: r =>
                                     match nth_error ts (Z.to_nat t) with
                                     | Some y => data y (i0 :: r)
                                     | None => r0
                                     end
                                 | _ => r0
                                 end))
           | [] => Raise (IndexError "Dimension out of range")
           end
      else Raise (RuntimeError "stack expects each tensor to be equal size")
  end.

(** Elementwise operations; the binary ones broadcast. *)
Definition elementwise1 (f : R -> R) (x : tensor) : tensor :=
  mkTensor (shape x) (fun idx => f (data x idx)).

Definition elementwise2 (f : R -> R -> R) (x y : tensor) : result tensor :=
  match broadcast_shapes (shape x) (shape y) with
  | Some s =>
      Ok (mkTensor s (fun idx => f (data x (bcast_idx (shape x) idx))
                                   (data y (bcast_idx (shape y) idx))))
  | None => Raise (RuntimeError
                     "The size of tensor a must match the size of tensor b")
  end.

(** [x + y], [x * y] on tensors *)
Definition torch_add : tensor -> tensor -> result tensor := elementwise2 radd.
Definition torch_mul : tensor -> tensor -> result tensor := elementwise2 rmul.

(** [x + c] and [c - x] for a Python float [c] *)
Definition add_scalar (x : tensor) (c : R) : tensor :=
  elementwise1 (fun v => radd v c) x.
Definition rsub_scalar (c : R) (x : tensor) : tensor :=
  elementwise1 (fun v => rsub c v) x.

(** [torch.sigmoid(x)] *)
Definition torch_sigmoid (x : tensor) : tensor := elementwise1 sigmoid x.

(** [x.view(d1, ..., dn)] on a contiguous tensor, for sizes that are products of
    dimensions (no [-1] to infer). *)
Definition tensor_view (x : tensor) (size : list Z) : result tensor :=
  if existsb (fun d => d <? 0) size
  then Raise (RuntimeError "invalid shape dimension")
  else if numel size =? numel (shape x)
  then Ok (mkTensor size (fun idx => data x (unravel (shape x) (ravel size idx))))
  else Raise (RuntimeError "shape is invalid for input of this size").

(** [F.pad(x, (left, right, top, bottom), value=value)] *)
Definition F_pad (x : tensor) (left right top bottom : Z) (value : R) : result tensor :=
  match rev (shape x) with
  | w :: h :: outer =>
      if (h + top + bottom <? 0) || (w + left + right <? 0)
      then Raise (RuntimeError "The input size, plus negative padding, is negative")
      else Ok (mkTensor
                 (rev outer ++ [h + top + bottom; w + left + right])
                 (fun idx =>
                    match rev idx with
                    | j :: i :: o =>
                        if (0 <=? i - top) && (i - top <? h)
                           && (0 <=? j - left) && (j - left <? w)
                        then data x (rev o ++ [i - top; j - left])
                        else value
                    | _ => value
                    end))
  | _ => Raise (RuntimeError "Padding length should be at most twice the input dimensions")
  end.

(** ** Applying a layer

    The shape each layer produces and the inputs it refuses; the values
    are those of [kernel]. A layer accepts a batch [N,C,H,W] or, where
    PyTorch does, a single image [C,H,W]. A convolution checks its weight
    before its input: the first axis of the weight ([out_channels], for a
    transposed convolution [in_channels]) must hold at least [groups]
    filters, so a layer built with none is refused when it is applied. *)

Definition as_image (s : list Z) : option (option Z * Z * Z * Z) :=
  match s with
  | [n; c; h; w] => Some (Some n, c, h, w)
  | [c; h; w] => Some (None, c, h, w)
  | _ => None
  end.

Definition image_shape (n : option Z) (c h w : Z) : list Z :=
  match n with
  | Some n => [n; c; h; w]
  | None => [c; h; w]
  end.

Definition conv_out_size (n padding dilation kernel_size stride : Z) : Z :=
  (n + 2 * padding - dilation * (kernel_size - 1) - 1) / stride + 1.

Definition convt_out_size (n padding output_padding dilation kernel_size stride : Z) : Z :=
  (n - 1) * stride - 2 * padding + dilation * (kernel_size - 1) + output_padding + 1.

Definition Conv2d_forward (m : Conv2d) (x : tensor) : result tensor :=
  match as_image (shape x) with
  | Some (n, c, h, w) =>
      let extent := conv_dilation m * (conv_kernel_size m - 1) + 1 in
      if conv_padding m <? 0
      then Raise (RuntimeError "negative padding is not supported")
      else if conv_stride m <=? 0
      then Raise (RuntimeError "non-positive stride is not supported")
      else if conv_dilation m <=? 0
      then Raise (RuntimeError "dilation should be greater than zero")
      else if conv_kernel_size m <=? 0
      then Raise (RuntimeError "kernel size should be greater than zero")
      else if conv_out_channels m <? conv_groups m
      then Raise (RuntimeError
                    "expected weight to be at least groups at dimension 0")
      else if negb (c =? conv_in_channels m)
      then Raise (RuntimeError "input channels do not match the weight")
      else if (h + 2 * conv_padding m <? extent) || (w + 2 * conv_padding m <? extent)
      then Raise (RuntimeError "Kernel size can't be greater than actual input size")
      else Ok (mkTensor
                 (image_shape n (conv_out_channels m)
                    (conv_out_size h (conv_padding m) (conv_dilation m)
                       (conv_kernel_size m) (conv_stride m))
                    (conv_out_size w (conv_padding m) (conv_dilation m)
                       (conv_kernel_size m) (conv_stride m)))
                 (kernel (MConv2d m) x))
  | None => Raise (RuntimeError "Expected 3D (unbatched) or 4D (batched) input to conv2d")
  end.

Definition ConvTranspose2d_forward (m : ConvTranspose2d) (x : tensor) : result tensor :=
  match as_image (shape x) with
  | Some (n, c, h, w) =>
      if convt_padding m <? 0
      then Raise (RuntimeError "negative padding is not supported")
      else if convt_stride m <=? 0
      then Raise (RuntimeError "non-positive stride is not supported")
      else if convt_dilation m <=? 0
      then Raise (RuntimeError "dilation should be greater than zero")
      else if convt_kernel_size m <=? 0
      then Raise (RuntimeError "kernel size should be greater than zero")
      else if (convt_output_padding m <? 0)
              || (Z.max (convt_stride m) (convt_dilation m) <=? convt_output_padding m)
      then Raise (RuntimeError
                    "output padding must be smaller than either stride or dilation")
      else if convt_in_channels m <? convt_groups m
      then Raise (RuntimeError
                    "expected weight to be at least groups at dimension 0")
      else if negb (c =? convt_in_channels m)
      then Raise (RuntimeError "input channels do not match the weight")
      else
        let ho := convt_out_size h (convt_padding m) (convt_output_padding m)
                    (convt_dilation m) (convt_kernel_size m) (convt_stride m) in
        let wo := convt_out_size w (convt_padding m) (convt_output_padding m)
                    (convt_dilation m) (convt_kernel_size m) (convt_stride m) in
        if (ho <? 0) || (wo <? 0)
        then Raise (RuntimeError "Trying to create tensor with negative dimension")
        else Ok (mkTensor (image_shape n (convt_out_channels m) ho wo)
                   (kernel (MConvTranspose2d m) x))
  | None => Raise (RuntimeError
                     "Expected 3D (unbatched) or 4D (batched) input to conv_transpose2d")
  end.

(** In training mode batch normalisation needs more than one value per
    channel. *)
Definition BatchNorm2d_forward (m : BatchNorm2d) (x : tensor) : result tensor :=
  match shape x with
  | [n; c; h; w] =>
      if n * h * w =? 1
      then Raise (ValueError "Expected more than 1 value per channel when training")
      else if negb (c =? bn_num_features m)
      then Raise (RuntimeError "running_mean should contain as many elements as channels")
      else Ok (mkTensor (shape x) (kernel (MBatchNorm2d m) x))
  | _ => Raise (ValueError "expected 4D input")
  end.

(** Instance normalisation uses the statistics of its input, and needs more
    than one spatial element. *)
Definition InstanceNorm2d_forward (num_features : Z) (x : tensor) : result tensor :=
  match as_image (shape x) with
  | Some (_, _, h, w) =>
      if h * w =? 1
      then Raise (ValueError "Expected more than 1 spatial element when training")
      else Ok (mkTensor (shape x) (kernel (MInstanceNorm2d num_features) x))
  | None => Raise (ValueError "expected 3D or 4D input")
  end.

Definition MaxPool2d_forward (kernel_size stride : Z) (x : tensor) : result tensor :=
  match as_image (shape x) with
  | Some (n, c, h, w) =>
      if (kernel_size <=? 0) || (stride <=? 0)
      then Raise (RuntimeError "kernel size and stride should be greater than zero")
      else
        let ho := conv_out_size h 0 1 kernel_size stride in
        let wo := conv_out_size w 0 1 kernel_size stride in
        if (ho <=? 0) || (wo <=? 0)
        then Raise (RuntimeError "Output size is too small")
        else Ok (mkTensor (image_shape n c ho wo)
                   (kernel (MMaxPool2d kernel_size stride) x))
  | None => Raise (RuntimeError "non-empty 3D or 4D input tensor expected")
  end.

(** class Interpolate: [forward] is
    [F.interpolate(x, scale_factor=self._scale_factor, mode='bilinear',
    align_corners=False)], which wants a 4-D input. *)
Definition Interpolate_forward (m : Interpolate) (x : tensor) : result tensor :=
  match shape x with
  | [n; c; h; w] =>
      if (h * interp_scale_factor m <=? 0) || (w * interp_scale_factor m <=? 0)
      then Raise (RuntimeError "Input and output sizes should be greater than 0")
      else Ok (mkTensor [n; c; h * interp_scale_factor m; w * interp_scale_factor m]
                 (kernel (MInterpolate m) x))
  | _ => Raise (NotImplementedError "bilinear mode needs 4D input")
  end.

(** [m(x)] for a layer [m]. The activations and dropout keep the shape
    ([inplace=True] overwrites a tensor no one else holds here). *)
Definition module_forward (m : module) (x : tensor) : result tensor :=
  match m with
  | MConv2d c => Conv2d_forward c x
  | MConvTranspose2d c => ConvTranspose2d_forward c x
  | MBatchNorm2d b => BatchNorm2d_forward b x
  | MInstanceNorm2d f => InstanceNorm2d_forward f x
  | MReLU _ | MLeakyReLU _ _ | MELU _ | MTanh | MDropout2d _ =>
      Ok (mkTensor (shape x) (kernel m x))
  | MMaxPool2d k s => MaxPool2d_forward k s x
  | MInterpolate i => Interpolate_forward i x
  end.

(** [nn.Sequential.forward]: each module is applied to the output of the
    one before. *)
Fixpoint Sequential_forward {A : Type} (fwd : A -> tensor -> result tensor)
         (ms : list A) (x : tensor) : result tensor :=
  match ms with
  | [] => Ok x
  | m :: rest => y <- fwd m x ;; Sequential_forward fwd rest y
  end.

(** [for i in items: s = body(i, s)] *)
Fixpoint py_for {S : Type} (items : list Z) (body : Z -> S -> result S) (s : S)
  : result S :=
  match items with
  | [] => Ok s
  | i :: rest => s' <- body i s ;; py_for rest body s'
  end.

Fixpoint ctor_for {S : Type} (items : list Z) (body : Z -> S -> ctor S) (s : S)
  : ctor S :=
  match items with
  | [] => cret s
  | i :: rest => (s' <- body i s ;; ctor_for rest body s')%ctor
  end.

(** [l[i]] on a list or a [ModuleList] *)
Definition py_index {A : Type} (l : list A) (i : Z) : result A :=
  let i' := if i <? 0 then i + Z.of_nat (List.length l) else i in
  if i' <? 0 then Raise (IndexError "index out of range")
  else match nth_error l (Z.to_nat i') with
       | Some a => Ok a
       | None => Raise (IndexError "index out of range")
       end.

(** ** class ConvBlock *)

Record ConvBlock : Type := mkConvBlock {
  ConvBlock_conv : module;
  ConvBlock_norm : option module;
  ConvBlock_activation : option module
}.

(** What [self.conv] names before it is called: [nn.Conv2d], or
    [partial(nn.ConvTranspose2d, output_padding=1)]. *)
Inductive conv_class : Type :=
| Conv2d_class
| partial_ConvTranspose2d (output_padding : Z).

(** [ConvBlock.__init__(in_channels, out_channels=None, kernel_size=3,
    stride=1, norm='bn', activation='relu', bias=False, transpose=False)] *)
Definition ConvBlock_init (in_channels : Z) (out_channels : option Z)
           (kernel_size stride : Z) (norm activation : string)
           (bias transpose : bool) : ctor ConvBlock :=
  (let out_channels := py_or out_channels in_channels in
   let padding := int_half (kernel_size - 1) in
   conv <- (if negb transpose then cret Conv2d_class
            else lift (lookup_global "partial") ;;;
                 cret (partial_ConvTranspose2d 1)) ;;
   conv <- match conv with
           | Conv2d_class =>
               nn_Conv2d in_channels out_channels kernel_size stride padding 1 1 bias
           | partial_ConvTranspose2d output_padding =>
               nn_ConvTranspose2d in_channels out_channels kernel_size stride padding
                                  output_padding 1 bias 1
           end ;;
   norm <- (if String.eqb norm "bn"
            then m <- nn_BatchNorm2d out_channels ;; cret (Some m)
            else if String.eqb norm "in"
            then m <- nn_InstanceNorm2d out_channels ;; cret (Some m)
            else if String.eqb norm "none"
            then cret None
            else craise (ValueError ("Invalid norm " ++ norm)%string)) ;;
   activation <- (if String.eqb activation "relu"
                  then m <- nn_ReLU true ;; cret (Some m)
                  else if String.eqb activation "lrelu"
                  then m <- nn_LeakyReLU (1 # 10) true ;; cret (Some m)
                  else if String.eqb activation "elu"
                  then m <- nn_ELU true ;; cret (Some m)
                  else if String.eqb activation "tanh"
                  then m <- nn_Tanh ["inplace"%string] ;; cret (Some m)
                  else if String.eqb activation "none"
                  then cret None
                  else craise (ValueError ("Invalid activation " ++ activation)%string)) ;;
   cret (mkConvBlock conv norm activation))%ctor.

(** [ConvBlock.forward(x)] *)
Definition ConvBlock_forward (self : ConvBlock) (x : tensor) : result tensor :=
  x <- module_forward (ConvBlock_conv self) x ;;
  x <- match ConvBlock_norm self with
       | Some norm => module_forward norm x
       | None => Ok x
       end ;;
  x <- match ConvBlock_activation self with
       | Some activation => module_forward activation x
       | None => Ok x
       end ;;
  Ok x.

(** ** class SpatialGRU *)

Record SpatialGRU : Type := mkSpatialGRU {
  input_size : Z;
  hidden_size : Z;
  gru_bias_init : R;
  conv_update : module;
  conv_reset : module;
  conv_state_tilde : ConvBlock
}.

(** [SpatialGRU.__init__(input_size, hidden_size, gru_bias_init=0.0,
    norm='bn', activation='relu')] *)
Definition SpatialGRU_init (input_size hidden_size : Z) (gru_bias_init : R)
           (norm activation : string) : ctor SpatialGRU :=
  (conv_update <- nn_Conv2d (input_size + hidden_size) hidden_size 3 1 1 1 1 true ;;
   conv_reset <- nn_Conv2d (input_size + hidden_size) hidden_size 3 1 1 1 1 true ;;
   conv_state_tilde <- ConvBlock_init (input_size + hidden_size) (Some hidden_size)
                                      3 1 norm activation false false ;;
   cret (mkSpatialGRU input_size hidden_size gru_bias_init
                      conv_update conv_reset conv_state_tilde))%ctor.

(** [SpatialGRU.gru_cell(x, state)] *)
Definition gru_cell (self : SpatialGRU) (x state : tensor) : result tensor :=
  (* Compute gates *)
  x_and_state <- torch_cat1 [x; state] ;;
  update_gate <- module_forward (conv_update self) x_and_state ;;
  reset_gate <- module_forward (conv_reset self) x_and_state ;;
  (* Add bias to initialise gate as close to identity function *)
  let update_gate := torch_sigmoid (add_scalar update_gate (gru_bias_init self)) in
  let reset_gate := torch_sigmoid (add_scalar reset_gate (gru_bias_init self)) in
  (* Compute proposal state *)
  reset_state <- torch_mul (rsub_scalar r1 reset_gate) state ;;
  x_and_reset <- torch_cat1 [x; reset_state] ;;
  state_tilde <- ConvBlock_forward (conv_state_tilde self) x_and_reset ;;
  kept <- torch_mul (rsub_scalar r1 update_gate) state ;;
  proposed <- torch_mul update_gate state_tilde ;;
  torch_add kept proposed.

(** One turn of the loop of [forward]: the pair is [(rnn_state, rnn_output)]. *)
Definition gru_step (self : SpatialGRU) (x : tensor) (flow : option tensor)
           (mode : string) (t : Z) (s : tensor * list tensor)
  : result (tensor * list tensor) :=
  let '(rnn_state, rnn_output) := s in
  x_t <- select1 x t ;;
  rnn_state <- match flow with
               | Some flow => flow_t <- select1 flow t ;;
                              warp_features rnn_state flow_t mode
               | None => Ok rnn_state
               end ;;
  (* propagate rnn state *)
  rnn_state <- gru_cell self x_t rnn_state ;;
  Ok (rnn_state, rnn_output ++ [rnn_state]).

(** [SpatialGRU.forward(x, state=None, flow=None, mode='bilinear')] *)
Definition SpatialGRU_forward (self : SpatialGRU) (x : tensor) (state : option tensor)
           (flow : option tensor) (mode : string) : result tensor :=
  (* Check size *)
  py_assert (Z.of_nat (List.length (shape x)) =? 5) "Input tensor must be BxTxCxHxW." ;;;
  match shape x with
  | [b; timesteps; c; h; w] =>
      py_assert (c =? input_size self)
        ("feature sizes must match, got input " ++ str_of_Z c
         ++ " for layer with size " ++ str_of_Z (input_size self))%string ;;;
      (* recurrent layers *)
      rnn_state <- match state with
                   | None => torch_zeros [b; hidden_size self; h; w]
                   | Some state => Ok state
                   end ;;
      s <- py_for (py_range timesteps) (gru_step self x flow mode) (rnn_state, []) ;;
      (* reshape rnn output to batch tensor *)
      torch_stack1 (snd s)
  | _ => Raise (ValueError "not enough values to unpack (expected 5)")
  end.

(** ** class Bottleneck *)

Record Bottleneck : Type := mkBottleneck {
  Bottleneck_downsample : bool;
  Bottleneck_layers : list module;
  Bottleneck_projection : option (list module)
}.

(** [Bottleneck.__init__(in_channels, out_channels=None, kernel_size=3,
    dilation=1, groups=1, upsample=False, downsample=False, dropout=0.0)] *)
Definition Bottleneck_init (in_channels : Z) (out_channels : option Z)
           (kernel_size dilation groups : Z) (upsample downsample : bool)
           (dropout : Q) : ctor Bottleneck :=
  (let bottleneck_channels := int_half in_channels in
   let out_channels := py_or out_channels in_channels in
   let padding_size := ((kernel_size - 1) * dilation + 1) / 2 in
   (* Define the main conv operation *)
   lift (py_assert (dilation =? 1) "") ;;;
   bottleneck_conv <-
     (if upsample then
        lift (py_assert (negb downsample)
                "downsample and upsample not possible simultaneously.") ;;;
        nn_ConvTranspose2d bottleneck_channels bottleneck_channels kernel_size 2
                           padding_size padding_size groups false 1
      else if downsample then
        nn_Conv2d bottleneck_channels bottleneck_channels kernel_size 2
                  padding_size dilation groups false
      else
        nn_Conv2d bottleneck_channels bottleneck_channels kernel_size 1
                  padding_size dilation groups false) ;;
   (* First projection with 1x1 kernel *)
   l0 <- nn_Conv2d in_channels bottleneck_channels 1 1 0 1 1 false ;;
   l1 <- nn_BatchNorm2d bottleneck_channels ;;
   l2 <- nn_ReLU true ;;
   (* Second conv block *)
   l4 <- nn_BatchNorm2d bottleneck_channels ;;
   l5 <- nn_ReLU true ;;
   (* Final projection with 1x1 kernel *)
   l6 <- nn_Conv2d bottleneck_channels out_channels 1 1 0 1 1 false ;;
   l7 <- nn_BatchNorm2d out_channels ;;
   l8 <- nn_ReLU true ;;
   (* Regulariser *)
   l9 <- nn_Dropout2d dropout ;;
   layers <- lift (nn_Sequential
                     (map ArgModule [l0; l1; l2; bottleneck_conv; l4; l5; l6; l7; l8; l9])) ;;
   if (out_channels =? in_channels) && negb downsample && negb upsample then
     cret (mkBottleneck downsample layers None)
   else
     let projection := [] in
     projection <-
       (if upsample then
          m <- Interpolate_init 2 ;;
          lift (list_append projection [MInterpolate m])
        else if downsample then
          m <- nn_MaxPool2d 2 2 ;;
          lift (list_append projection [m])
        else cret projection) ;;
     p0 <- nn_Conv2d in_channels out_channels 1 1 0 1 1 false ;;
     p1 <- nn_BatchNorm2d out_channels ;;
     projection <- lift (list_append projection [p0; p1]) ;;
     projection <- lift (nn_Sequential [ArgList projection]) ;;
     cret (mkBottleneck downsample layers (Some projection)))%ctor.

(** [Bottleneck.forward(x)] *)
Definition Bottleneck_forward (self : Bottleneck) (x : tensor) : result tensor :=
  x_residual <- Sequential_forward module_forward (Bottleneck_layers self) x ;;
  match Bottleneck_projection self with
  | Some projection =>
      x <- (if Bottleneck_downsample self then
              (* pad h/w dimensions if they are odd to prevent shape mismatch
                 with residual layer *)
              w <- shape_from_end x 1 ;;
              h <- shape_from_end x 2 ;;
              F_pad x 0 (w mod 2) 0 (h mod 2) r0
            else Ok x) ;;
      shortcut <- Sequential_forward module_forward projection x ;;
      torch_add x_residual shortcut
  | None => torch_add x_residual x
  end.

(** ** class FuturePrediction *)

Record FuturePrediction : Type := mkFuturePrediction {
  n_gru_blocks : Z;
  spatial_grus : list SpatialGRU;
  res_blocks : list (list Bottleneck)
}.

(** [[Bottleneck(in_channels) for _ in range(n_res_layers)]] *)
Definition bottleneck_stack (in_channels n_res_layers : Z) : ctor (list Bottleneck) :=
  ctor_for (py_range n_res_layers)
    (fun _ acc => (b <- Bottleneck_init in_channels None 3 1 1 false false 0 ;;
                   cret (acc ++ [b]))%ctor)
    [].

(** One turn of the loop of [__init__]: the pair is
    [(self.spatial_grus, self.res_blocks)]. *)
Definition FuturePrediction_init_step (in_channels latent_dim n_res_layers : Z)
           (i : Z) (s : list SpatialGRU * list (list Bottleneck))
  : ctor (list SpatialGRU * list (list Bottleneck)) :=
  (let '(spatial_grus, res_blocks) := s in
   let gru_in_channels := if i =? 0 then latent_dim else in_channels in
   gru <- SpatialGRU_init gru_in_channels in_channels r0 "bn" "relu" ;;
   spatial_grus <- lift (list_append spatial_grus [gru]) ;;
   blocks <- bottleneck_stack in_channels n_res_layers ;;
   blocks <- lift (nn_Sequential (map ArgModule blocks)) ;;
   res_blocks <- lift (list_append res_blocks [blocks]) ;;
   cret (spatial_grus, res_blocks))%ctor.

(** [FuturePrediction.__init__(in_channels, latent_dim, n_gru_blocks=3,
    n_res_layers=3)] *)
Definition FuturePrediction_init (in_channels latent_dim n_gru_blocks n_res_layers : Z)
  : ctor FuturePrediction :=
  (s <- ctor_for (py_range n_gru_blocks)
          (FuturePrediction_init_step in_channels latent_dim n_res_layers)
          ([], []) ;;
   cret (mkFuturePrediction n_gru_blocks (fst s) (snd s)))%ctor.

(** One turn of the loop of [forward]. *)
Definition FuturePrediction_stage (self : FuturePrediction) (hidden_state : tensor)
           (i : Z) (x : tensor) : result tensor :=
  gru <- py_index (spatial_grus self) i ;;
  x <- SpatialGRU_forward gru x (Some hidden_state) None "bilinear" ;;
  match shape x with
  | [b; n_future; c; h; w] =>
      blocks <- py_index (res_blocks self) i ;;
      flat <- tensor_view x [b * n_future; c; h; w] ;;
      x <- Sequential_forward Bottleneck_forward blocks flat ;;
      tensor_view x [b; n_future; c; h; w]
  | _ => Raise (ValueError "not enough values to unpack (expected 5)")
  end.

(** [FuturePrediction.forward(x, hidden_state)] *)
Definition FuturePrediction_forward (self : FuturePrediction) (x hidden_state : tensor)
  : result tensor :=
  py_for (py_range (n_gru_blocks self)) (FuturePrediction_stage self hidden_state) x.

(** [net = FuturePrediction(...); net(x, hidden_state)] *)
Definition run_FuturePrediction (in_channels latent_dim n_gru_blocks n_res_layers : Z)
           (x hidden_state : tensor) (n : nat) : result tensor :=
  match FuturePrediction_init in_channels latent_dim n_gru_blocks n_res_layers n with
  | Ok (net, _) => FuturePrediction_forward net x hidden_state
  | Raise e => Raise e
  end.

(** ** class FPN (fpn.py) *)

(** [range(start, stop, -1)] *)
Definition py_range_down (start stop : Z) : list Z :=
  map (fun k => start - Z.of_nat k) (seq 0 (Z.to_nat (start - stop))).

(** [l[i] = v] *)
Definition py_setitem {A : Type} (l : list A) (i : Z) (v : A) : result (list A) :=
  let i' := if i <? 0 then i + Z.of_nat (List.length l) else i in
  if (i' <? 0) || (Z.of_nat (List.length l) <=? i')
  then Raise (IndexError "list assignment index out of range")
  else Ok (firstn (Z.to_nat i') l ++ v :: skipn (S (Z.to_nat i')) l).

(** [i in l] for a list of ints *)
Definition py_in (i : Z) (l : list Z) : bool := existsb (Z.eqb i) l.

(** [enumerate(l)] *)
Definition py_enumerate {A : Type} (l : list A) : list (Z * A) :=
  combine (map Z.of_nat (seq 0 (List.length l))) l.

(** The source index of nearest-neighbour resampling along one axis. The
    library copies when the sizes agree and halves the index when the size
    doubles. Otherwise the index is [min(floor(dst * scale), in_size - 1)]
    with [scale] the quotient [in_size / out_size] rounded to single
    precision, which can fall one below the exact quotient: that value is
    [nearest_source_index]. *)
Definition nearest_index (dst in_size out_size : Z) : Z :=
  if out_size =? in_size then dst
  else if out_size =? 2 * in_size then Z.shiftr dst 1
  else nearest_source_index dst in_size out_size.

Fixpoint nearest_axes (idx in_sizes out_sizes : list Z) : list Z :=
  match idx, in_sizes, out_sizes with
  | i :: idx', a :: in', b :: out' => nearest_index i a b :: nearest_axes idx' in' out'
  | _, _, _ => []
  end.

(** [F.interpolate(x, size=size)], in the default mode ['nearest']: the
    batch and channel axes stay, the spatial axes take the sizes asked for. *)
Definition F_interpolate_size (x : tensor) (size : list Z) : result tensor :=
  let ndim := List.length (shape x) in
  if negb (Nat.eqb (List.length size + 2) ndim)
  then Raise (ValueError
                "Input and output must have the same number of spatial dimensions")
  else if negb (Nat.leb 3 ndim && Nat.leb ndim 5)
  then Raise (NotImplementedError
                "Input Error: Only 3D, 4D and 5D input Tensors supported")
  else if existsb (fun d => d <=? 0) (skipn 2 (shape x)) || existsb (fun d => d <=? 0) size
  then Raise (RuntimeError "Input and output sizes should be greater than 0")
  else Ok (mkTensor (firstn 2 (shape x) ++ size)
             (fun idx => data x (firstn 2 idx
                                 ++ nearest_axes (skipn 2 idx) (skipn 2 (shape x)) size))).

(** [a += b] on tensors: [b] is broadcast to the shape of [a], which the
    operation cannot change. *)
Definition torch_iadd (a b : tensor) : result tensor :=
  match broadcast_shapes (shape a) (shape b) with
  | Some s =>
      if shape_eqb s (shape a)
      then Ok (mkTensor (shape a)
                 (fun idx => radd (data a idx) (data b (bcast_idx (shape b) idx))))
      else Raise (RuntimeError "output shape doesn't match the broadcast shape")
  | None => Raise (RuntimeError
                     "The size of tensor a must match the size of tensor b")
  end.

Record FPN : Type := mkFPN {
  FPN_in_channels : list Z;
  lateral_convs : list module;
  fpn_convs : list module;
  out_ids : list Z
}.

(** One turn of the loop of [__init__]: the pair is
    [(self.lateral_convs, self.fpn_convs)]. *)
Definition FPN_init_step (out_channels : Z) (out_ids : list Z) (item : Z * Z)
           (s : list module * list module) : ctor (list module * list module) :=
  (let '(i, in_channel) := item in
   let '(lateral_convs, fpn_convs) := s in
   lateral_conv <- nn_Conv2d in_channel out_channels 1 1 0 1 1 true ;;
   lateral_convs <- lift (list_append lateral_convs [lateral_conv]) ;;
   if py_in i out_ids then
     fpn_conv <- nn_Conv2d out_channels out_channels 3 1 1 1 1 true ;;
     fpn_convs <- lift (list_append fpn_convs [fpn_conv]) ;;
     cret (lateral_convs, fpn_convs)
   else cret (lateral_convs, fpn_convs))%ctor.

Fixpoint ctor_for_each {A S : Type} (items : list A) (body : A -> S -> ctor S) (s : S)
  : ctor S :=
  match items with
  | [] => cret s
  | i :: rest => (s' <- body i s ;; ctor_for_each rest body s')%ctor
  end.

(** [FPN.__init__(in_channels, out_channels=512, out_ids=[0,])] *)
Definition FPN_init (in_channels : list Z) (out_channels : Z) (out_ids : list Z)
  : ctor FPN :=
  (s <- ctor_for_each (py_enumerate in_channels)
          (FPN_init_step out_channels out_ids) ([], []) ;;
   cret (mkFPN in_channels (fst s) (snd s) out_ids))%ctor.

(** [[f(i, m) for i, m in items]] *)
Fixpoint py_comprehension {A B : Type} (items : list A) (f : A -> result B)
  : result (list B) :=
  match items with
  | [] => Ok []
  | i :: rest => y <- f i ;; ys <- py_comprehension rest f ;; Ok (y :: ys)
  end.

(** One turn of the top-down loop of [forward]. *)
Definition FPN_merge_step (i : Z) (laterals : list tensor) : result (list tensor) :=
  lower <- py_index laterals (i - 1) ;;
  let prev_shape := skipn 2 (shape lower) in
  target <- py_index laterals (i - 1) ;;
  upper <- py_index laterals i ;;
  up <- F_interpolate_size upper prev_shape ;;
  merged <- torch_iadd target up ;;
  py_setitem laterals (i - 1) merged.

(** [FPN.forward(inputs)] *)
Definition FPN_forward (self : FPN) (inputs : list tensor) : result (list tensor) :=
  py_assert (Nat.eqb (List.length inputs) (List.length (FPN_in_channels self))) "" ;;;
  laterals <- py_comprehension (py_enumerate (lateral_convs self))
                (fun item => let '(i, lateral_conv) := item in
                             x <- py_index inputs i ;;
                             module_forward lateral_conv x) ;;
  laterals <- py_for (py_range_down (Z.of_nat (List.length laterals) - 1) 0)
                FPN_merge_step laterals ;;
  outs <- py_comprehension (out_ids self)
            (fun i => fpn_conv <- py_index (fpn_convs self) i ;;
                      lateral <- py_index laterals i ;;
                      module_forward fpn_conv lateral) ;;
  Ok outs.

(** ** The step of the recurrence, in the words of the specification

    [update_gate = sigmoid(conv_update(concat) + bias_init)],
    [reset_gate = sigmoid(conv_reset(concat) + bias_init)],
    [state_tilde = ConvBlock(concat(input_t, (1 - reset_gate) * hidden))],
    new hidden state [= (1 - update_gate) * hidden + update_gate * state_tilde]. *)

Definition gate_spec (conv : module) (bias_init : R) (input_t hidden : tensor)
  : result tensor :=
  concat <- torch_cat1 [input_t; hidden] ;;
  pre <- module_forward conv concat ;;
  Ok (torch_sigmoid (add_scalar pre bias_init)).

Definition update_gate_spec (self : SpatialGRU) (input_t hidden : tensor) : result tensor :=
  gate_spec (conv_update self) (gru_bias_init self) input_t hidden.

Definition reset_gate_spec (self : SpatialGRU) (input_t hidden : tensor) : result tensor :=
  gate_spec (conv_reset self) (gru_bias_init self) input_t hidden.

Definition state_tilde_spec (self : SpatialGRU) (input_t hidden : tensor) : result tensor :=
  reset_gate <- reset_gate_spec self input_t hidden ;;
  kept <- torch_mul (rsub_scalar r1 reset_gate) hidden ;;
  concat <- torch_cat1 [input_t; kept] ;;
  ConvBlock_forward (conv_state_tilde self) concat.

Definition gru_cell_spec (self : SpatialGRU) (input_t hidden : tensor) : result tensor :=
  update_gate <- update_gate_spec self input_t hidden ;;
  state_tilde <- state_tilde_spec self input_t hidden ;;
  old <- torch_mul (rsub_scalar r1 update_gate) hidden ;;
  new <- torch_mul update_gate state_tilde ;;
  torch_add old new.

(** One step of the specification: warp the carried state when a motion
    field is supplied, then update it. *)
Definition gru_step_spec (self : SpatialGRU) (x : tensor) (flow : option tensor)
           (mode : string) (t : Z) (hidden : tensor) : result tensor :=
  input_t <- select1 x t ;;
  hidden <- match flow with
            | Some flow => flow_t <- select1 flow t ;; warp_features hidden flow_t mode
            | None => Ok hidden
            end ;;
  gru_cell_spec self input_t hidden.

(** ** The stages of FuturePrediction, in the words of the specification

    Each stage runs its SpatialGRU over the sequence, seeded with the
    current-state map, flattens [B,T,C,H,W] to [B*T,C,H,W], applies its
    Bottleneck blocks and reshapes back; the stages run one after the other. *)

Definition refine_spec (blocks : list Bottleneck) (y : tensor) : result tensor :=
  match shape y with
  | [b; t; c; h; w] =>
      flat <- tensor_view y [b * t; c; h; w] ;;
      refined <- Sequential_forward Bottleneck_forward blocks flat ;;
      tensor_view refined [b; t; c; h; w]
  | _ => Raise (ValueError "not enough values to unpack (expected 5)")
  end.

Definition stage_spec (current_state : tensor) (stage : SpatialGRU * list Bottleneck)
           (x : tensor) : result tensor :=
  y <- SpatialGRU_forward (fst stage) x (Some current_state) None "bilinear" ;;
  refine_spec (snd stage) y.

Fixpoint stages_spec (current_state : tensor) (stages : list (SpatialGRU * list Bottleneck))
         (x : tensor) : result tensor :=
  match stages with
  | [] => Ok x
  | stage :: rest =>
      y <- stage_spec current_state stage x ;;
      stages_spec current_state rest y
  end.

Definition FuturePrediction_spec (self : FuturePrediction) (x current_state : tensor)
  : result tensor :=
  stages_spec current_state (combine (spatial_grus self) (res_blocks self)) x.

(** ** Predicates of the statements *)

Definition result_shape (r : result tensor) : result (list Z) :=
  match r with
  | Ok y => Ok (shape y)
  | Raise e => Raise e
  end.

(** Two tensors are equal: same shape, same element at every index. *)
Definition tensor_eq (x y : tensor) : Prop :=
  shape x = shape y /\ forall idx, in_range (shape x) idx -> data x idx = data y idx.

(** Every element of the tensor is zero. *)
Definition all_zero (x : tensor) : Prop :=
  forall idx, in_range (shape x) idx -> data x idx = r0.

(** The shortcut test of [Bottleneck.__init__]: anything but equal channel
    counts without resampling needs a projection. *)
Definition requires_projection (in_channels : Z) (out_channels : option Z)
           (upsample downsample : bool) : bool :=
  negb ((py_or out_channels in_channels =? in_channels)
        && negb downsample && negb upsample).

(** The residual layers [Bottleneck(in_channels)] builds with its defaults
    (kernel size 3, no resampling, dropout 0), [n] being the first free
    parameter block: the 3x3 convolution is constructed first, the members of
    the [nn.Sequential] after it, in order. *)
Definition default_Bottleneck_layers (in_channels : Z) (n : nat) : list module :=
  let bottleneck_channels := int_half in_channels in
  [MConv2d (mkConv2d (1 + n) in_channels bottleneck_channels 1 1 0 1 1 false);
   MBatchNorm2d (mkBatchNorm2d (2 + n) bottleneck_channels);
   MReLU true;
   MConv2d (mkConv2d n bottleneck_channels bottleneck_channels 3 1 1 1 1 false);
   MBatchNorm2d (mkBatchNorm2d (3 + n) bottleneck_channels);
   MReLU true;
   MConv2d (mkConv2d (4 + n) bottleneck_channels in_channels 1 1 0 1 1 false);
   MBatchNorm2d (mkBatchNorm2d (5 + n) in_channels);
   MReLU true;
   MDropout2d 0].

(** The shape of a feature map of a pyramid: [N,out,h,w] with a positive
    spatial size. *)
Definition level (N out : Z) (s : list Z) : Prop :=
  exists h w, s = [N; out; h; w] /\ 1 <= h /\ 1 <= w.

(** The arguments [Bottleneck.__init__] hands to the torch layers are ones
    torch accepts: channel counts and kernel size are not negative, [groups]
    is positive and divides the bottleneck width, [dropout] is a
    probability. *)
Definition layer_arguments_valid (in_channels : Z) (out_channels : option Z)
           (kernel_size groups : Z) (dropout : Q) : bool :=
  (0 <=? in_channels) && (0 <=? py_or out_channels in_channels)
  && (0 <=? kernel_size) && (0 <? groups)
  && (int_half in_channels mod groups =? 0)
  && Qle_bool 0 dropout && Qle_bool dropout 1.

Definition known_norm (norm : string) : bool :=
  String.eqb norm "bn" || String.eqb norm "in" || String.eqb norm "none".

Definition known_activation (activation : string) : bool :=
  String.eqb activation "relu" || String.eqb activation "lrelu"
  || String.eqb activation "elu" || String.eqb activation "tanh"
  || String.eqb activation "none".

(** The normalisation of a block built with [norm] has statistics to
    compute on a batch [b,_,h,w]: more than one value per channel for batch
    normalisation, more than one spatial element for instance
    normalisation. *)
Definition norm_has_statistics (norm : string) (b h w : Z) : Prop :=
  (norm = "bn"%string -> b * h * w <> 1) /\ (norm = "in"%string -> h * w <> 1).

(** The hidden state after [k] steps of the specification, from the state
    [h0] the recurrence starts with. *)
Fixpoint carried_spec (self : SpatialGRU) (x : tensor) (flow : option tensor)
         (mode : string) (h0 : tensor) (k : nat) : result tensor :=
  match k with
  | O => Ok h0
  | S k' =>
      h <- carried_spec self x flow mode h0 k' ;;
      gru_step_spec self x flow mode (Z.of_nat k') h
  end.

(** The state the recurrence starts with: the one supplied, or zeros. *)
Definition initial_state (self : SpatialGRU) (x : tensor) (state : option tensor)
  : tensor :=
  match state with
  | Some state => state
  | None => mkTensor [nth 0 (shape x) 0; hidden_size self;
                      nth 3 (shape x) 0; nth 4 (shape x) 0]
              (fun _ => r0)
  end.

(** The motion compensation, of which only the import is at hand, is
    taken to return a state of the shape it is given. *)
Definition warp_keeps_shape (mode : string) (state_shape flow_shape : list Z) : Prop :=
  forall state flow_t : tensor,
    shape state = state_shape -> shape flow_t = flow_shape ->
    exists warped, warp_features state flow_t mode = Ok warped
                   /\ shape warped = state_shape.

End Torch.

(** ** A concrete instance

    Integer scalars, a logistic function that saturates (0 below zero, 1
    from zero on), layers whose parameters are all zero and a motion
    compensation that leaves the state as it is. *)

Definition ZScalar : Scalar :=
  {| R := Z; r0 := 0; r1 := 1;
     radd := Z.add; rmul := Z.mul; rsub := Z.sub; ropp := Z.opp;
     sigmoid := fun v => if v <? 0 then 0 else 1 |}.

Definition ZKernels : @Kernels ZScalar :=
  @Build_Kernels ZScalar (fun _ _ _ => 0)
    (fun dst in_size out_size => Z.min (dst * in_size / out_size) (in_size - 1))
    (fun state _ _ => Ok state).

Definition ZExact : ExactArith ZScalar :=
  @Build_ExactArith ZScalar Zth.

Definition Ztensor : Type := @tensor ZScalar.

(** [torch.zeros(4,5,64,200,200)] and [torch.zeros(4,64,200,200)] *)
Definition reference_x : Ztensor :=
  @mkTensor ZScalar [4; 5; 64; 200; 200] (fun _ => 0).
Definition reference_hidden_state : Ztensor :=
  @mkTensor ZScalar [4; 64; 200; 200] (fun _ => 0).

(** A tensor whose elements are their own row-major offsets. *)
Definition arange (s : list Z) : Ztensor :=
  @mkTensor ZScalar s (fun idx => ravel s idx).

(** [SpatialGRU(3, 2)], as its constructor builds it from parameter block 0. *)
Definition SpatialGRU_3_2 : @SpatialGRU ZScalar :=
  @mkSpatialGRU ZScalar 3 2 0
    (MConv2d (mkConv2d 0 5 2 3 1 1 1 1 true))
    (MConv2d (mkConv2d 1 5 2 3 1 1 1 1 true))
    (mkConvBlock (MConv2d (mkConv2d 2 5 2 3 1 1 1 1 false))
                 (Some (MBatchNorm2d (mkBatchNorm2d 3 2)))
                 (Some (MReLU true))).

(** * Properties *)

(** ** Constructors *)

Lemma cbind_raises_l {A B : Type} (c : ctor A) (k : A -> ctor B) n :
  raises (c n) -> raises (cbind c k n).
Proof.
  intros [e He]. unfold cbind. rewrite He. exists e. reflexivity.
Qed.

Lemma cbind_raises_r {A B : Type} (c : ctor A) (k : A -> ctor B) n :
  (forall a n', raises (k a n')) -> raises (cbind c k n).
Proof.
  intros Hk. unfold cbind. destruct (c n) as [[a n']|e].
  - apply Hk.
  - exists e. reflexivity.
Qed.

Lemma craise_raises {A : Type} (e : exn) n : raises (@craise A e n).
Proof. exists e. reflexivity. Qed.

Lemma nn_Tanh_inplace_raises n : raises (nn_Tanh ["inplace"%string] n).
Proof. apply craise_raises. Qed.

Lemma list_append_two {A : Type} (l : list A) (a b : A) :
  list_append l [a; b]
  = Raise (TypeError "list.append() takes exactly one argument (2 given)").
Proof. reflexivity. Qed.

Lemma lookup_partial :
  lookup_global "partial" = Raise (NameError "name 'partial' is not defined").
Proof. reflexivity. Qed.

(** The constructor of [ConvBlock] never gets past [nn.Tanh(inplace=True)]. *)
Lemma ConvBlock_init_tanh_raises in_channels out_channels kernel_size stride norm
      bias transpose :
  ctor_raises (ConvBlock_init in_channels out_channels kernel_size stride norm
                              "tanh" bias transpose).
Proof.
  intros n. unfold ConvBlock_init.
  apply cbind_raises_r; intros cls n1.
  apply cbind_raises_r; intros conv n2.
  apply cbind_raises_r; intros nm n3.
  apply cbind_raises_l. simpl.
  eexists. reflexivity.
Qed.

Lemma convnd_check_ok a b k g :
  0 < g -> a mod g = 0 -> b mod g = 0 -> 0 <= a -> 0 <= b -> 0 <= k ->
  convnd_check a b k g = Ok tt.
Proof.
  intros Hg Ha Hb Ha0 Hb0 Hk. unfold convnd_check.
  replace (g <=? 0) with false by (symmetry; apply Z.leb_gt; lia).
  rewrite Ha, Hb. simpl.
  replace (a <? 0) with false by (symmetry; apply Z.ltb_ge; lia).
  replace (b <? 0) with false by (symmetry; apply Z.ltb_ge; lia).
  replace (k <? 0) with false by (symmetry; apply Z.ltb_ge; lia).
  reflexivity.
Qed.

Lemma convnd_check_ok1 a b k :
  0 <= a -> 0 <= b -> 0 <= k -> convnd_check a b k 1 = Ok tt.
Proof.
  intros. apply convnd_check_ok; try lia; apply Z.mod_1_r.
Qed.

Lemma convnd_check_inv a b k g :
  convnd_check a b k g = Ok tt ->
  0 < g /\ a mod g = 0 /\ b mod g = 0 /\ 0 <= a /\ 0 <= b /\ 0 <= k.
Proof.
  unfold convnd_check.
  destruct (Z.leb_spec g 0); [discriminate|].
  destruct (Z.eqb_spec (a mod g) 0); simpl; [|discriminate].
  destruct (Z.eqb_spec (b mod g) 0); simpl; [|discriminate].
  destruct (Z.ltb_spec a 0); simpl; [discriminate|].
  destruct (Z.ltb_spec b 0); simpl; [discriminate|].
  destruct (Z.ltb_spec k 0); simpl; [discriminate|].
  intros _. repeat split; assumption.
Qed.

Lemma nn_Conv2d_ok i o k s p d g b n :
  convnd_check i o k g = Ok tt ->
  nn_Conv2d i o k s p d g b n = Ok (MConv2d (mkConv2d n i o k s p d g b), S n).
Proof.
  intros H. unfold nn_Conv2d, cbind, lift. rewrite H. reflexivity.
Qed.

Lemma nn_Conv2d_inv i o k s p d g b n m n' :
  nn_Conv2d i o k s p d g b n = Ok (m, n') ->
  convnd_check i o k g = Ok tt /\ m = MConv2d (mkConv2d n i o k s p d g b) /\ n' = S n.
Proof.
  unfold nn_Conv2d, cbind, lift.
  destruct (convnd_check i o k g) as [[]|e]; [|discriminate].
  simpl. intros H. inversion H. auto.
Qed.

Lemma nn_ConvTranspose2d_ok i o k s p op g b d n :
  convnd_check i o k g = Ok tt ->
  nn_ConvTranspose2d i o k s p op g b d n
  = Ok (MConvTranspose2d (mkConvTranspose2d n i o k s p op d g b), S n).
Proof.
  intros H. unfold nn_ConvTranspose2d, cbind, lift. rewrite H. reflexivity.
Qed.

Lemma nn_BatchNorm2d_ok f n :
  0 <= f -> nn_BatchNorm2d f n = Ok (MBatchNorm2d (mkBatchNorm2d n f), S n).
Proof.
  intros H. unfold nn_BatchNorm2d.
  replace (f <? 0) with false by (symmetry; apply Z.ltb_ge; lia).
  reflexivity.
Qed.

Lemma nn_Dropout2d_ok p n :
  Qle_bool 0 p = true -> Qle_bool p 1 = true ->
  nn_Dropout2d p n = Ok (MDropout2d p, n).
Proof.
  intros H0 H1. unfold nn_Dropout2d. rewrite H0, H1. reflexivity.
Qed.

Lemma int_half_nonneg a : 0 <= a -> 0 <= int_half a.
Proof.
  intros H. unfold int_half. apply Z.quot_pos; lia.
Qed.

(** A shortcut that needs a projection is never built: whatever happens
    before, the two-argument [append] raises. *)
Lemma Bottleneck_init_projection_raises in_channels out_channels kernel_size dilation
      groups upsample downsample dropout :
  requires_projection in_channels out_channels upsample downsample = true ->
  ctor_raises (Bottleneck_init in_channels out_channels kernel_size dilation groups
                               upsample downsample dropout).
Proof.
  unfold requires_projection. intros Hp n. apply negb_true_iff in Hp.
  unfold Bottleneck_init. cbv zeta.
  do 12 (apply cbind_raises_r; intros ? ?).
  rewrite Hp.
  do 3 (apply cbind_raises_r; intros ? ?).
  apply cbind_raises_l. rewrite list_append_two. eexists. reflexivity.
Qed.

Lemma cbind_ok {A B : Type} (c : ctor A) (k : A -> ctor B) n a n' :
  c n = Ok (a, n') -> cbind c k n = k a n'.
Proof. intros H. unfold cbind. rewrite H. reflexivity. Qed.

Lemma lift_ok {A : Type} (c : result A) a n : c = Ok a -> lift c n = Ok (a, n).
Proof. intros ->. reflexivity. Qed.

Lemma cret_ok {A : Type} (a : A) n : cret a n = Ok (a, n).
Proof. reflexivity. Qed.

Lemma layer_arguments_valid_inv in_channels out_channels kernel_size groups dropout :
  layer_arguments_valid in_channels out_channels kernel_size groups dropout = true ->
  0 <= in_channels /\ 0 <= py_or out_channels in_channels /\ 0 <= kernel_size
  /\ 0 < groups /\ int_half in_channels mod groups = 0
  /\ Qle_bool 0 dropout = true /\ Qle_bool dropout 1 = true.
Proof.
  unfold layer_arguments_valid. intros H.
  repeat (apply andb_prop in H; destruct H as [H ?]).
  repeat split; try assumption.
  - apply Z.leb_le; assumption.
  - apply Z.leb_le; assumption.
  - apply Z.leb_le; assumption.
  - apply Z.ltb_lt; assumption.
  - apply Z.eqb_eq; assumption.
Qed.

Ltac ctor_ok tac := erewrite cbind_ok by tac; cbv beta.

Ltac layer_ok :=
  solve [ apply nn_Conv2d_ok; first [ apply convnd_check_ok1; lia
                                     | apply convnd_check_ok; lia ]
        | apply nn_ConvTranspose2d_ok; apply convnd_check_ok; lia
        | apply nn_BatchNorm2d_ok; lia
        | apply nn_Dropout2d_ok; assumption
        | apply cret_ok
        | apply lift_ok; reflexivity
        | reflexivity ].

(** Without a projection, and with arguments torch accepts, the constructor
    builds the ten residual layers and an identity shortcut. *)
Lemma Bottleneck_init_identity in_channels out_channels kernel_size groups dropout n :
  requires_projection in_channels out_channels false false = false ->
  layer_arguments_valid in_channels out_channels kernel_size groups dropout = true ->
  exists layers,
    Bottleneck_init in_channels out_channels kernel_size 1 groups false false dropout n
    = Ok (mkBottleneck false layers None, (6 + n)%nat)
    /\ List.length layers = 10%nat.
Proof.
  unfold requires_projection. intros Hp Hv.
  apply negb_false_iff in Hp.
  apply layer_arguments_valid_inv in Hv.
  destruct Hv as (Hi & Ho & Hk & Hg & Hm & Hd0 & Hd1).
  pose proof (int_half_nonneg _ Hi) as Hb.
  unfold Bottleneck_init. cbv zeta.
  do 12 (ctor_ok layer_ok).
  rewrite Hp. eexists. split; reflexivity.
Qed.

(** With arguments torch accepts, a shortcut that needs a projection stops the
    constructor at the two-argument [append]. *)
Lemma Bottleneck_init_projection_TypeError in_channels out_channels kernel_size groups
      upsample downsample dropout n :
  requires_projection in_channels out_channels upsample downsample = true ->
  upsample && downsample = false ->
  layer_arguments_valid in_channels out_channels kernel_size groups dropout = true ->
  Bottleneck_init in_channels out_channels kernel_size 1 groups upsample downsample
                  dropout n
  = Raise (TypeError "list.append() takes exactly one argument (2 given)").
Proof.
  unfold requires_projection. intros Hp Hud Hv.
  apply negb_true_iff in Hp.
  apply layer_arguments_valid_inv in Hv.
  destruct Hv as (Hi & Ho & Hk & Hg & Hm & Hd0 & Hd1).
  pose proof (int_half_nonneg _ Hi) as Hb.
  unfold Bottleneck_init. cbv zeta.
  ctor_ok layer_ok.
  destruct upsample, downsample; try discriminate Hud.
  - ctor_ok ltac:(ctor_ok layer_ok; layer_ok).
    do 10 (ctor_ok layer_ok). rewrite Hp.
    do 3 (ctor_ok layer_ok). reflexivity.
  - do 11 (ctor_ok layer_ok). rewrite Hp.
    do 3 (ctor_ok layer_ok). reflexivity.
  - do 11 (ctor_ok layer_ok). rewrite Hp.
    do 3 (ctor_ok layer_ok). reflexivity.
Qed.

Lemma cbind_inv {A B : Type} (c : ctor A) (k : A -> ctor B) n b n2 :
  cbind c k n = Ok (b, n2) ->
  exists a n1, c n = Ok (a, n1) /\ k a n1 = Ok (b, n2).
Proof.
  unfold cbind. destruct (c n) as [[a n1]|e]; [|discriminate].
  intros H. exists a, n1. auto.
Qed.

Lemma cret_inv {A : Type} (a b : A) n n' : cret a n = Ok (b, n') -> b = a /\ n' = n.
Proof. unfold cret. intros H. inversion H. auto. Qed.

(** The layers a constructed [ConvBlock] holds. *)
Lemma ConvBlock_init_inv in_channels out_channels kernel_size stride norm activation
      bias n cb :
  constructs (ConvBlock_init in_channels out_channels kernel_size stride norm
                             activation bias false) n cb ->
  let out := py_or out_channels in_channels in
  convnd_check in_channels out kernel_size 1 = Ok tt
  /\ ConvBlock_conv cb
     = MConv2d (mkConv2d n in_channels out kernel_size stride
                         (int_half (kernel_size - 1)) 1 1 bias)
  /\ ((norm = "bn"%string
       /\ ConvBlock_norm cb = Some (MBatchNorm2d (mkBatchNorm2d (S n) out)))
      \/ (norm = "in"%string /\ ConvBlock_norm cb = Some (MInstanceNorm2d out))
      \/ (norm = "none"%string /\ ConvBlock_norm cb = None))
  /\ ((activation = "relu"%string /\ ConvBlock_activation cb = Some (MReLU true))
      \/ (activation = "lrelu"%string
          /\ ConvBlock_activation cb = Some (MLeakyReLU (1 # 10) true))
      \/ (activation = "elu"%string /\ ConvBlock_activation cb = Some (MELU true))
      \/ (activation = "none"%string /\ ConvBlock_activation cb = None)).
Proof.
  intros [n' H] out. unfold ConvBlock_init in H. cbv zeta in H.
  apply cbind_inv in H. destruct H as (cls & n1 & Hcls & H).
  simpl in Hcls. apply cret_inv in Hcls. destruct Hcls as [-> ->].
  apply cbind_inv in H. destruct H as (conv & n2 & Hconv & H).
  apply nn_Conv2d_inv in Hconv. destruct Hconv as (Hchk & -> & ->).
  fold out in H, Hchk |- *.
  apply cbind_inv in H. destruct H as (nm & n3 & Hnm & H).
  apply cbind_inv in H. destruct H as (act & n4 & Hact & H).
  apply cret_inv in H. destruct H as [-> _]. simpl.
  split; [exact Hchk|]. split; [reflexivity|]. split.
  - destruct (String.eqb_spec norm "bn") as [->|_].
    + left. apply cbind_inv in Hnm. destruct Hnm as (m & n5 & Hm & Hr).
      apply cret_inv in Hr. destruct Hr as [-> _].
      rewrite nn_BatchNorm2d_ok in Hm
        by (apply convnd_check_inv in Hchk; lia).
      inversion Hm. auto.
    + destruct (String.eqb_spec norm "in") as [->|_].
      * right; left. inversion Hnm. auto.
      * destruct (String.eqb_spec norm "none") as [->|_].
        -- right; right. inversion Hnm. auto.
        -- discriminate Hnm.
  - destruct (String.eqb_spec activation "relu") as [->|_];
      [left; inversion Hact; auto|].
    destruct (String.eqb_spec activation "lrelu") as [->|_];
      [right; left; inversion Hact; auto|].
    destruct (String.eqb_spec activation "elu") as [->|_];
      [right; right; left; inversion Hact; auto|].
    destruct (String.eqb_spec activation "tanh") as [->|_];
      [discriminate Hact|].
    destruct (String.eqb_spec activation "none") as [->|_];
      [right; right; right; inversion Hact; auto|].
    discriminate Hact.
Qed.

Lemma known_norm_false norm :
  known_norm norm = false ->
  String.eqb norm "bn" = false /\ String.eqb norm "in" = false
  /\ String.eqb norm "none" = false.
Proof.
  unfold known_norm. intros H.
  apply orb_false_elim in H. destruct H as [H H3].
  apply orb_false_elim in H. destruct H as [H1 H2]. auto.
Qed.

Lemma known_activation_false activation :
  known_activation activation = false ->
  String.eqb activation "relu" = false /\ String.eqb activation "lrelu" = false
  /\ String.eqb activation "elu" = false /\ String.eqb activation "tanh" = false
  /\ String.eqb activation "none" = false.
Proof.
  unfold known_activation. intros H.
  apply orb_false_elim in H. destruct H as [H H5].
  apply orb_false_elim in H. destruct H as [H H4].
  apply orb_false_elim in H. destruct H as [H H3].
  apply orb_false_elim in H. destruct H as [H1 H2]. auto.
Qed.

Lemma ConvBlock_init_unknown_norm_raises in_channels out_channels kernel_size stride
      norm activation bias transpose :
  known_norm norm = false ->
  ctor_raises (ConvBlock_init in_channels out_channels kernel_size stride norm
                              activation bias transpose).
Proof.
  intros H n. apply known_norm_false in H. destruct H as (H1 & H2 & H3).
  unfold ConvBlock_init. cbv zeta.
  apply cbind_raises_r; intros cls n1.
  apply cbind_raises_r; intros conv n2.
  apply cbind_raises_l. rewrite H1, H2, H3. apply craise_raises.
Qed.

Lemma ConvBlock_init_unknown_activation_raises in_channels out_channels kernel_size
      stride norm activation bias transpose :
  known_activation activation = false ->
  ctor_raises (ConvBlock_init in_channels out_channels kernel_size stride norm
                              activation bias transpose).
Proof.
  intros H n. apply known_activation_false in H.
  destruct H as (H1 & H2 & H3 & H4 & H5).
  unfold ConvBlock_init. cbv zeta.
  apply cbind_raises_r; intros cls n1.
  apply cbind_raises_r; intros conv n2.
  apply cbind_raises_r; intros nm n3.
  apply cbind_raises_l. rewrite H1, H2, H3, H4, H5. apply craise_raises.
Qed.

(** With a convolution torch accepts, the unknown selector is what stops the
    constructor, with the message of the source. *)
Lemma ConvBlock_init_unknown_norm in_channels out_channels kernel_size stride norm
      activation bias n :
  known_norm norm = false ->
  convnd_check in_channels (py_or out_channels in_channels) kernel_size 1 = Ok tt ->
  ConvBlock_init in_channels out_channels kernel_size stride norm activation bias
                 false n
  = Raise (ValueError ("Invalid norm " ++ norm)%string).
Proof.
  intros H Hc. apply known_norm_false in H. destruct H as (H1 & H2 & H3).
  unfold ConvBlock_init. cbv zeta. simpl negb. cbv iota.
  ctor_ok layer_ok.
  ctor_ok ltac:(apply nn_Conv2d_ok; exact Hc).
  unfold cbind at 1. rewrite H1, H2, H3. reflexivity.
Qed.

Lemma ConvBlock_init_unknown_activation in_channels out_channels kernel_size stride
      norm activation bias n :
  known_norm norm = true ->
  known_activation activation = false ->
  convnd_check in_channels (py_or out_channels in_channels) kernel_size 1 = Ok tt ->
  ConvBlock_init in_channels out_channels kernel_size stride norm activation bias
                 false n
  = Raise (ValueError ("Invalid activation " ++ activation)%string).
Proof.
  intros Hn H Hc. apply known_activation_false in H.
  destruct H as (H1 & H2 & H3 & H4 & H5).
  pose proof (convnd_check_inv _ _ _ _ Hc) as Hi.
  unfold ConvBlock_init. cbv zeta. simpl negb. cbv iota.
  ctor_ok layer_ok.
  ctor_ok ltac:(apply nn_Conv2d_ok; exact Hc).
  unfold known_norm in Hn.
  destruct (String.eqb norm "bn");
    [|destruct (String.eqb norm "in"); [|destruct (String.eqb norm "none");
                                          [|discriminate Hn]]].
  - ctor_ok ltac:(ctor_ok layer_ok; layer_ok).
    unfold cbind at 1. rewrite H1, H2, H3, H4, H5. reflexivity.
  - ctor_ok layer_ok.
    unfold cbind at 1. rewrite H1, H2, H3, H4, H5. reflexivity.
  - ctor_ok layer_ok.
    unfold cbind at 1. rewrite H1, H2, H3, H4, H5. reflexivity.
Qed.

(** Every recognised pair of selectors other than ['tanh'] builds a block. *)
Lemma ConvBlock_init_known in_channels out_channels kernel_size stride norm activation
      bias n :
  known_norm norm = true ->
  known_activation activation = true ->
  activation <> "tanh"%string ->
  convnd_check in_channels (py_or out_channels in_channels) kernel_size 1 = Ok tt ->
  exists cb n',
    ConvBlock_init in_channels out_channels kernel_size stride norm activation bias
                   false n = Ok (cb, n').
Proof.
  intros Hn Ha Ht Hc.
  pose proof (convnd_check_inv _ _ _ _ Hc) as Hi.
  unfold ConvBlock_init. cbv zeta. simpl negb. cbv iota.
  ctor_ok layer_ok.
  ctor_ok ltac:(apply nn_Conv2d_ok; exact Hc).
  unfold known_norm in Hn. unfold known_activation in Ha.
  apply String.eqb_neq in Ht. rewrite Ht in *.
  destruct (String.eqb norm "bn");
    [|destruct (String.eqb norm "in"); [|destruct (String.eqb norm "none");
                                          [|discriminate Hn]]];
    (ctor_ok ltac:(first [layer_ok | ctor_ok layer_ok; layer_ok]));
    (destruct (String.eqb activation "relu");
     [|destruct (String.eqb activation "lrelu");
       [|destruct (String.eqb activation "elu");
         [|destruct (String.eqb activation "none"); [|discriminate Ha]]]]);
    (ctor_ok layer_ok); eexists; eexists; reflexivity.
Qed.

Lemma Bottleneck_init_both_raises in_channels out_channels kernel_size dilation groups
      dropout :
  ctor_raises (Bottleneck_init in_channels out_channels kernel_size dilation groups
                               true true dropout).
Proof.
  intros n. unfold Bottleneck_init. cbv zeta.
  apply cbind_raises_r; intros u n1.
  apply cbind_raises_l. apply cbind_raises_l. eexists. reflexivity.
Qed.

Lemma Bottleneck_init_both in_channels out_channels kernel_size groups dropout n :
  Bottleneck_init in_channels out_channels kernel_size 1 groups true true dropout n
  = Raise (AssertionError "downsample and upsample not possible simultaneously.").
Proof. reflexivity. Qed.

Lemma Bottleneck_init_dilation in_channels out_channels kernel_size dilation groups
      upsample downsample dropout n :
  dilation <> 1 ->
  Bottleneck_init in_channels out_channels kernel_size dilation groups upsample
                  downsample dropout n
  = Raise (AssertionError "").
Proof.
  intros H. unfold Bottleneck_init. cbv zeta.
  unfold cbind at 1. apply Z.eqb_neq in H. rewrite H. reflexivity.
Qed.

(** ** Tensors and the recurrence *)

Section Properties.

Context {SC : Scalar} {KN : Kernels}.

(** The layers a constructed [SpatialGRU] holds. *)
Lemma SpatialGRU_init_inv input hidden bias norm activation n self :
  constructs (SpatialGRU_init input hidden bias norm activation) n self ->
  convnd_check (input + hidden) hidden 3 1 = Ok tt
  /\ input_size self = input
  /\ hidden_size self = hidden
  /\ gru_bias_init self = bias
  /\ conv_update self = MConv2d (mkConv2d n (input + hidden) hidden 3 1 1 1 1 true)
  /\ conv_reset self = MConv2d (mkConv2d (S n) (input + hidden) hidden 3 1 1 1 1 true)
  /\ constructs (ConvBlock_init (input + hidden) (Some hidden) 3 1 norm activation
                                false false)
                (S (S n)) (conv_state_tilde self).
Proof.
  intros [n' H]. unfold SpatialGRU_init in H.
  apply cbind_inv in H. destruct H as (cu & n1 & Hcu & H).
  apply nn_Conv2d_inv in Hcu. destruct Hcu as (Hchk & -> & ->).
  apply cbind_inv in H. destruct H as (cr & n2 & Hcr & H).
  apply nn_Conv2d_inv in Hcr. destruct Hcr as (_ & -> & ->).
  apply cbind_inv in H. destruct H as (cb & n3 & Hcb & H).
  apply cret_inv in H. destruct H as [-> _]. simpl.
  repeat split; try reflexivity; try assumption.
  exists n3. exact Hcb.
Qed.

Lemma shape_eqb_refl s : shape_eqb s s = true.
Proof.
  induction s as [|d s IH]; simpl; [reflexivity|].
  rewrite Z.eqb_refl. exact IH.
Qed.

Lemma shape_eqb_eq a b : shape_eqb a b = true -> a = b.
Proof.
  revert b. induction a as [|x a IH]; destruct b as [|y b]; simpl;
    try discriminate; [reflexivity|].
  intros H. apply andb_prop in H. destruct H as [H1 H2].
  apply Z.eqb_eq in H1. subst y. f_equal. apply IH. exact H2.
Qed.

Lemma broadcast_rev_same a : broadcast_rev a a = Some a.
Proof.
  induction a as [|x a IH]; simpl; [reflexivity|].
  rewrite IH, Z.eqb_refl. reflexivity.
Qed.

Lemma broadcast_shapes_same s : broadcast_shapes s s = Some s.
Proof.
  unfold broadcast_shapes. rewrite broadcast_rev_same. simpl.
  rewrite rev_involutive. reflexivity.
Qed.

Lemma in_range_length s idx : in_range s idx -> List.length idx = List.length s.
Proof.
  revert idx. induction s as [|d s IH]; destruct idx as [|i idx]; simpl;
    try tauto.
  intros [_ H]. f_equal. apply IH. exact H.
Qed.

Lemma bcast_axes_in_range s idx : in_range s idx -> bcast_axes s idx = idx.
Proof.
  revert idx. induction s as [|d s IH]; destruct idx as [|i idx]; simpl;
    try tauto.
  intros [Hi H]. rewrite (IH _ H).
  destruct (Z.eqb_spec d 1) as [->|_]; [|reflexivity].
  f_equal. lia.
Qed.

(** Inside the range of a shape, broadcasting to that same shape reads the
    element at the same index. *)
Lemma bcast_idx_in_range s idx : in_range s idx -> bcast_idx s idx = idx.
Proof.
  intros H. unfold bcast_idx. rewrite (in_range_length _ _ H).
  rewrite Nat.sub_diag. simpl. apply bcast_axes_in_range. exact H.
Qed.

Lemma elementwise2_same f (x y : tensor) :
  shape x = shape y ->
  elementwise2 f x y
  = Ok (mkTensor (shape x)
          (fun idx => f (data x (bcast_idx (shape x) idx))
                        (data y (bcast_idx (shape y) idx)))).
Proof.
  intros H. unfold elementwise2. rewrite <- H, broadcast_shapes_same. reflexivity.
Qed.

Lemma torch_cat1_pair (x y : tensor) b c1 c2 h w :
  shape x = [b; c1; h; w] -> shape y = [b; c2; h; w] ->
  torch_cat1 [x; y]
  = Ok (mkTensor [b; c1 + c2; h; w]
          (fun idx => match idx with
                      | i0 :: c :: r => cat1_data [x; y] i0 c r
                      | _ => r0
                      end)).
Proof.
  intros Hx Hy. unfold torch_cat1, legacy_empty, dim1. simpl.
  rewrite Hx, Hy. simpl. rewrite Hx, Hy. simpl.
  rewrite !Z.eqb_refl. simpl. rewrite Z.add_0_r. reflexivity.
Qed.

Lemma conv_out_size_same n : conv_out_size n 1 1 3 1 = n.
Proof.
  unfold conv_out_size. rewrite Z.div_1_r. lia.
Qed.

(** A 3x3 convolution with stride 1 and padding 1 keeps the spatial size. *)
Lemma Conv2d_forward_3x3 id cin cout bias (x : tensor) b h w :
  shape x = [b; cin; h; w] -> 1 <= h -> 1 <= w -> 1 <= cout ->
  let m := mkConv2d id cin cout 3 1 1 1 1 bias in
  Conv2d_forward m x = Ok (mkTensor [b; cout; h; w] (kernel (MConv2d m) x)).
Proof.
  intros Hx Hh Hw Hout m. unfold Conv2d_forward. rewrite Hx. simpl.
  replace (cout <? 1) with false by (symmetry; apply Z.ltb_ge; lia).
  rewrite Z.eqb_refl. simpl.
  replace (h + 2 <? 3) with false by (symmetry; apply Z.ltb_ge; lia).
  replace (w + 2 <? 3) with false by (symmetry; apply Z.ltb_ge; lia).
  simpl. rewrite !conv_out_size_same. reflexivity.
Qed.

Lemma select1_ok (x : tensor) b T rest t :
  shape x = b :: T :: rest -> 0 <= t < T ->
  select1 x t
  = Ok (mkTensor (b :: rest)
          (fun idx => match idx with
                      | i0 :: r => data x (i0 :: t :: r)
                      | [] => r0
                      end)).
Proof.
  intros Hx Ht. unfold select1. rewrite Hx.
  replace (t <? 0) with false by (symmetry; apply Z.ltb_ge; lia).
  replace (0 <=? t) with true by (symmetry; apply Z.leb_le; lia).
  replace (t <? T) with true by (symmetry; apply Z.ltb_lt; lia).
  reflexivity.
Qed.

Lemma py_or_some v d : v <> 0 -> py_or (Some v) d = v.
Proof.
  intros H. unfold py_or. apply Z.eqb_neq in H. rewrite H. reflexivity.
Qed.

(** The block of the candidate state keeps the batch and the spatial size
    and yields [cout] channels. *)
Lemma ConvBlock_forward_3x3 cin cout norm activation n cb (x : tensor) b h w :
  constructs (ConvBlock_init cin (Some cout) 3 1 norm activation false false) n cb ->
  1 <= cout ->
  shape x = [b; cin; h; w] -> 1 <= h -> 1 <= w ->
  norm_has_statistics norm b h w ->
  exists y, ConvBlock_forward cb x = Ok y /\ shape y = [b; cout; h; w].
Proof.
  intros Hc Hout Hx Hh Hw [Hbn Hin].
  apply ConvBlock_init_inv in Hc. cbv zeta in Hc.
  rewrite (py_or_some cout cin) in Hc by lia.
  destruct Hc as (_ & Hconv & Hnorm & Hact).
  change (int_half (3 - 1)) with 1 in Hconv.
  unfold ConvBlock_forward. rewrite Hconv.
  cbn [module_forward].
  rewrite (Conv2d_forward_3x3 n cin cout false x b h w Hx Hh Hw Hout).
  cbn [bind].
  assert (Hn : exists y,
             match ConvBlock_norm cb with
             | Some nm => module_forward nm
                            (mkTensor [b; cout; h; w]
                               (kernel (MConv2d (mkConv2d n cin cout 3 1 1 1 1 false)) x))
             | None => Ok (mkTensor [b; cout; h; w]
                             (kernel (MConv2d (mkConv2d n cin cout 3 1 1 1 1 false)) x))
             end = Ok y /\ shape y = [b; cout; h; w]).
  { destruct Hnorm as [[Hs ->]|[[Hs ->]|[Hs ->]]].
    - specialize (Hbn Hs). apply Z.eqb_neq in Hbn.
      cbn [module_forward]. unfold BatchNorm2d_forward. cbn [shape bn_num_features].
      rewrite Hbn, Z.eqb_refl. cbn [negb]. eexists. split; reflexivity.
    - specialize (Hin Hs). apply Z.eqb_neq in Hin.
      cbn [module_forward]. unfold InstanceNorm2d_forward. cbn [shape as_image].
      rewrite Hin. eexists. split; reflexivity.
    - eexists. split; reflexivity. }
  destruct Hn as (y & Hy & Hys). rewrite Hy. cbn [bind].
  destruct Hact as [[_ ->]|[[_ ->]|[[_ ->]|[_ ->]]]]; cbn [module_forward bind];
    eexists; (split; [reflexivity|]); cbn [shape]; exact Hys.
Qed.

(** [gru_cell] computes the step of the specification: the concatenation
    is shared by the two gates and the gates are squashed after both
    convolutions, which changes neither the result nor the first error. *)
Lemma gru_cell_eq_spec (self : SpatialGRU) (x state : tensor) :
  gru_cell self x state = gru_cell_spec self x state.
Proof.
  unfold gru_cell, gru_cell_spec, update_gate_spec, state_tilde_spec,
    reset_gate_spec, gate_spec.
  destruct (torch_cat1 [x; state]) as [xs|e]; cbn [bind]; [|reflexivity].
  destruct (module_forward (conv_update self) xs) as [u|e]; cbn [bind];
    [|reflexivity].
  destruct (module_forward (conv_reset self) xs) as [r|e]; cbn [bind];
    [|reflexivity].
  destruct (torch_mul (rsub_scalar r1 (torch_sigmoid (add_scalar r (gru_bias_init self))))
              state) as [rs|e]; cbn [bind]; [|reflexivity].
  destruct (torch_cat1 [x; rs]) as [xr|e]; cbn [bind]; [|reflexivity].
  destruct (ConvBlock_forward (conv_state_tilde self) xr) as [st|e]; cbn [bind];
    reflexivity.
Qed.

Lemma gate_spec_3x3 id cin hidden bias0 bias (x state : tensor) b input h w :
  shape x = [b; input; h; w] -> shape state = [b; hidden; h; w] ->
  cin = input + hidden -> 1 <= h -> 1 <= w -> 1 <= hidden ->
  exists g,
    gate_spec (MConv2d (mkConv2d id cin hidden 3 1 1 1 1 bias0)) bias x state = Ok g
    /\ shape g = [b; hidden; h; w].
Proof.
  intros Hx Hs -> Hh Hw Hhid. unfold gate_spec.
  rewrite (torch_cat1_pair x state b input hidden h w Hx Hs). cbn [bind module_forward].
  erewrite Conv2d_forward_3x3 by (try reflexivity; assumption).
  cbn [bind]. eexists. split; reflexivity.
Qed.

(** The step on well-shaped operands: the gate, the candidate and the new
    state all have the shape of the state carried in, and the new state is
    the blend of the old state and the candidate, element by element. *)
Lemma gru_cell_pointwise input hidden bias norm activation n self (x state : tensor)
      b h w :
  constructs (SpatialGRU_init input hidden bias norm activation) n self ->
  1 <= hidden -> 1 <= h -> 1 <= w ->
  norm_has_statistics norm b h w ->
  shape x = [b; input; h; w] ->
  shape state = [b; hidden; h; w] ->
  exists u st h',
    update_gate_spec self x state = Ok u
    /\ shape u = [b; hidden; h; w]
    /\ state_tilde_spec self x state = Ok st
    /\ shape st = [b; hidden; h; w]
    /\ gru_cell self x state = Ok h'
    /\ shape h' = [b; hidden; h; w]
    /\ forall idx, in_range [b; hidden; h; w] idx ->
         data h' idx
         = radd (rmul (rsub r1 (data u idx)) (data state idx))
                (rmul (data u idx) (data st idx)).
Proof.
  intros Hc Hhid Hh Hw Hn Hx Hs.
  apply SpatialGRU_init_inv in Hc.
  destruct Hc as (_ & _ & _ & Hb & Hcu & Hcr & Hcb).
  destruct (gate_spec_3x3 n (input + hidden) hidden true
              (gru_bias_init self) x state b input h w Hx Hs eq_refl Hh Hw Hhid)
    as (u & Hu & Hus).
  destruct (gate_spec_3x3 (S n) (input + hidden) hidden true
              (gru_bias_init self) x state b input h w Hx Hs eq_refl Hh Hw Hhid)
    as (r & Hr & Hrs).
  rewrite <- Hcu in Hu. rewrite <- Hcr in Hr.
  fold (update_gate_spec self x state) in Hu.
  fold (reset_gate_spec self x state) in Hr.
  assert (Ht : exists st, state_tilde_spec self x state = Ok st
                          /\ shape st = [b; hidden; h; w]).
  { unfold state_tilde_spec. rewrite Hr. cbn [bind].
    unfold torch_mul.
    rewrite elementwise2_same by (cbn [rsub_scalar elementwise1 shape]; congruence).
    cbn [bind].
    erewrite torch_cat1_pair
      by (first [exact Hx | cbn [rsub_scalar elementwise1 shape]; exact Hrs]).
    cbn [bind].
    match goal with
    | |- context [ConvBlock_forward _ ?t] =>
        apply (ConvBlock_forward_3x3 (input + hidden) hidden norm activation
                 (S (S n)) (conv_state_tilde self) t b h w Hcb
                 ltac:(lia) eq_refl Hh Hw Hn)
    end. }
  destruct Ht as (st & Hst & Hsts).
  rewrite gru_cell_eq_spec. unfold gru_cell_spec.
  rewrite Hu, Hst. cbn [bind].
  unfold torch_mul, torch_add.
  rewrite elementwise2_same by (cbn [rsub_scalar elementwise1 shape]; congruence).
  cbn [bind].
  rewrite elementwise2_same by congruence.
  cbn [bind].
  rewrite elementwise2_same
    by (cbn [rsub_scalar elementwise1 shape]; reflexivity).
  exists u, st. eexists.
  split; [reflexivity|]. split; [exact Hus|].
  split; [reflexivity|]. split; [exact Hsts|].
  split; [reflexivity|]. cbn [shape rsub_scalar elementwise1 data].
  split; [exact Hus|].
  intros idx Hidx. rewrite Hus, Hs, Hsts.
  rewrite !(bcast_idx_in_range _ _ Hidx). reflexivity.
Qed.

Lemma gru_step_eq_spec (self : SpatialGRU) (x : tensor) flow mode t h outs :
  gru_step self x flow mode t (h, outs)
  = (h' <- gru_step_spec self x flow mode t h ;; Ok (h', outs ++ [h']))%result.
Proof.
  unfold gru_step, gru_step_spec.
  destruct (select1 x t) as [x_t|e]; cbn [bind]; [|reflexivity].
  destruct flow as [f|]; cbn [bind].
  - destruct (select1 f t) as [f_t|e]; cbn [bind]; [|reflexivity].
    destruct (warp_features h f_t mode) as [hw|e]; cbn [bind]; [|reflexivity].
    rewrite gru_cell_eq_spec. reflexivity.
  - rewrite gru_cell_eq_spec. reflexivity.
Qed.

Section Recurrence.

Variables (input hidden : Z) (bias : R) (norm activation : string) (n : nat).
Variable self : SpatialGRU.
Variables (x : tensor) (flow : option tensor) (mode : string).
Variables (b T h w : Z).

Hypothesis Hself : constructs (SpatialGRU_init input hidden bias norm activation) n self.
Hypothesis Hhidden : 1 <= hidden.
Hypothesis Hh : 1 <= h.
Hypothesis Hw : 1 <= w.
Hypothesis Hnorm : norm_has_statistics norm b h w.
Hypothesis Hx : shape x = [b; T; input; h; w].
Hypothesis Hflow : forall f, flow = Some f -> shape f = [b; T; 2; h; w].
Hypothesis Hwarp : warp_keeps_shape mode [b; hidden; h; w] [b; 2; h; w].

(** One step of the specification succeeds on a well-shaped state and
    yields a well-shaped state. *)
Lemma gru_step_spec_ok t st :
  0 <= t < T -> shape st = [b; hidden; h; w] ->
  exists st', gru_step_spec self x flow mode t st = Ok st'
              /\ shape st' = [b; hidden; h; w].
Proof.
  intros Ht Hst. unfold gru_step_spec.
  rewrite (select1_ok x b T [input; h; w] t Hx Ht). cbn [bind].
  assert (Hwst : exists hw,
             match flow with
             | Some flow0 => (flow_t <- select1 flow0 t ;;
                              warp_features st flow_t mode)%result
             | None => Ok st
             end = Ok hw /\ shape hw = [b; hidden; h; w]).
  { destruct flow as [f|].
    - rewrite (select1_ok f b T [2; h; w] t (Hflow f eq_refl) Ht). cbn [bind].
      apply Hwarp; [exact Hst | reflexivity].
    - exists st. split; [reflexivity | exact Hst]. }
  destruct Hwst as (hw & Hhw & Hhws). rewrite Hhw. cbn [bind].
  rewrite <- gru_cell_eq_spec.
  match goal with
  | |- context [gru_cell self ?xt hw] =>
      destruct (gru_cell_pointwise input hidden bias norm activation n self xt hw
                  b h w Hself Hhidden Hh Hw Hnorm eq_refl Hhws)
        as (u & st0 & h' & _ & _ & _ & _ & Hc & Hs' & _)
  end.
  exists h'. split; assumption.
Qed.

(** The loop of [forward] from step [k] on: it appends one state per step,
    each the state of the specification after that step. *)
Lemma gru_loop_ok h0 m : forall k st outs,
  (Z.of_nat (k + m) <= T) ->
  carried_spec self x flow mode h0 k = Ok st ->
  shape st = [b; hidden; h; w] ->
  exists st' news,
    py_for (map Z.of_nat (seq k m)) (gru_step self x flow mode) (st, outs)
    = Ok (st', outs ++ news)
    /\ List.length news = m
    /\ Forall (fun y => shape y = [b; hidden; h; w]) news
    /\ forall j, (j < m)%nat ->
         carried_spec self x flow mode h0 (S (k + j)) = Ok (nth j news h0).
Proof.
  induction m as [|m IH]; intros k st outs Hk Hc Hst.
  - exists st, []. cbn. rewrite app_nil_r.
    repeat split; [constructor | intros j Hj; lia].
  - cbn [seq map py_for].
    rewrite gru_step_eq_spec.
    destruct (gru_step_spec_ok (Z.of_nat k) st ltac:(lia) Hst) as (st1 & H1 & Hs1).
    rewrite H1. cbn [bind].
    assert (Hc1 : carried_spec self x flow mode h0 (S k) = Ok st1).
    { cbn [carried_spec]. rewrite Hc. cbn [bind]. exact H1. }
    destruct (IH (S k) st1 (outs ++ [st1]) ltac:(lia) Hc1 Hs1)
      as (st' & news & Hfor & Hlen & Hall & Hnth).
    exists st', (st1 :: news). rewrite Hfor, <- app_assoc. cbn [app].
    repeat split.
    + cbn. lia.
    + constructor; assumption.
    + intros [|j] Hj.
      * rewrite Nat.add_0_r. exact Hc1.
      * cbn [nth]. rewrite <- (Hnth j ltac:(lia)). f_equal. lia.
Qed.

End Recurrence.

Lemma torch_stack1_ok (ts : list tensor) d0 inner :
  ts <> [] ->
  Forall (fun y => shape y = d0 :: inner) ts ->
  torch_stack1 ts
  = Ok (mkTensor (d0 :: Z.of_nat (List.length ts) :: inner)
          (fun idx => match idx with
                      | i0 :: t :: r =>
                          match nth_error ts (Z.to_nat t) with
                          | Some y => data y (i0 :: r)
                          | None => r0
                          end
                      | _ => r0
                      end)).
Proof.
  intros Hne Hall. destruct ts as [|y ts]; [congruence|].
  unfold torch_stack1.
  inversion Hall as [|y' ts' Hy Hts]; subst.
  replace (forallb (fun y0 => shape_eqb (shape y) (shape y0)) ts) with true.
  - rewrite Hy. reflexivity.
  - symmetry. apply forallb_forall. intros z Hz.
    rewrite Forall_forall in Hts. rewrite Hy, (Hts z Hz). apply shape_eqb_refl.
Qed.

Lemma torch_stack1_empty : torch_stack1 [] = Raise (RuntimeError "stack expects a non-empty TensorList").
Proof. reflexivity. Qed.

Lemma py_range_nonpos T : T <= 0 -> py_range T = [].
Proof.
  intros H. unfold py_range. destruct T; try lia; reflexivity.
Qed.

(** The checks at the start of [forward] pass on five axes with the
    configured channel count; what follows them is the recurrence. *)
Lemma SpatialGRU_forward_checked (self : SpatialGRU) (x : tensor) state flow mode
      b T h w :
  shape x = [b; T; input_size self; h; w] ->
  SpatialGRU_forward self x state flow mode
  = (rnn_state <- match state with
                  | None => torch_zeros [b; hidden_size self; h; w]
                  | Some state => Ok state
                  end ;;
     s <- py_for (py_range T) (gru_step self x flow mode) (rnn_state, []) ;;
     torch_stack1 (snd s))%result.
Proof.
  intros Hx. unfold SpatialGRU_forward. rewrite Hx. cbn [List.length Z.of_nat].
  change (Z.of_nat 5 =? 5) with true. cbn [py_assert bind].
  rewrite (Z.eqb_refl (input_size self)). reflexivity.
Qed.

(** *** No operation of torch ends in an [AssertionError] *)

Lemma no_assertion_Ok {A : Type} (a : A) : no_assertion (Ok a).
Proof. intros e H. discriminate H. Qed.

Lemma no_assertion_bind {A B : Type} (c : result A) (k : A -> result B) :
  no_assertion c -> (forall a, no_assertion (k a)) -> no_assertion (bind c k).
Proof.
  intros Hc Hk e. destruct c as [a|e']; cbn [bind].
  - apply Hk.
  - intros H. inversion H. subst e'. apply Hc. reflexivity.
Qed.

Ltac no_assertion_cases :=
  repeat match goal with
         | |- no_assertion (match ?t with _ => _ end) => destruct t
         | |- no_assertion (if ?t then _ else _) => destruct t
         | |- no_assertion (let _ := _ in _) => cbv zeta
         end;
  try apply no_assertion_Ok;
  try (intros ? H; inversion H; reflexivity).

Lemma no_assertion_select1 (x : tensor) t : no_assertion (select1 x t).
Proof. unfold select1. no_assertion_cases. Qed.

Lemma no_assertion_zeros size : no_assertion (torch_zeros size).
Proof. unfold torch_zeros. no_assertion_cases. Qed.

Lemma no_assertion_cat1 (ts : list tensor) : no_assertion (torch_cat1 ts).
Proof. unfold torch_cat1. no_assertion_cases. Qed.

Lemma no_assertion_stack1 (ts : list tensor) : no_assertion (torch_stack1 ts).
Proof. unfold torch_stack1. no_assertion_cases. Qed.

Lemma no_assertion_elementwise2 f (x y : tensor) : no_assertion (elementwise2 f x y).
Proof. unfold elementwise2. no_assertion_cases. Qed.

Lemma no_assertion_module_forward m (x : tensor) : no_assertion (module_forward m x).
Proof.
  destruct m; cbn [module_forward];
    unfold Conv2d_forward, ConvTranspose2d_forward, BatchNorm2d_forward,
      InstanceNorm2d_forward, MaxPool2d_forward, Interpolate_forward;
    no_assertion_cases.
Qed.

Lemma no_assertion_ConvBlock_forward cb (x : tensor) :
  no_assertion (ConvBlock_forward cb x).
Proof.
  unfold ConvBlock_forward.
  apply no_assertion_bind; [apply no_assertion_module_forward|]. intros y.
  apply no_assertion_bind.
  { destruct (ConvBlock_norm cb);
      [apply no_assertion_module_forward | apply no_assertion_Ok]. }
  intros z. apply no_assertion_bind; [|intros; apply no_assertion_Ok].
  destruct (ConvBlock_activation cb);
    [apply no_assertion_module_forward | apply no_assertion_Ok].
Qed.

Lemma no_assertion_gru_cell self (x state : tensor) :
  no_assertion (gru_cell self x state).
Proof.
  unfold gru_cell.
  apply no_assertion_bind; [apply no_assertion_cat1|]. intros xs.
  apply no_assertion_bind; [apply no_assertion_module_forward|]. intros u.
  apply no_assertion_bind; [apply no_assertion_module_forward|]. intros r.
  cbv zeta.
  apply no_assertion_bind; [apply no_assertion_elementwise2|]. intros rs.
  apply no_assertion_bind; [apply no_assertion_cat1|]. intros xr.
  apply no_assertion_bind; [apply no_assertion_ConvBlock_forward|]. intros st.
  apply no_assertion_bind; [apply no_assertion_elementwise2|]. intros kept.
  apply no_assertion_bind; [apply no_assertion_elementwise2|]. intros prop.
  apply no_assertion_elementwise2.
Qed.

Lemma no_assertion_gru_step self (x : tensor) flow mode t s :
  (forall f, flow = Some f -> forall st f_t, no_assertion (warp_features st f_t mode)) ->
  no_assertion (gru_step self x flow mode t s).
Proof.
  intros Hwarp. unfold gru_step. destruct s as [st outs].
  apply no_assertion_bind; [apply no_assertion_select1|]. intros x_t.
  apply no_assertion_bind.
  { destruct flow as [f|]; [|apply no_assertion_Ok].
    apply no_assertion_bind; [apply no_assertion_select1|]. intros f_t.
    apply (Hwarp f eq_refl). }
  intros st'.
  apply no_assertion_bind; [apply no_assertion_gru_cell|]. intros st''.
  apply no_assertion_Ok.
Qed.

Lemma no_assertion_py_for {S : Type} items (body : Z -> S -> result S) :
  (forall i s, no_assertion (body i s)) ->
  forall s, no_assertion (py_for items body s).
Proof.
  intros Hb. induction items as [|i items IH]; intros s; cbn [py_for].
  - apply no_assertion_Ok.
  - apply no_assertion_bind; [apply Hb | exact IH].
Qed.

(** *** The stages of FuturePrediction *)

Lemma lift_inv {A : Type} (c : result A) n a n' :
  lift c n = Ok (a, n') -> c = Ok a /\ n' = n.
Proof.
  unfold lift. destruct c as [a0|e]; [|discriminate].
  intros H. inversion H. auto.
Qed.

Lemma FuturePrediction_init_step_inv in_channels latent_dim n_res_layers i
      grus res n grus' res' n' :
  FuturePrediction_init_step in_channels latent_dim n_res_layers i (grus, res) n
  = Ok ((grus', res'), n') ->
  exists gru blocks,
    grus' = grus ++ [gru] /\ res' = res ++ [blocks]
    /\ constructs (SpatialGRU_init (if i =? 0 then latent_dim else in_channels)
                                   in_channels r0 "bn" "relu") n gru.
Proof.
  unfold FuturePrediction_init_step. cbv zeta. intros H.
  apply cbind_inv in H. destruct H as (gru & n1 & Hgru & H).
  apply cbind_inv in H. destruct H as (gs & n2 & Hgs & H).
  apply lift_inv in Hgs. destruct Hgs as [Hgs ->]. cbn in Hgs.
  apply cbind_inv in H. destruct H as (bs & n3 & Hbs & H).
  apply cbind_inv in H. destruct H as (sq & n4 & Hsq & H).
  apply cbind_inv in H. destruct H as (rs & n5 & Hrs & H).
  apply lift_inv in Hrs. destruct Hrs as [Hrs ->]. cbn in Hrs.
  apply cret_inv in H. destruct H as [H _].
  inversion H; subst. inversion Hgs; subst. inversion Hrs; subst.
  exists gru, sq. repeat split. exists n1. exact Hgru.
Qed.

Lemma FuturePrediction_init_loop_inv in_channels latent_dim n_res_layers m :
  forall k grus res n grus' res' n',
    ctor_for (map Z.of_nat (seq k m))
      (FuturePrediction_init_step in_channels latent_dim n_res_layers)
      (grus, res) n = Ok ((grus', res'), n') ->
    exists new_grus new_res,
      grus' = grus ++ new_grus /\ res' = res ++ new_res
      /\ List.length new_grus = m /\ List.length new_res = m
      /\ forall j gru, nth_error new_grus j = Some gru ->
           exists id,
             constructs (SpatialGRU_init
                           (if Z.of_nat (k + j) =? 0 then latent_dim else in_channels)
                           in_channels r0 "bn" "relu") id gru.
Proof.
  induction m as [|m IH]; intros k grus res n grus' res' n' H.
  - cbn in H. inversion H; subst. exists [], [].
    rewrite !app_nil_r. repeat split. intros [|j] gru Hj; discriminate Hj.
  - cbn [seq map ctor_for] in H.
    apply cbind_inv in H. destruct H as ([g1 r1'] & n1 & Hstep & H).
    apply FuturePrediction_init_step_inv in Hstep.
    destruct Hstep as (gru & blocks & -> & -> & Hgru).
    apply IH in H. destruct H as (ng & nr & -> & -> & Hlg & Hlr & Hnth).
    exists (gru :: ng), (blocks :: nr). rewrite <- !app_assoc. cbn [app List.length].
    repeat split; try congruence.
    intros [|j] g Hj.
    + cbn in Hj. inversion Hj; subst. rewrite Nat.add_0_r. exists n. exact Hgru.
    + cbn in Hj. destruct (Hnth j g Hj) as (id & Hid).
      exists id. replace (k + S j)%nat with (S k + j)%nat by lia. exact Hid.
Qed.

Lemma py_index_nth {A : Type} (l : list A) k a :
  nth_error l k = Some a -> py_index l (Z.of_nat k) = Ok a.
Proof.
  intros H. unfold py_index.
  assert (E : (Z.of_nat k <? 0) = false) by (apply Z.ltb_ge; lia).
  rewrite E. cbv zeta. rewrite E, Nat2Z.id, H. reflexivity.
Qed.

Lemma skipn_nth_error {A : Type} (l : list A) k :
  (k < List.length l)%nat ->
  exists a, nth_error l k = Some a /\ skipn k l = a :: skipn (S k) l.
Proof.
  revert k. induction l as [|x l IH]; intros k Hk; cbn in Hk; [lia|].
  destruct k as [|k].
  - exists x. split; reflexivity.
  - destruct (IH k ltac:(lia)) as (a & Ha & Hs). exists a. split; assumption.
Qed.

(** The loop over stage indices is the sequence of stages of the
    specification, each SpatialGRU paired with its Bottleneck blocks. *)
Lemma FuturePrediction_stages_eq (self : FuturePrediction) (hidden_state : tensor) m :
  forall k (x : tensor),
    (k + m = List.length (spatial_grus self))%nat ->
    List.length (res_blocks self) = List.length (spatial_grus self) ->
    py_for (map Z.of_nat (seq k m)) (FuturePrediction_stage self hidden_state) x
    = stages_spec hidden_state
        (combine (skipn k (spatial_grus self)) (skipn k (res_blocks self))) x.
Proof.
  induction m as [|m IH]; intros k x Hk Hlen.
  - cbn [seq map py_for]. rewrite Nat.add_0_r in Hk.
    rewrite skipn_all2 by lia. reflexivity.
  - cbn [seq map py_for].
    destruct (skipn_nth_error (spatial_grus self) k ltac:(lia)) as (g & Hg & Hsg).
    destruct (skipn_nth_error (res_blocks self) k ltac:(lia)) as (r & Hr & Hsr).
    rewrite Hsg, Hsr. cbn [combine stages_spec].
    unfold FuturePrediction_stage at 1, stage_spec, refine_spec. cbn [fst snd].
    rewrite (py_index_nth _ _ _ Hg). cbn [bind].
    destruct (SpatialGRU_forward g x (Some hidden_state) None "bilinear")
      as [y|e]; cbn [bind]; [|reflexivity].
    destruct (shape y) as [|b [|t [|c [|h [|w [|]]]]]]; try reflexivity.
    rewrite (py_index_nth _ _ _ Hr). cbn [bind].
    destruct (tensor_view y [b * t; c; h; w]) as [flat|e]; cbn [bind];
      [|reflexivity].
    destruct (Sequential_forward Bottleneck_forward r flat) as [z|e]; cbn [bind];
      [|reflexivity].
    destruct (tensor_view z [b; t; c; h; w]) as [z'|e]; cbn [bind];
      [|reflexivity].
    apply IH; lia.
Qed.

Lemma result_shape_Ok (r : result tensor) s :
  result_shape r = Ok s -> exists y, r = Ok y /\ shape y = s.
Proof.
  destruct r as [y|e]; cbn [result_shape]; intros H; [|discriminate H].
  exists y. split; [reflexivity | congruence].
Qed.

Lemma run_FuturePrediction_Ok in_channels latent_dim n_blocks n_layers
      (x hidden_state : tensor) n y :
  run_FuturePrediction in_channels latent_dim n_blocks n_layers x hidden_state n = Ok y ->
  exists net n',
    FuturePrediction_init in_channels latent_dim n_blocks n_layers n = Ok (net, n')
    /\ FuturePrediction_forward net x hidden_state = Ok y.
Proof.
  unfold run_FuturePrediction.
  destruct (FuturePrediction_init in_channels latent_dim n_blocks n_layers n)
    as [[net n']|e]; intros H; [|discriminate H].
  exists net, n'. split; [reflexivity | exact H].
Qed.

(** ** The specified properties *)

(** C4 (amended). For a constructed SpatialGRU and an input sequence
    [B,T,C_in,H,W] with T >= 1 (positive batch, hidden width and spatial
    size, enough values for the normalisation to compute its statistics, an
    initial state of shape [B,C_hidden,H,W] when one is supplied and a motion
    field [B,T,2,H,W] when one is supplied), [forward] returns the stack, along
    the time axis, of exactly T states: its shape is [B,T,C_hidden,H,W], its
    entry at index t is the hidden state after step t of the recurrence, and
    the recurrence starts from the all-zeros tensor of shape [B,C_hidden,H,W]
    when no initial state is supplied. *)
Theorem SpatialGRU_forward_output_sequence
        input hidden bias norm activation n self
        (x : tensor) (state flow : option tensor) mode b T h w :
  constructs (SpatialGRU_init input hidden bias norm activation) n self ->
  1 <= hidden -> 1 <= b -> 1 <= T -> 1 <= h -> 1 <= w ->
  norm_has_statistics norm b h w ->
  shape x = [b; T; input; h; w] ->
  (forall s, state = Some s -> shape s = [b; hidden; h; w]) ->
  (forall f, flow = Some f -> shape f = [b; T; 2; h; w]) ->
  warp_keeps_shape mode [b; hidden; h; w] [b; 2; h; w] ->
  let h0 := initial_state self x state in
  (state = None -> torch_zeros [b; hidden; h; w] = Ok h0
                   /\ shape h0 = [b; hidden; h; w]
                   /\ forall idx, data h0 idx = r0)
  /\ exists hs y,
      SpatialGRU_forward self x state flow mode = Ok y
      /\ torch_stack1 hs = Ok y
      /\ shape y = [b; T; hidden; h; w]
      /\ Z.of_nat (List.length hs) = T
      /\ forall t, (t < List.length hs)%nat ->
           exists h_t,
             nth_error hs t = Some h_t
             /\ carried_spec self x flow mode h0 (S t) = Ok h_t
             /\ forall i0 r, data y (i0 :: Z.of_nat t :: r) = data h_t (i0 :: r).
Proof.
  intros Hself Hhid Hb HT Hh Hw Hnorm Hx Hstate Hflow Hwarp h0.
  pose proof (SpatialGRU_init_inv _ _ _ _ _ _ _ Hself)
    as (_ & Hin & Hhs & _).
  assert (Hh0 : shape h0 = [b; hidden; h; w]).
  { unfold h0, initial_state. destruct state as [s|].
    - apply Hstate. reflexivity.
    - cbn [shape]. rewrite Hx, Hhs. reflexivity. }
  assert (Hz : state = None -> torch_zeros [b; hidden; h; w] = Ok h0).
  { intros ->. unfold torch_zeros, h0, initial_state. cbn [existsb].
    replace (b <? 0) with false by (symmetry; apply Z.ltb_ge; lia).
    replace (hidden <? 0) with false by (symmetry; apply Z.ltb_ge; lia).
    replace (h <? 0) with false by (symmetry; apply Z.ltb_ge; lia).
    replace (w <? 0) with false by (symmetry; apply Z.ltb_ge; lia).
    cbn [orb]. rewrite Hx, Hhs. reflexivity. }
  split.
  { intros Hs. split; [exact (Hz Hs)|]. split; [exact Hh0|].
    intros idx. unfold h0, initial_state. rewrite Hs. reflexivity. }
  rewrite <- Hin in Hx.
  rewrite (SpatialGRU_forward_checked self x state flow mode b T h w Hx).
  rewrite Hin in Hx. rewrite Hhs.
  assert (Hinit : match state with
                  | Some s => Ok s
                  | None => torch_zeros [b; hidden; h; w]
                  end = Ok h0).
  { destruct state as [s|]; [reflexivity | apply Hz; reflexivity]. }
  rewrite Hinit. cbn [bind]. unfold py_range.
  destruct (gru_loop_ok input hidden bias norm activation n self x flow mode
              b T h w Hself Hhid Hh Hw Hnorm Hx Hflow Hwarp h0
              (Z.to_nat T) 0%nat h0 [] ltac:(cbn [Nat.add]; lia) eq_refl Hh0)
    as (st' & hs & Hfor & Hlen & Hall & Hnth).
  rewrite Hfor. cbn [bind snd app].
  assert (Hne : hs <> []) by (destruct hs; [cbn in Hlen; lia | discriminate]).
  rewrite (torch_stack1_ok hs b [hidden; h; w] Hne Hall).
  exists hs. eexists. split; [reflexivity|].
  split; [apply torch_stack1_ok; assumption|]. cbn [shape].
  split; [rewrite Hlen, Z2Nat.id by lia; reflexivity|].
  split; [rewrite Hlen; apply Z2Nat.id; lia|].
  intros t Ht.
  destruct (nth_error hs t) as [h_t|] eqn:Hn;
    [|apply nth_error_None in Hn; lia].
  exists h_t. split; [reflexivity|]. split.
  - rewrite Hlen in Ht. specialize (Hnth t Ht). cbn [Nat.add] in Hnth.
    rewrite Hnth. f_equal. apply nth_error_nth. exact Hn.
  - intros i0 r. cbn [data]. rewrite Nat2Z.id, Hn. reflexivity.
Qed.

(** C8. [SpatialGRU.forward] ends in an [AssertionError], before anything
    else is computed, whenever the input does not have exactly five axes or
    its channel axis differs from [input_size]; on an input with five axes
    and [input_size] channels both checks pass, [forward] is the recurrence
    that follows them, and no [AssertionError] comes out of it (given that
    the motion compensation, when a motion field is supplied, raises none). *)
Theorem SpatialGRU_forward_preconditions
        (self : SpatialGRU) (x : tensor) (state flow : option tensor) mode :
  (List.length (shape x) <> 5%nat ->
   SpatialGRU_forward self x state flow mode
   = Raise (AssertionError "Input tensor must be BxTxCxHxW."))
  /\ (forall b T c h w,
        shape x = [b; T; c; h; w] -> c <> input_size self ->
        SpatialGRU_forward self x state flow mode
        = Raise (AssertionError
                   ("feature sizes must match, got input " ++ str_of_Z c
                    ++ " for layer with size " ++ str_of_Z (input_size self))%string))
  /\ (forall b T h w,
        shape x = [b; T; input_size self; h; w] ->
        SpatialGRU_forward self x state flow mode
        = (rnn_state <- match state with
                        | None => torch_zeros [b; hidden_size self; h; w]
                        | Some state => Ok state
                        end ;;
           s <- py_for (py_range T) (gru_step self x flow mode) (rnn_state, []) ;;
           torch_stack1 (snd s))%result
        /\ ((forall f, flow = Some f ->
                       forall st f_t, no_assertion (warp_features st f_t mode)) ->
            no_assertion (SpatialGRU_forward self x state flow mode))).
Proof.
  split; [|split].
  - intros Hlen. unfold SpatialGRU_forward.
    replace (Z.of_nat (List.length (shape x)) =? 5) with false
      by (symmetry; apply Z.eqb_neq; lia).
    reflexivity.
  - intros b T c h w Hx Hc. unfold SpatialGRU_forward. rewrite Hx.
    cbn [List.length]. change (Z.of_nat 5 =? 5) with true.
    cbn [py_assert bind]. apply Z.eqb_neq in Hc. rewrite Hc. reflexivity.
  - intros b T h w Hx.
    pose proof (SpatialGRU_forward_checked self x state flow mode b T h w Hx) as E.
    split; [exact E|]. intros Hwarp. rewrite E.
    apply no_assertion_bind.
    { destruct state; [apply no_assertion_Ok | apply no_assertion_zeros]. }
    intros st. apply no_assertion_bind; [|intros; apply no_assertion_stack1].
    apply no_assertion_py_for. intros i s.
    apply no_assertion_gru_step. exact Hwarp.
Qed.

(** C2. At every step of SpatialGRU, for the input slice [x_t] and the
    carried state [h], [gru_cell] is the step of the specification: gates
    [sigmoid(conv(concat(x_t, h)) + bias_init)] from [conv_update] and
    [conv_reset], candidate [ConvBlock(concat(x_t, (1 - reset_gate) * h))],
    new state [(1 - update_gate) * h + update_gate * state_tilde]; and one
    turn of the loop of [forward] applies it to the slice at [t] and the
    carried (when a motion field is supplied, warped) state and appends the
    result. *)
Theorem gru_cell_computes_specified_step (self : SpatialGRU) :
  (forall x_t h : tensor, gru_cell self x_t h = gru_cell_spec self x_t h)
  /\ (forall (x : tensor) flow mode t h outs,
        gru_step self x flow mode t (h, outs)
        = (h' <- gru_step_spec self x flow mode t h ;; Ok (h', outs ++ [h']))%result).
Proof.
  split.
  - intros x_t h. apply gru_cell_eq_spec.
  - intros x flow mode t h outs. apply gru_step_eq_spec.
Qed.

(** C3. In a constructed FuturePrediction there is one SpatialGRU and one
    group of Bottleneck blocks per stage; the SpatialGRU of stage 0 has
    input width [latent_dim], that of every later stage has input width
    [in_channels], all have hidden width [in_channels]; and [forward] is the
    sequence of stages of the specification, each of which seeds its
    SpatialGRU with the current-state map passed to [forward]. *)
Theorem FuturePrediction_stages_share_current_state
        in_channels latent_dim n_blocks n_layers n (self : FuturePrediction) :
  constructs (FuturePrediction_init in_channels latent_dim n_blocks n_layers)
             n self ->
  List.length (spatial_grus self) = Z.to_nat n_blocks
  /\ List.length (res_blocks self) = Z.to_nat n_blocks
  /\ (forall i gru,
        nth_error (spatial_grus self) i = Some gru ->
        input_size gru = (if Nat.eqb i 0 then latent_dim else in_channels)
        /\ hidden_size gru = in_channels)
  /\ (forall x hidden_state : tensor,
        FuturePrediction_forward self x hidden_state
        = FuturePrediction_spec self x hidden_state).
Proof.
  intros [n' H]. unfold FuturePrediction_init in H.
  apply cbind_inv in H. destruct H as ([grus res] & n1 & Hloop & H).
  apply cret_inv in H. destruct H as [-> _]. cbn [spatial_grus res_blocks fst snd].
  unfold py_range in Hloop.
  apply FuturePrediction_init_loop_inv in Hloop.
  destruct Hloop as (ng & nr & -> & -> & Hlg & Hlr & Hnth). cbn [app].
  split; [exact Hlg|]. split; [exact Hlr|]. split.
  - intros i gru Hi. destruct (Hnth i gru Hi) as (id & Hid).
    apply SpatialGRU_init_inv in Hid. destruct Hid as (_ & Hin & Hhid & _).
    split; [|exact Hhid]. rewrite Hin. cbn [Nat.add].
    destruct i; reflexivity.
  - intros x hidden_state.
    unfold FuturePrediction_forward, FuturePrediction_spec, py_range.
    cbn [n_gru_blocks spatial_grus res_blocks].
    rewrite (FuturePrediction_stages_eq
               (mkFuturePrediction n_blocks ng nr) hidden_state
               (Z.to_nat n_blocks) 0 x); cbn;
      [reflexivity | lia | congruence].
Qed.

(** C1. FuturePrediction with n_gru_blocks=3, n_res_layers=3, in_channels=64,
    latent_dim=64 is constructed, and on an input sequence of shape
    [4,5,64,200,200] and a current-state map of shape [4,64,200,200] its
    [forward] returns a tensor of shape [4,5,64,200,200]. *)
Theorem FuturePrediction_reference_invocation (x hidden_state : tensor) n :
  shape x = [4; 5; 64; 200; 200] ->
  shape hidden_state = [4; 64; 200; 200] ->
  exists net n' y,
    FuturePrediction_init 64 64 3 3 n = Ok (net, n')
    /\ FuturePrediction_forward net x hidden_state = Ok y
    /\ shape y = [4; 5; 64; 200; 200].
Proof.
  intros Hx Hh. destruct x as [sx dx], hidden_state as [sh dh].
  cbn [shape] in Hx, Hh. subst sx sh.
  assert (H : result_shape
                (run_FuturePrediction 64 64 3 3
                   (mkTensor [4; 5; 64; 200; 200] dx)
                   (mkTensor [4; 64; 200; 200] dh) n)
              = Ok [4; 5; 64; 200; 200]) by (vm_compute; reflexivity).
  apply result_shape_Ok in H. destruct H as (y & Hrun & Hy).
  apply run_FuturePrediction_Ok in Hrun. destruct Hrun as (net & n' & Hi & Hf).
  exists net, n', y. split; [exact Hi|]. split; [exact Hf | exact Hy].
Qed.

Section Exact.

Context {EA : ExactArith SC}.

Add Ring scalar_ring_structure : (@scalar_ring SC EA).

Lemma blend_zero_gate (old candidate : R) :
  radd (rmul (rsub r1 r0) old) (rmul r0 candidate) = old.
Proof. ring. Qed.

(** The new state differs from the old one by the gate times the distance
    to the candidate. *)
Lemma blend_difference (u old candidate : R) :
  radd (rmul (rsub r1 u) old) (rmul u candidate)
  = radd old (rmul u (rsub candidate old)).
Proof. ring. Qed.

(** C10 (amended). In the cell update of a constructed SpatialGRU, on a
    slice [B,C_in,H,W] and a state [B,C_hidden,H,W] that the layers of the
    cell accept (positive H, W and hidden width, and statistics for the
    normalisation of the candidate state to compute: B*H*W != 1 with batch
    normalisation, H*W != 1 with instance normalisation), when every
    element of the update gate is 0 the cell returns a state equal to the
    state it was given: same shape, same element at every index, whatever
    the slice. Without the condition on the normalisation the cell raises,
    whatever the gate. *)
Theorem gru_cell_identity_when_update_gate_is_zero
        input hidden bias norm activation n self (x state u : tensor) b h w :
  constructs (SpatialGRU_init input hidden bias norm activation) n self ->
  1 <= hidden -> 1 <= h -> 1 <= w ->
  norm_has_statistics norm b h w ->
  shape x = [b; input; h; w] ->
  shape state = [b; hidden; h; w] ->
  update_gate_spec self x state = Ok u ->
  all_zero u ->
  exists h', gru_cell self x state = Ok h' /\ tensor_eq h' state.
Proof.
  intros Hself Hhid Hh Hw Hnorm Hx Hs Hu Hzero.
  destruct (gru_cell_pointwise input hidden bias norm activation n self x state
              b h w Hself Hhid Hh Hw Hnorm Hx Hs)
    as (u' & st & h' & Hu' & Hus & _ & _ & Hcell & Hshape & Hdata).
  rewrite Hu in Hu'. inversion Hu'; subst u'.
  exists h'. split; [exact Hcell|]. split; [congruence|].
  intros idx Hidx. rewrite Hshape in Hidx.
  rewrite (Hdata idx Hidx), (Hzero idx) by (rewrite Hus; exact Hidx).
  apply blend_zero_gate.
Qed.

End Exact.

(** C7. [ConvBlock(64, activation='tanh')] is not constructed: the call
    [nn.Tanh(inplace=True)] raises a [TypeError], and so does every other
    construction of a ConvBlock with the selector ['tanh'], unless an
    earlier step of the constructor has raised already. *)
Theorem ConvBlock_tanh_is_not_constructed :
  (forall n,
     ConvBlock_init 64 None 3 1 "bn" "tanh" false false n
     = Raise (TypeError "Tanh.__init__() got an unexpected keyword argument 'inplace'"))
  /\ (forall in_channels out_channels kernel_size stride norm bias transpose,
        ctor_raises (ConvBlock_init in_channels out_channels kernel_size stride norm
                                    "tanh" bias transpose)).
Proof.
  split.
  - intros n. reflexivity.
  - intros. apply ConvBlock_init_tanh_raises.
Qed.

(** C5. [Bottleneck(64, downsample=True)] is not constructed: the
    constructor raises the [TypeError] of the two-argument [append], so there
    is no module to apply to an input with H=W=7. *)
Theorem Bottleneck_downsample_is_not_constructed :
  forall n,
    Bottleneck_init 64 None 3 1 1 false true 0 n
    = Raise (TypeError "list.append() takes exactly one argument (2 given)").
Proof. intros n. reflexivity. Qed.

(** C6 (amended). Every configuration of Bottleneck that needs a projection
    shortcut raises at construction, and with dilation 1, at most one of
    upsample and downsample, and layer arguments torch accepts, the
    exception is the [TypeError] of the two-argument [append]; with
    dilation 1 and layer arguments torch accepts, a configuration with
    out_channels equal to in_channels and no resampling is constructed, with
    ten residual layers and the identity as shortcut. *)
Theorem Bottleneck_projection_is_never_built :
  (forall in_channels out_channels kernel_size dilation groups upsample downsample
          dropout,
     requires_projection in_channels out_channels upsample downsample = true ->
     ctor_raises (Bottleneck_init in_channels out_channels kernel_size dilation groups
                                  upsample downsample dropout))
  /\ (forall in_channels out_channels kernel_size groups upsample downsample dropout n,
        requires_projection in_channels out_channels upsample downsample = true ->
        upsample && downsample = false ->
        layer_arguments_valid in_channels out_channels kernel_size groups dropout = true ->
        Bottleneck_init in_channels out_channels kernel_size 1 groups upsample
                        downsample dropout n
        = Raise (TypeError "list.append() takes exactly one argument (2 given)"))
  /\ (forall in_channels out_channels kernel_size groups dropout n,
        requires_projection in_channels out_channels false false = false ->
        layer_arguments_valid in_channels out_channels kernel_size groups dropout = true ->
        exists layers n',
          Bottleneck_init in_channels out_channels kernel_size 1 groups false false
                          dropout n
          = Ok (mkBottleneck false layers None, n')
          /\ List.length layers = 10%nat).
Proof.
  split; [|split].
  - intros. apply Bottleneck_init_projection_raises. assumption.
  - intros. apply Bottleneck_init_projection_TypeError; assumption.
  - intros in_channels out_channels kernel_size groups dropout n Hp Hv.
    destruct (Bottleneck_init_identity in_channels out_channels kernel_size groups
                dropout n Hp Hv) as (layers & Hb & Hlen).
    exists layers, (6 + n)%nat. split; assumption.
Qed.

(** C9. An unknown normalisation selector and an unknown activation
    selector stop the constructor of ConvBlock, and a request for both
    upsample and downsample stops the constructor of Bottleneck: each raises,
    with the message of the source when the steps before it pass. Every
    recognised pair of selectors other than ['tanh'] is constructed; the
    recognised selector ['tanh'] raises a [TypeError]. *)
Theorem configuration_errors_at_construction :
  (forall in_channels out_channels kernel_size stride norm activation bias transpose,
     known_norm norm = false ->
     ctor_raises (ConvBlock_init in_channels out_channels kernel_size stride norm
                                 activation bias transpose))
  /\ (forall in_channels out_channels kernel_size stride norm activation bias transpose,
        known_activation activation = false ->
        ctor_raises (ConvBlock_init in_channels out_channels kernel_size stride norm
                                    activation bias transpose))
  /\ (forall in_channels out_channels kernel_size stride norm activation bias n,
        known_norm norm = false ->
        convnd_check in_channels (py_or out_channels in_channels) kernel_size 1 = Ok tt ->
        ConvBlock_init in_channels out_channels kernel_size stride norm activation
                       bias false n
        = Raise (ValueError ("Invalid norm " ++ norm)%string))
  /\ (forall in_channels out_channels kernel_size stride norm activation bias n,
        known_norm norm = true ->
        known_activation activation = false ->
        convnd_check in_channels (py_or out_channels in_channels) kernel_size 1 = Ok tt ->
        ConvBlock_init in_channels out_channels kernel_size stride norm activation
                       bias false n
        = Raise (ValueError ("Invalid activation " ++ activation)%string))
  /\ (forall in_channels out_channels kernel_size dilation groups dropout,
        ctor_raises (Bottleneck_init in_channels out_channels kernel_size dilation
                                     groups true true dropout))
  /\ (forall in_channels out_channels kernel_size groups dropout n,
        Bottleneck_init in_channels out_channels kernel_size 1 groups true true
                        dropout n
        = Raise (AssertionError "downsample and upsample not possible simultaneously."))
  /\ (forall in_channels out_channels kernel_size stride norm activation bias n,
        known_norm norm = true ->
        known_activation activation = true ->
        activation <> "tanh"%string ->
        convnd_check in_channels (py_or out_channels in_channels) kernel_size 1 = Ok tt ->
        exists cb n',
          ConvBlock_init in_channels out_channels kernel_size stride norm activation
                         bias false n = Ok (cb, n'))
  /\ (known_activation "tanh" = true
      /\ forall n,
           ConvBlock_init 64 None 3 1 "bn" "tanh" false false n
           = Raise (TypeError
                      "Tanh.__init__() got an unexpected keyword argument 'inplace'")).
Proof.
  split; [|split; [|split; [|split; [|split; [|split; [|split]]]]]].
  - intros. apply ConvBlock_init_unknown_norm_raises. assumption.
  - intros. apply ConvBlock_init_unknown_activation_raises. assumption.
  - intros. apply ConvBlock_init_unknown_norm; assumption.
  - intros. apply ConvBlock_init_unknown_activation; assumption.
  - intros. apply Bottleneck_init_both_raises.
  - intros. apply Bottleneck_init_both.
  - intros. apply ConvBlock_init_known; assumption.
  - split; [reflexivity|]. intros n. reflexivity.
Qed.

(** ** Further properties of the temporal engine *)

(** X1. A ConvBlock asked for a transposed convolution is never built:
    [partial] is not imported, and looking it up raises a [NameError] before
    any layer is constructed. *)
Theorem ConvBlock_transpose_is_not_constructed
        in_channels out_channels kernel_size stride norm activation bias n :
  ConvBlock_init in_channels out_channels kernel_size stride norm activation bias
                 true n
  = Raise (NameError "name 'partial' is not defined").
Proof. reflexivity. Qed.

(** X2. On a sequence with no time step, five axes and the configured
    channel count, [SpatialGRU.forward] raises the [RuntimeError] of
    [torch.stack] on an empty list, with or without an initial state and a
    motion field. *)
Theorem SpatialGRU_forward_empty_time_axis
        (self : SpatialGRU) (x : tensor) (state flow : option tensor) mode b h w :
  shape x = [b; 0; input_size self; h; w] ->
  (state = None -> 0 <= b /\ 0 <= hidden_size self /\ 0 <= h /\ 0 <= w) ->
  SpatialGRU_forward self x state flow mode
  = Raise (RuntimeError "stack expects a non-empty TensorList").
Proof.
  intros Hx Hs.
  rewrite (SpatialGRU_forward_checked self x state flow mode b 0 h w Hx).
  destruct state as [s|]; cbn [bind].
  - reflexivity.
  - destruct (Hs eq_refl) as (Hb & Hhid & Hh & Hw).
    unfold torch_zeros. cbn [existsb].
    replace (b <? 0) with false by (symmetry; apply Z.ltb_ge; lia).
    replace (hidden_size self <? 0) with false by (symmetry; apply Z.ltb_ge; lia).
    replace (h <? 0) with false by (symmetry; apply Z.ltb_ge; lia).
    replace (w <? 0) with false by (symmetry; apply Z.ltb_ge; lia).
    reflexivity.
Qed.

Lemma py_range_pos T : 1 <= T -> exists rest, py_range T = 0 :: rest.
Proof.
  intros H. unfold py_range. destruct (Z.to_nat T) as [|m] eqn:E; [lia|].
  cbn [seq map]. eexists. reflexivity.
Qed.

Lemma shape_eqb_neq a b : a <> b -> shape_eqb a b = false.
Proof.
  intros H. destruct (shape_eqb a b) eqn:E; [|reflexivity].
  apply shape_eqb_eq in E. contradiction.
Qed.

Lemma torch_cat1_mismatch (x y : tensor) b c1 h w b' c2 h' w' :
  shape x = [b; c1; h; w] -> shape y = [b'; c2; h'; w'] ->
  [b'; h'; w'] <> [b; h; w] ->
  torch_cat1 [x; y]
  = Raise (RuntimeError "Sizes of tensors must match except in dimension 1").
Proof.
  intros Hx Hy Hne. unfold torch_cat1, legacy_empty. simpl.
  rewrite Hx, Hy. simpl. rewrite Hx, Hy. simpl.
  destruct (Z.eqb_spec b b') as [<-|Hb]; [|reflexivity].
  destruct (Z.eqb_spec h h') as [<-|Hh]; [|reflexivity].
  destruct (Z.eqb_spec w w') as [<-|Hw]; [|reflexivity].
  congruence.
Qed.

Lemma Conv2d_forward_3x3_channels id cin cout bias (x : tensor) b c h w :
  shape x = [b; c; h; w] -> c <> cin ->
  exists msg,
    Conv2d_forward (mkConv2d id cin cout 3 1 1 1 1 bias) x
    = Raise (RuntimeError msg).
Proof.
  intros Hx Hc. unfold Conv2d_forward. rewrite Hx. simpl.
  apply Z.eqb_neq in Hc. rewrite Hc.
  destruct (cout <? 1); eexists; reflexivity.
Qed.

Lemma gru_cell_misshaped_state input hidden bias norm activation n self
      (x_t s : tensor) b h w b' c' h' w' :
  constructs (SpatialGRU_init input hidden bias norm activation) n self ->
  shape x_t = [b; input; h; w] ->
  shape s = [b'; c'; h'; w'] ->
  [b'; c'; h'; w'] <> [b; hidden; h; w] ->
  exists msg, gru_cell self x_t s = Raise (RuntimeError msg).
Proof.
  intros Hself Hx Hs Hne.
  pose proof (SpatialGRU_init_inv _ _ _ _ _ _ _ Hself)
    as (_ & _ & _ & _ & Hcu & _).
  unfold gru_cell.
  destruct (list_eq_dec Z.eq_dec [b'; h'; w'] [b; h; w]) as [E|E].
  - inversion E; subst b' h' w'.
    assert (Hc : input + c' <> input + hidden) by (intros F; apply Hne; replace c' with hidden by lia; reflexivity).
    rewrite (torch_cat1_pair x_t s b input c' h w Hx Hs). cbn [bind].
    rewrite Hcu. cbn [module_forward].
    match goal with
    | |- context [Conv2d_forward ?m ?t] =>
        destruct (Conv2d_forward_3x3_channels n (input + hidden) hidden true t
                    b (input + c') h w eq_refl Hc) as (msg & ->)
    end.
    cbn [bind]. eexists. reflexivity.
  - rewrite (torch_cat1_mismatch x_t s b input h w b' c' h' w' Hx Hs E).
    cbn [bind]. eexists. reflexivity.
Qed.

(** X3. An initial state of four axes whose shape is not
    [B,C_hidden,H,W] is refused at the first step with a [RuntimeError]: by
    [torch.cat] when batch or spatial size differ from the input's, by
    [conv_update] when only the channel count differs. It is never
    broadcast. *)
Theorem SpatialGRU_forward_rejects_misshaped_state
        input hidden bias norm activation n self
        (x s : tensor) mode b T h w b' c' h' w' :
  constructs (SpatialGRU_init input hidden bias norm activation) n self ->
  shape x = [b; T; input; h; w] -> 1 <= T ->
  shape s = [b'; c'; h'; w'] ->
  [b'; c'; h'; w'] <> [b; hidden; h; w] ->
  exists msg,
    SpatialGRU_forward self x (Some s) None mode = Raise (RuntimeError msg).
Proof.
  intros Hself Hx HT Hs Hne.
  pose proof (SpatialGRU_init_inv _ _ _ _ _ _ _ Hself)
    as (_ & Hin & _).
  rewrite <- Hin in Hx.
  rewrite (SpatialGRU_forward_checked self x (Some s) None mode b T h w Hx).
  rewrite Hin in Hx. cbn [bind].
  destruct (py_range_pos T HT) as (rest & ->). cbn [py_for].
  unfold gru_step at 1.
  rewrite (select1_ok x b T [input; h; w] 0 Hx ltac:(lia)). cbn [bind].
  match goal with
  | |- context [gru_cell self ?xt s] =>
      destruct (gru_cell_misshaped_state input hidden bias norm activation n self
                  xt s b h w b' c' h' w' Hself eq_refl Hs Hne) as (msg & Hmsg)
  end.
  rewrite Hmsg. cbn [bind]. exists msg. reflexivity.
Qed.

Section ExactBlend.

Context {EA : ExactArith SC}.

Add Ring scalar_ring_blend : (@scalar_ring SC EA).

Lemma blend_one_gate (old candidate : R) :
  radd (rmul (rsub r1 r1) old) (rmul r1 candidate) = candidate.
Proof. ring. Qed.

(** X4. In the cell update of a constructed SpatialGRU on well-shaped
    operands, when every element of the update gate is 1 the cell returns
    the candidate state: the old state is forgotten altogether. *)
Theorem gru_cell_candidate_when_update_gate_is_one
        input hidden bias norm activation n self (x state u st : tensor) b h w :
  constructs (SpatialGRU_init input hidden bias norm activation) n self ->
  1 <= hidden -> 1 <= h -> 1 <= w ->
  norm_has_statistics norm b h w ->
  shape x = [b; input; h; w] ->
  shape state = [b; hidden; h; w] ->
  update_gate_spec self x state = Ok u ->
  (forall idx, in_range (shape u) idx -> data u idx = r1) ->
  state_tilde_spec self x state = Ok st ->
  exists h', gru_cell self x state = Ok h' /\ tensor_eq h' st.
Proof.
  intros Hself Hhid Hh Hw Hnorm Hx Hs Hu Hone Hst.
  destruct (gru_cell_pointwise input hidden bias norm activation n self x state
              b h w Hself Hhid Hh Hw Hnorm Hx Hs)
    as (u' & st' & h' & Hu' & Hus & Hst' & Hsts & Hcell & Hshape & Hdata).
  rewrite Hu in Hu'. inversion Hu'; subst u'.
  rewrite Hst in Hst'. inversion Hst'; subst st'.
  exists h'. split; [exact Hcell|]. split; [congruence|].
  intros idx Hidx. rewrite Hshape in Hidx.
  rewrite (Hdata idx Hidx), (Hone idx) by (rewrite Hus; exact Hidx).
  apply blend_one_gate.
Qed.

(** X5. In the cell update of a constructed SpatialGRU on well-shaped
    operands, gate, candidate and new state have the shape of the old state,
    and at every index the new state is the old one moved toward the
    candidate by the gate: [new = old + gate * (candidate - old)]. *)
Theorem gru_cell_moves_state_toward_candidate
        input hidden bias norm activation n self (x state : tensor) b h w :
  constructs (SpatialGRU_init input hidden bias norm activation) n self ->
  1 <= hidden -> 1 <= h -> 1 <= w ->
  norm_has_statistics norm b h w ->
  shape x = [b; input; h; w] ->
  shape state = [b; hidden; h; w] ->
  exists u st h',
    update_gate_spec self x state = Ok u
    /\ state_tilde_spec self x state = Ok st
    /\ gru_cell self x state = Ok h'
    /\ shape u = shape state /\ shape st = shape state /\ shape h' = shape state
    /\ forall idx, in_range (shape state) idx ->
         data h' idx
         = radd (data state idx)
                (rmul (data u idx) (rsub (data st idx) (data state idx))).
Proof.
  intros Hself Hhid Hh Hw Hnorm Hx Hs.
  destruct (gru_cell_pointwise input hidden bias norm activation n self x state
              b h w Hself Hhid Hh Hw Hnorm Hx Hs)
    as (u & st & h' & Hu & Hus & Hst & Hsts & Hcell & Hshape & Hdata).
  exists u, st, h'. rewrite Hs.
  repeat split; try assumption.
  intros idx Hidx. rewrite (Hdata idx Hidx). apply blend_difference.
Qed.

End ExactBlend.

(** *** ConvBlock and Bottleneck on feature maps *)

Lemma conv_out_size_stride1 n p k : conv_out_size n p 1 k 1 = n + 2 * p - k + 1.
Proof. unfold conv_out_size. rewrite Z.div_1_r. lia. Qed.

Lemma Conv2d_forward_stride1 id cin cout k p g bias (x : tensor) b h w :
  shape x = [b; cin; h; w] -> 0 <= p -> 1 <= k ->
  k <= h + 2 * p -> k <= w + 2 * p -> g <= cout ->
  let m := mkConv2d id cin cout k 1 p 1 g bias in
  Conv2d_forward m x
  = Ok (mkTensor [b; cout; h + 2 * p - k + 1; w + 2 * p - k + 1]
          (kernel (MConv2d m) x)).
Proof.
  intros Hx Hp Hk Hh Hw Hg m. unfold Conv2d_forward. rewrite Hx.
  cbn [as_image conv_padding conv_stride conv_dilation conv_kernel_size
       conv_in_channels conv_out_channels conv_groups m image_shape].
  replace (p <? 0) with false by (symmetry; apply Z.ltb_ge; lia).
  change (1 <=? 0) with false.
  replace (k <=? 0) with false by (symmetry; apply Z.leb_gt; lia).
  replace (cout <? g) with false by (symmetry; apply Z.ltb_ge; lia).
  rewrite Z.eqb_refl. cbn [negb].
  replace (h + 2 * p <? 1 * (k - 1) + 1) with false
    by (symmetry; apply Z.ltb_ge; lia).
  replace (w + 2 * p <? 1 * (k - 1) + 1) with false
    by (symmetry; apply Z.ltb_ge; lia).
  cbn [orb]. rewrite !conv_out_size_stride1. reflexivity.
Qed.

Lemma int_half_pred k :
  1 <= k -> 2 * int_half (k - 1) = k - 1 - (if Z.even k then 1 else 0).
Proof.
  intros Hk. unfold int_half. rewrite Z.quot_div_nonneg by lia.
  pose proof (Zmod_even k) as E. revert E.
  pose proof (Z.div_mod (k - 1) 2 ltac:(lia)) as D1.
  pose proof (Z.mod_pos_bound (k - 1) 2 ltac:(lia)) as B1.
  pose proof (Z.div_mod k 2 ltac:(lia)) as D2.
  destruct (Z.even k); intros E; lia.
Qed.

(** Normalisation and activation of a constructed block keep the shape of
    the convolution's output. *)
Lemma ConvBlock_norm_activation_ok cin cout k s norm activation bias n cb
      (c : tensor) b co h w :
  constructs (ConvBlock_init cin cout k s norm activation bias false) n cb ->
  co = py_or cout cin ->
  shape c = [b; co; h; w] ->
  norm_has_statistics norm b h w ->
  exists y,
    (x <- match ConvBlock_norm cb with
          | Some nm => module_forward nm c
          | None => Ok c
          end ;;
     x <- match ConvBlock_activation cb with
          | Some a => module_forward a x
          | None => Ok x
          end ;;
     Ok x)%result = Ok y
    /\ shape y = [b; co; h; w].
Proof.
  intros Hc -> Hs [Hbn Hin].
  apply ConvBlock_init_inv in Hc. cbv zeta in Hc.
  destruct Hc as (_ & _ & Hnorm & Hact).
  assert (Hn : exists y,
             match ConvBlock_norm cb with
             | Some nm => module_forward nm c
             | None => Ok c
             end = Ok y /\ shape y = [b; py_or cout cin; h; w]).
  { destruct Hnorm as [[Hst ->]|[[Hst ->]|[Hst ->]]].
    - specialize (Hbn Hst). apply Z.eqb_neq in Hbn.
      cbn [module_forward]. unfold BatchNorm2d_forward. rewrite Hs.
      cbn [bn_num_features]. rewrite Hbn, Z.eqb_refl. cbn [negb].
      eexists. split; reflexivity.
    - specialize (Hin Hst). apply Z.eqb_neq in Hin.
      cbn [module_forward]. unfold InstanceNorm2d_forward. rewrite Hs.
      cbn [as_image]. rewrite Hin. eexists. split; reflexivity.
    - exists c. split; [reflexivity | exact Hs]. }
  destruct Hn as (y & Hy & Hys). rewrite Hy. cbn [bind].
  destruct Hact as [[_ ->]|[[_ ->]|[[_ ->]|[_ ->]]]]; cbn [module_forward bind];
    eexists; (split; [reflexivity|]); cbn [shape]; exact Hys.
Qed.

(** X6. A constructed ConvBlock with stride 1 and at least one input and
    one output channel maps a non-empty batch [B,C_in,H,W] to
    [B,C_out,H',W']: with an odd kernel size the padding [(k-1)/2] keeps the
    spatial size, with an even one each spatial dimension shrinks by one
    (given that the result is not empty and the normalisation has statistics
    to compute). *)
Theorem ConvBlock_forward_spatial_size
        cin cout k norm activation bias n cb (x : tensor) b h w :
  constructs (ConvBlock_init cin cout k 1 norm activation bias false) n cb ->
  1 <= k ->
  1 <= cin -> 1 <= py_or cout cin ->
  shape x = [b; cin; h; w] -> 1 <= b ->
  let d := if Z.even k then 1 else 0 in
  1 <= h - d -> 1 <= w - d ->
  norm_has_statistics norm b (h - d) (w - d) ->
  exists y, ConvBlock_forward cb x = Ok y
            /\ shape y = [b; py_or cout cin; h - d; w - d].
Proof.
  intros Hc Hk Hcin Hcout Hx Hb d Hh Hw Hn.
  pose proof (ConvBlock_init_inv _ _ _ _ _ _ _ _ _ Hc) as Hinv. cbv zeta in Hinv.
  destruct Hinv as (_ & Hconv & _).
  pose proof (int_half_pred k Hk) as Hp. fold d in Hp.
  assert (Hp0 : 0 <= int_half (k - 1)) by (apply int_half_nonneg; lia).
  unfold ConvBlock_forward. rewrite Hconv. cbn [module_forward].
  rewrite (Conv2d_forward_stride1 n cin (py_or cout cin) k (int_half (k - 1)) 1 bias
             x b h w Hx Hp0 Hk ltac:(lia) ltac:(lia) Hcout).
  cbn [bind].
  replace (h + 2 * int_half (k - 1) - k + 1) with (h - d) by lia.
  replace (w + 2 * int_half (k - 1) - k + 1) with (w - d) by lia.
  eapply ConvBlock_norm_activation_ok; [exact Hc | reflexivity | reflexivity | exact Hn].
Qed.

Lemma Bottleneck_init_default c n :
  0 <= c ->
  Bottleneck_init c None 3 1 1 false false 0 n
  = Ok (mkBottleneck false (default_Bottleneck_layers c n) None, (6 + n)%nat).
Proof.
  intros Hc. pose proof (int_half_nonneg c Hc) as Hb.
  unfold Bottleneck_init. cbv zeta.
  assert (Hd0 : Qle_bool 0 0 = true) by reflexivity.
  assert (Hd1 : Qle_bool 0 1 = true) by reflexivity.
  cbn [py_or].
  do 12 (ctor_ok layer_ok).
  rewrite Z.eqb_refl. reflexivity.
Qed.

Lemma Bottleneck_init_default_inv c n blk :
  constructs (Bottleneck_init c None 3 1 1 false false 0) n blk ->
  0 <= c /\ blk = mkBottleneck false (default_Bottleneck_layers c n) None.
Proof.
  intros [n' H].
  assert (Hc : 0 <= c).
  { destruct (Z.ltb_spec c 0) as [Hneg|]; [|assumption]. exfalso.
    unfold Bottleneck_init in H. cbv zeta in H.
    apply cbind_inv in H. destruct H as (? & ? & _ & H).
    apply cbind_inv in H. destruct H as (? & ? & _ & H).
    apply cbind_inv in H. destruct H as (? & ? & Hl0 & _).
    apply nn_Conv2d_inv in Hl0. destruct Hl0 as (Hchk & _).
    apply convnd_check_inv in Hchk. lia. }
  split; [exact Hc|]. rewrite (Bottleneck_init_default c n Hc) in H.
  inversion H. reflexivity.
Qed.

Lemma BatchNorm2d_forward_ok id f (x : tensor) N h w :
  shape x = [N; f; h; w] -> N * h * w <> 1 ->
  module_forward (MBatchNorm2d (mkBatchNorm2d id f)) x
  = Ok (mkTensor [N; f; h; w] (kernel (MBatchNorm2d (mkBatchNorm2d id f)) x)).
Proof.
  intros Hx Hn. cbn [module_forward]. unfold BatchNorm2d_forward. rewrite Hx.
  apply Z.eqb_neq in Hn. rewrite Hn. cbn [bn_num_features].
  rewrite Z.eqb_refl. reflexivity.
Qed.

Lemma Conv2d_forward_1x1 id cin cout (x : tensor) N h w :
  shape x = [N; cin; h; w] -> 1 <= h -> 1 <= w -> 1 <= cout ->
  module_forward (MConv2d (mkConv2d id cin cout 1 1 0 1 1 false)) x
  = Ok (mkTensor [N; cout; h; w]
          (kernel (MConv2d (mkConv2d id cin cout 1 1 0 1 1 false)) x)).
Proof.
  intros Hx Hh Hw Hout. cbn [module_forward].
  rewrite (Conv2d_forward_stride1 id cin cout 1 0 1 false x N h w Hx
             ltac:(lia) ltac:(lia) ltac:(lia) ltac:(lia) Hout).
  replace (h + 2 * 0 - 1 + 1) with h by lia.
  replace (w + 2 * 0 - 1 + 1) with w by lia. reflexivity.
Qed.

Lemma module_forward_conv3x3 id cin cout (x : tensor) N h w :
  shape x = [N; cin; h; w] -> 1 <= h -> 1 <= w -> 1 <= cout ->
  module_forward (MConv2d (mkConv2d id cin cout 3 1 1 1 1 false)) x
  = Ok (mkTensor [N; cout; h; w]
          (kernel (MConv2d (mkConv2d id cin cout 3 1 1 1 1 false)) x)).
Proof.
  intros Hx Hh Hw Hout. cbn [module_forward].
  apply (Conv2d_forward_3x3 id cin cout false x N h w Hx Hh Hw Hout).
Qed.

Lemma int_half_pos c : 2 <= c -> 1 <= int_half c.
Proof.
  intros Hc. unfold int_half. rewrite Z.quot_div_nonneg by lia.
  pose proof (Z.div_mod c 2 ltac:(lia)) as D.
  pose proof (Z.mod_pos_bound c 2 ltac:(lia)) as B. lia.
Qed.

Lemma int_half_small c : 0 <= c -> c <= 1 -> int_half c = 0.
Proof.
  intros H0 H1. assert (E : c = 0 \/ c = 1) by lia.
  destruct E as [->| ->]; reflexivity.
Qed.

Lemma module_forward_ReLU inplace (x : tensor) :
  module_forward (MReLU inplace) x = Ok (mkTensor (shape x) (kernel (MReLU inplace) x)).
Proof. reflexivity. Qed.

Lemma module_forward_Dropout2d p (x : tensor) :
  module_forward (MDropout2d p) x = Ok (mkTensor (shape x) (kernel (MDropout2d p) x)).
Proof. reflexivity. Qed.

Ltac layer_forward_step N h w :=
  match goal with
  | |- context [module_forward (MConv2d (mkConv2d ?id ?cin ?cout 1 1 0 1 1 false)) ?t] =>
      rewrite (Conv2d_forward_1x1 id cin cout t N h w)
        by (first [reflexivity | assumption])
  | |- context [module_forward (MConv2d (mkConv2d ?id ?cin ?cout 3 1 1 1 1 false)) ?t] =>
      rewrite (module_forward_conv3x3 id cin cout t N h w)
        by (first [reflexivity | assumption])
  | |- context [module_forward (MBatchNorm2d (mkBatchNorm2d ?id ?f)) ?t] =>
      rewrite (BatchNorm2d_forward_ok id f t N h w)
        by (first [reflexivity | assumption])
  | |- context [module_forward (MReLU ?b) ?t] =>
      rewrite (module_forward_ReLU b t)
  | |- context [module_forward (MDropout2d ?p) ?t] =>
      rewrite (module_forward_Dropout2d p t)
  end;
  cbn [bind shape].

(** The residual layers of a default Bottleneck keep the shape; the
    convolutions in the middle have [int(c / 2)] channels, which must not be
    none. *)
Lemma default_Bottleneck_layers_forward c n (x : tensor) N h w :
  2 <= c ->
  shape x = [N; c; h; w] -> 1 <= h -> 1 <= w -> N * h * w <> 1 ->
  exists y,
    Sequential_forward module_forward (default_Bottleneck_layers c n) x = Ok y
    /\ shape y = [N; c; h; w].
Proof.
  intros Hc2 Hx Hh Hw Hn. unfold default_Bottleneck_layers. cbv zeta.
  pose proof (int_half_pos c Hc2) as Hhalf.
  assert (Hc1 : 1 <= c) by lia.
  cbn [Sequential_forward].
  eexists. do 10 (layer_forward_step N h w).
  split; reflexivity.
Qed.

Lemma Bottleneck_forward_default_ok c n blk (x : tensor) N h w :
  constructs (Bottleneck_init c None 3 1 1 false false 0) n blk ->
  2 <= c ->
  shape x = [N; c; h; w] -> 1 <= h -> 1 <= w -> N * h * w <> 1 ->
  exists y, Bottleneck_forward blk x = Ok y /\ shape y = [N; c; h; w].
Proof.
  intros Hb Hc2 Hx Hh Hw Hn.
  apply Bottleneck_init_default_inv in Hb. destruct Hb as (Hc & ->).
  unfold Bottleneck_forward. cbn [Bottleneck_layers Bottleneck_projection].
  destruct (default_Bottleneck_layers_forward c n x N h w Hc2 Hx Hh Hw Hn)
    as (y & Hy & Hys).
  rewrite Hy. cbn [bind]. unfold torch_add.
  rewrite elementwise2_same by congruence.
  eexists. split; [reflexivity|]. cbn [shape]. exact Hys.
Qed.

(** X7. A Bottleneck built with its defaults, as FuturePrediction builds
    them, has the identity as shortcut. With at least two channels (the
    convolutions in the middle have [int(c / 2)]) it maps a non-empty batch
    [N,C,H,W] of its own channel count to a tensor of the same shape (the
    batch normalisations need N*H*W != 1 in training mode). A batch with
    another channel count is refused by the first convolution with a
    [RuntimeError], and so is every batch when the block has fewer than two
    channels: its first convolution then has no filter at all. *)
Theorem Bottleneck_forward_keeps_shape c n blk (x : tensor) N c' h w :
  constructs (Bottleneck_init c None 3 1 1 false false 0) n blk ->
  shape x = [N; c'; h; w] -> 1 <= h -> 1 <= w ->
  Bottleneck_projection blk = None
  /\ (c' = c -> 2 <= c -> 1 <= N -> N * h * w <> 1 ->
      exists y, Bottleneck_forward blk x = Ok y /\ shape y = [N; c; h; w])
  /\ (c' <> c \/ c <= 1 ->
      exists msg, Bottleneck_forward blk x = Raise (RuntimeError msg)).
Proof.
  intros Hb Hx Hh Hw.
  pose proof Hb as Hb0.
  apply Bottleneck_init_default_inv in Hb. destruct Hb as (Hc & ->).
  split; [reflexivity|]. split.
  - intros -> Hc2 _ Hn.
    apply (Bottleneck_forward_default_ok c n _ x N h w Hb0 Hc2 Hx Hh Hw Hn).
  - intros Hbad. unfold Bottleneck_forward.
    cbn [Bottleneck_layers default_Bottleneck_layers Sequential_forward module_forward].
    unfold Conv2d_forward. rewrite Hx.
    cbn [as_image conv_padding conv_stride conv_dilation conv_kernel_size
         conv_in_channels conv_out_channels conv_groups].
    change (0 <? 0) with false. change (1 <=? 0) with false. cbv iota.
    destruct (Z.ltb_spec (int_half c) 1) as [Hz|Hz].
    + eexists. reflexivity.
    + destruct Hbad as [Hne|Hsmall].
      * apply Z.eqb_neq in Hne. rewrite Hne. eexists. reflexivity.
      * rewrite (int_half_small c Hc Hsmall) in Hz. lia.
Qed.

(** *** FuturePrediction for every configuration *)

Lemma nn_Sequential_modules {A : Type} (ms : list A) :
  nn_Sequential (map ArgModule ms) = Ok ms.
Proof.
  induction ms as [|m ms IH]; cbn [map nn_Sequential]; [reflexivity|].
  rewrite IH. reflexivity.
Qed.

Lemma bottleneck_stack_loop_inv c items : forall acc n bs n',
  ctor_for items
    (fun _ acc => (b <- Bottleneck_init c None 3 1 1 false false 0 ;;
                   cret (acc ++ [b]))%ctor) acc n = Ok (bs, n') ->
  exists new,
    bs = acc ++ new /\ List.length new = List.length items
    /\ Forall (fun b => exists id,
                   constructs (Bottleneck_init c None 3 1 1 false false 0) id b) new.
Proof.
  induction items as [|i items IH]; intros acc n bs n' H.
  - cbn in H. inversion H; subst. exists []. rewrite app_nil_r.
    repeat split. constructor.
  - cbn [ctor_for] in H.
    apply cbind_inv in H. destruct H as (acc1 & n1 & Hstep & H).
    apply cbind_inv in Hstep. destruct Hstep as (b & n2 & Hb & Hr).
    apply cret_inv in Hr. destruct Hr as [-> ->].
    apply IH in H. destruct H as (new & -> & Hlen & Hall).
    exists (b :: new). rewrite <- app_assoc. cbn [app List.length].
    repeat split; [congruence|].
    constructor; [|exact Hall]. exists n, n2. exact Hb.
Qed.

Lemma bottleneck_stack_inv c r n bs n' :
  bottleneck_stack c r n = Ok (bs, n') ->
  List.length bs = Z.to_nat r
  /\ Forall (fun b => exists id,
                 constructs (Bottleneck_init c None 3 1 1 false false 0) id b) bs.
Proof.
  unfold bottleneck_stack. intros H.
  apply bottleneck_stack_loop_inv in H. destruct H as (new & -> & Hlen & Hall).
  cbn [app]. split; [|exact Hall].
  rewrite Hlen. unfold py_range. rewrite length_map, length_seq. reflexivity.
Qed.

Lemma FuturePrediction_init_step_blocks in_channels latent_dim n_layers i
      grus res n grus' res' n' :
  FuturePrediction_init_step in_channels latent_dim n_layers i (grus, res) n
  = Ok ((grus', res'), n') ->
  exists blocks,
    res' = res ++ [blocks]
    /\ List.length blocks = Z.to_nat n_layers
    /\ Forall (fun b => exists id,
                   constructs (Bottleneck_init in_channels None 3 1 1 false false 0)
                              id b) blocks.
Proof.
  unfold FuturePrediction_init_step. cbv zeta. intros H.
  apply cbind_inv in H. destruct H as (gru & n1 & Hgru & H).
  apply cbind_inv in H. destruct H as (gs & n2 & Hgs & H).
  apply cbind_inv in H. destruct H as (bs & n3 & Hbs & H).
  apply cbind_inv in H. destruct H as (sq & n4 & Hsq & H).
  apply cbind_inv in H. destruct H as (rs & n5 & Hrs & H).
  apply lift_inv in Hsq. destruct Hsq as [Hsq ->].
  rewrite nn_Sequential_modules in Hsq. inversion Hsq; subst sq.
  apply lift_inv in Hrs. destruct Hrs as [Hrs ->]. cbn in Hrs.
  apply cret_inv in H. destruct H as [H _].
  inversion H; subst. inversion Hrs; subst.
  apply bottleneck_stack_inv in Hbs. destruct Hbs as [Hlen Hall].
  exists bs. repeat split; assumption.
Qed.

Lemma FuturePrediction_init_loop_blocks in_channels latent_dim n_layers m :
  forall k grus res n grus' res' n',
    ctor_for (map Z.of_nat (seq k m))
      (FuturePrediction_init_step in_channels latent_dim n_layers)
      (grus, res) n = Ok ((grus', res'), n') ->
    exists new_res,
      res' = res ++ new_res
      /\ Forall (fun blocks =>
                   List.length blocks = Z.to_nat n_layers
                   /\ Forall (fun b => exists id,
                                  constructs (Bottleneck_init in_channels None 3 1 1
                                                              false false 0) id b)
                             blocks) new_res.
Proof.
  induction m as [|m IH]; intros k grus res n grus' res' n' H.
  - cbn in H. inversion H; subst. exists []. rewrite app_nil_r.
    split; [reflexivity | constructor].
  - cbn [seq map ctor_for] in H.
    apply cbind_inv in H. destruct H as ([g1 r1'] & n1 & Hstep & H).
    apply FuturePrediction_init_step_blocks in Hstep.
    destruct Hstep as (blocks & -> & Hlen & Hall).
    apply IH in H. destruct H as (nr & -> & Hnr).
    exists (blocks :: nr). rewrite <- app_assoc. cbn [app].
    split; [reflexivity|]. constructor; [split; assumption | exact Hnr].
Qed.

(** What a constructed FuturePrediction holds: per stage a SpatialGRU of the
    stage's input width and a group of default Bottleneck blocks. *)
Lemma FuturePrediction_init_inv in_channels latent_dim n_blocks n_layers n self :
  constructs (FuturePrediction_init in_channels latent_dim n_blocks n_layers) n self ->
  n_gru_blocks self = n_blocks
  /\ List.length (spatial_grus self) = Z.to_nat n_blocks
  /\ List.length (res_blocks self) = Z.to_nat n_blocks
  /\ (forall i gru, nth_error (spatial_grus self) i = Some gru ->
        exists id,
          constructs (SpatialGRU_init
                        (if Z.of_nat i =? 0 then latent_dim else in_channels)
                        in_channels r0 "bn" "relu") id gru)
  /\ Forall (fun blocks =>
               List.length blocks = Z.to_nat n_layers
               /\ Forall (fun b => exists id,
                              constructs (Bottleneck_init in_channels None 3 1 1
                                                          false false 0) id b)
                         blocks) (res_blocks self).
Proof.
  intros [n' H]. unfold FuturePrediction_init in H.
  apply cbind_inv in H. destruct H as ([grus res] & n1 & Hloop & H).
  apply cret_inv in H. destruct H as [-> _].
  cbn [n_gru_blocks spatial_grus res_blocks fst snd].
  unfold py_range in Hloop.
  pose proof (FuturePrediction_init_loop_inv _ _ _ _ _ _ _ _ _ _ _ Hloop)
    as (ng & nr & Hg & Hr & Hlg & Hlr & Hnth).
  pose proof (FuturePrediction_init_loop_blocks _ _ _ _ _ _ _ _ _ _ _ Hloop)
    as (nr' & Hr' & Hblocks).
  cbn [app] in Hg, Hr, Hr'. subst grus. subst res.
  split; [reflexivity|]. split; [exact Hlg|]. split; [exact Hlr|].
  split.
  - intros i gru Hi. destruct (Hnth i gru Hi) as (id & Hid).
    exists id. exact Hid.
  - subst nr. exact Hblocks.
Qed.

Section RecurrenceWithoutFlow.

Variables (input hidden : Z) (bias : R) (norm activation : string) (n : nat).
Variable self : SpatialGRU.
Variables (x : tensor) (mode : string).
Variables (b T h w : Z).

Hypothesis Hself : constructs (SpatialGRU_init input hidden bias norm activation) n self.
Hypothesis Hhidden : 1 <= hidden.
Hypothesis Hh : 1 <= h.
Hypothesis Hw : 1 <= w.
Hypothesis Hnorm : norm_has_statistics norm b h w.
Hypothesis Hx : shape x = [b; T; input; h; w].

Lemma gru_step_ok_without_flow t st outs :
  0 <= t < T -> shape st = [b; hidden; h; w] ->
  exists st', gru_step self x None mode t (st, outs) = Ok (st', outs ++ [st'])
              /\ shape st' = [b; hidden; h; w].
Proof.
  intros Ht Hst. unfold gru_step.
  rewrite (select1_ok x b T [input; h; w] t Hx Ht). cbn [bind].
  match goal with
  | |- context [gru_cell self ?xt st] =>
      destruct (gru_cell_pointwise input hidden bias norm activation n self xt st
                  b h w Hself Hhidden Hh Hw Hnorm eq_refl Hst)
        as (u & st0 & h' & _ & _ & _ & _ & Hc & Hs' & _)
  end.
  rewrite Hc. cbn [bind]. exists h'. split; [reflexivity | exact Hs'].
Qed.

Lemma gru_loop_ok_without_flow m : forall k st outs,
  (Z.of_nat (k + m) <= T) ->
  shape st = [b; hidden; h; w] ->
  exists st' news,
    py_for (map Z.of_nat (seq k m)) (gru_step self x None mode) (st, outs)
    = Ok (st', outs ++ news)
    /\ List.length news = m
    /\ Forall (fun y => shape y = [b; hidden; h; w]) news.
Proof.
  induction m as [|m IH]; intros k st outs Hk Hst.
  - exists st, []. cbn. rewrite app_nil_r. repeat split. constructor.
  - cbn [seq map py_for].
    destruct (gru_step_ok_without_flow (Z.of_nat k) st outs ltac:(lia) Hst)
      as (st1 & H1 & Hs1).
    rewrite H1. cbn [bind].
    destruct (IH (S k) st1 (outs ++ [st1]) ltac:(lia) Hs1)
      as (st' & news & Hfor & Hlen & Hall).
    exists st', (st1 :: news). rewrite Hfor, <- app_assoc. cbn [app List.length].
    repeat split; [congruence|]. constructor; assumption.
Qed.

(** With an initial state and no motion field, [forward] returns a sequence
    of the input's length with [hidden] channels. *)
Lemma SpatialGRU_forward_seeded_ok (s : tensor) :
  1 <= T -> shape s = [b; hidden; h; w] ->
  exists y, SpatialGRU_forward self x (Some s) None mode = Ok y
            /\ shape y = [b; T; hidden; h; w].
Proof.
  intros HT Hs.
  pose proof (SpatialGRU_init_inv _ _ _ _ _ _ _ Hself) as (_ & Hin & _).
  assert (Hx' : shape x = [b; T; input_size self; h; w]) by (rewrite Hin; exact Hx).
  rewrite (SpatialGRU_forward_checked self x (Some s) None mode b T h w Hx').
  cbn [bind]. unfold py_range.
  destruct (gru_loop_ok_without_flow (Z.to_nat T) 0%nat s []
              ltac:(cbn [Nat.add]; lia) Hs)
    as (st' & hs & Hfor & Hlen & Hall).
  rewrite Hfor. cbn [bind snd app].
  assert (Hne : hs <> []) by (destruct hs; [cbn in Hlen; lia | discriminate]).
  rewrite (torch_stack1_ok hs b [hidden; h; w] Hne Hall).
  eexists. split; [reflexivity|]. cbn [shape].
  rewrite Hlen, Z2Nat.id by lia. reflexivity.
Qed.

End RecurrenceWithoutFlow.

Lemma tensor_view_flatten (y : tensor) b t c h w :
  shape y = [b; t; c; h; w] ->
  0 <= b -> 0 <= t -> 0 <= c -> 0 <= h -> 0 <= w ->
  tensor_view y [b * t; c; h; w]
  = Ok (mkTensor [b * t; c; h; w]
          (fun idx => data y (unravel (shape y) (ravel [b * t; c; h; w] idx)))).
Proof.
  intros Hy Hb Ht Hc Hh Hw. unfold tensor_view. cbn [existsb].
  replace (b * t <? 0) with false by (symmetry; apply Z.ltb_ge; nia).
  replace (c <? 0) with false by (symmetry; apply Z.ltb_ge; lia).
  replace (h <? 0) with false by (symmetry; apply Z.ltb_ge; lia).
  replace (w <? 0) with false by (symmetry; apply Z.ltb_ge; lia).
  cbn [orb].
  replace (numel [b * t; c; h; w] =? numel (shape y)) with true; [reflexivity|].
  symmetry. apply Z.eqb_eq. rewrite Hy. unfold numel. cbn [fold_right]. ring.
Qed.

Lemma tensor_view_unflatten (z : tensor) b t c h w :
  shape z = [b * t; c; h; w] ->
  0 <= b -> 0 <= t -> 0 <= c -> 0 <= h -> 0 <= w ->
  tensor_view z [b; t; c; h; w]
  = Ok (mkTensor [b; t; c; h; w]
          (fun idx => data z (unravel (shape z) (ravel [b; t; c; h; w] idx)))).
Proof.
  intros Hz Hb Ht Hc Hh Hw. unfold tensor_view. cbn [existsb].
  replace (b <? 0) with false by (symmetry; apply Z.ltb_ge; lia).
  replace (t <? 0) with false by (symmetry; apply Z.ltb_ge; lia).
  replace (c <? 0) with false by (symmetry; apply Z.ltb_ge; lia).
  replace (h <? 0) with false by (symmetry; apply Z.ltb_ge; lia).
  replace (w <? 0) with false by (symmetry; apply Z.ltb_ge; lia).
  cbn [orb].
  replace (numel [b; t; c; h; w] =? numel (shape z)) with true; [reflexivity|].
  symmetry. apply Z.eqb_eq. rewrite Hz. unfold numel. cbn [fold_right]. ring.
Qed.

Lemma default_Bottlenecks_forward c blocks (Hc2 : 2 <= c) : forall (x : tensor) N h w,
  Forall (fun b => exists id,
              constructs (Bottleneck_init c None 3 1 1 false false 0) id b) blocks ->
  shape x = [N; c; h; w] -> 1 <= h -> 1 <= w -> N * h * w <> 1 ->
  exists y, Sequential_forward Bottleneck_forward blocks x = Ok y
            /\ shape y = [N; c; h; w].
Proof.
  induction blocks as [|blk blocks IH]; intros x N h w Hall Hx Hh Hw Hn.
  - exists x. split; [reflexivity | exact Hx].
  - inversion Hall as [|? ? [id Hb] Hrest]; subst.
    cbn [Sequential_forward].
    destruct (Bottleneck_forward_default_ok c id blk x N h w Hb Hc2 Hx Hh Hw Hn)
      as (y & Hy & Hys).
    rewrite Hy. cbn [bind]. apply (IH y N h w Hrest Hys Hh Hw Hn).
Qed.

Lemma Forall_nth_error {A : Type} (P : A -> Prop) (l : list A) i a :
  Forall P l -> nth_error l i = Some a -> P a.
Proof.
  intros Hall Hi. rewrite Forall_forall in Hall.
  apply Hall. eapply nth_error_In. exact Hi.
Qed.

Section Stages.

Variables (c latent_dim n_blocks n_layers : Z) (n : nat).
Variable self : FuturePrediction.
Variable hidden_state : tensor.
Variables (B T H W : Z).

Hypothesis Hself :
  constructs (FuturePrediction_init c latent_dim n_blocks n_layers) n self.
Hypothesis Hc : 2 <= c.
Hypothesis HB : 1 <= B.
Hypothesis HT : 1 <= T.
Hypothesis HH : 1 <= H.
Hypothesis HW : 1 <= W.
Hypothesis Hstat : B * H * W <> 1.
Hypothesis Hhidden : shape hidden_state = [B; c; H; W].

(** One stage: the SpatialGRU seeded with the current state, then the
    Bottleneck blocks on the flattened sequence. *)
Lemma FuturePrediction_stage_ok k (x : tensor) :
  (k < List.length (spatial_grus self))%nat ->
  shape x = [B; T; (if Z.of_nat k =? 0 then latent_dim else c); H; W] ->
  exists y, FuturePrediction_stage self hidden_state (Z.of_nat k) x = Ok y
            /\ shape y = [B; T; c; H; W].
Proof.
  intros Hk Hx.
  pose proof (FuturePrediction_init_inv _ _ _ _ _ _ Hself)
    as (_ & Hlg & Hlr & Hgru & Hres).
  destruct (nth_error (spatial_grus self) k) as [g|] eqn:Eg;
    [|apply nth_error_None in Eg; lia].
  destruct (nth_error (res_blocks self) k) as [blocks|] eqn:Er;
    [|apply nth_error_None in Er; lia].
  destruct (Hgru k g Eg) as (id & Hg).
  pose proof (Forall_nth_error _ _ _ _ Hres Er) as (_ & Hblocks).
  unfold FuturePrediction_stage.
  rewrite (py_index_nth _ _ _ Eg). cbn [bind].
  destruct (SpatialGRU_forward_seeded_ok _ c r0 "bn" "relu" id g x "bilinear"
              B T H W Hg ltac:(lia) HH HW
              ltac:(split; [intros _; exact Hstat | intros E; discriminate E])
              Hx hidden_state HT Hhidden)
    as (y & Hy & Hys).
  rewrite Hy. cbn [bind]. rewrite Hys.
  rewrite (py_index_nth _ _ _ Er). cbn [bind].
  rewrite (tensor_view_flatten y B T c H W Hys) by lia. cbn [bind].
  match goal with
  | |- context [Sequential_forward Bottleneck_forward blocks ?t] =>
      destruct (default_Bottlenecks_forward c blocks Hc t (B * T) H W Hblocks
                  eq_refl HH HW ltac:(nia)) as (z & Hz & Hzs)
  end.
  rewrite Hz. cbn [bind].
  rewrite (tensor_view_unflatten z B T c H W Hzs) by lia.
  eexists. split; reflexivity.
Qed.

Lemma FuturePrediction_stages_ok m : forall k (x : tensor),
  (k + S m = List.length (spatial_grus self))%nat ->
  shape x = [B; T; (if Z.of_nat k =? 0 then latent_dim else c); H; W] ->
  exists y,
    py_for (map Z.of_nat (seq k (S m))) (FuturePrediction_stage self hidden_state) x
    = Ok y
    /\ shape y = [B; T; c; H; W].
Proof.
  induction m as [|m IH]; intros k x Hk Hx.
  - cbn [seq map py_for].
    destruct (FuturePrediction_stage_ok k x ltac:(lia) Hx) as (y & Hy & Hys).
    rewrite Hy. cbn [bind]. exists y. split; [reflexivity | exact Hys].
  - cbn [seq map py_for].
    destruct (FuturePrediction_stage_ok k x ltac:(lia) Hx) as (y & Hy & Hys).
    rewrite Hy. cbn [bind].
    apply (IH (S k) y ltac:(lia)).
    replace (Z.of_nat (S k) =? 0) with false
      by (symmetry; apply Z.eqb_neq; lia).
    exact Hys.
Qed.

End Stages.

(** X8. For every constructed FuturePrediction with at least two channels
    and at least one stage, an input sequence [B,T,latent_dim,H,W] (T >= 1,
    B*H*W != 1 for the batch normalisations) and a current-state map
    [B,in_channels,H,W], [forward] returns a tensor of shape
    [B,T,in_channels,H,W], whatever the number of stages and of Bottleneck
    blocks per stage; with no stage it returns its input as it is, with
    [latent_dim] channels. *)
Theorem FuturePrediction_forward_shape
        c latent_dim n_blocks n_layers n self (x hidden_state : tensor) B T H W :
  constructs (FuturePrediction_init c latent_dim n_blocks n_layers) n self ->
  shape x = [B; T; latent_dim; H; W] ->
  shape hidden_state = [B; c; H; W] ->
  (n_blocks <= 0 -> FuturePrediction_forward self x hidden_state = Ok x)
  /\ (1 <= n_blocks -> 2 <= c ->
      1 <= B -> 1 <= T -> 1 <= H -> 1 <= W -> B * H * W <> 1 ->
      exists y, FuturePrediction_forward self x hidden_state = Ok y
                /\ shape y = [B; T; c; H; W]).
Proof.
  intros Hself Hx Hh.
  pose proof (FuturePrediction_init_inv _ _ _ _ _ _ Hself) as (Hn & Hlg & _).
  unfold FuturePrediction_forward. rewrite Hn. split.
  - intros Hle. rewrite (py_range_nonpos n_blocks Hle). reflexivity.
  - intros Hge Hc HB HT HH HW Hstat. unfold py_range.
    destruct (Z.to_nat n_blocks) as [|m] eqn:Em; [lia|].
    apply (FuturePrediction_stages_ok c latent_dim n_blocks n_layers n self
             hidden_state B T H W Hself Hc HB HT HH HW Hstat Hh m 0%nat x).
    + rewrite Hlg. reflexivity.
    + exact Hx.
Qed.

(** *** Construction of FuturePrediction *)

Lemma ctor_for_ok {S : Type} (P : S -> Prop) (body : Z -> S -> ctor S) items :
  (forall i s n, P s -> exists s' n', body i s n = Ok (s', n') /\ P s') ->
  forall s n, P s ->
    exists s' n', ctor_for items body s n = Ok (s', n') /\ P s'.
Proof.
  intros Hbody. induction items as [|i items IH]; intros s n Hs.
  - exists s, n. split; [reflexivity | exact Hs].
  - cbn [ctor_for]. destruct (Hbody i s n Hs) as (s1 & n1 & H1 & Hs1).
    rewrite (cbind_ok _ _ _ _ _ H1). apply IH. exact Hs1.
Qed.

Lemma SpatialGRU_init_ok input hidden (bias : R) n :
  0 <= input + hidden -> 0 <= hidden ->
  exists self n', SpatialGRU_init input hidden bias "bn" "relu" n = Ok (self, n').
Proof.
  intros Hi Hh. unfold SpatialGRU_init.
  do 2 (ctor_ok layer_ok).
  assert (Hp : 0 <= py_or (Some hidden) (input + hidden)).
  { unfold py_or. destruct (hidden =? 0); lia. }
  destruct (ConvBlock_init_known (input + hidden) (Some hidden) 3 1 "bn" "relu"
              false (S (S n)) eq_refl eq_refl ltac:(discriminate)
              (convnd_check_ok1 (input + hidden)
                 (py_or (Some hidden) (input + hidden)) 3 Hi Hp ltac:(lia)))
    as (cb & n' & Hcb).
  rewrite (cbind_ok _ _ _ _ _ Hcb). eexists. eexists. reflexivity.
Qed.

(** X9. FuturePrediction is constructed for every non-negative
    [in_channels] and [latent_dim] and every number of stages and of blocks:
    its Bottleneck blocks are built with equal channel counts and no
    resampling, so the constructor never reaches the projection shortcut
    that cannot be built. Every block it holds has the identity shortcut. *)
Theorem FuturePrediction_is_constructed c latent_dim n_blocks n_layers n :
  0 <= c -> 0 <= latent_dim ->
  exists self n',
    FuturePrediction_init c latent_dim n_blocks n_layers n = Ok (self, n')
    /\ List.length (spatial_grus self) = Z.to_nat n_blocks
    /\ Forall (fun blocks =>
                 List.length blocks = Z.to_nat n_layers
                 /\ Forall (fun b => Bottleneck_projection b = None) blocks)
              (res_blocks self).
Proof.
  intros Hc Hl.
  assert (Hinit : exists self n',
             FuturePrediction_init c latent_dim n_blocks n_layers n = Ok (self, n')).
  { unfold FuturePrediction_init.
    destruct (ctor_for_ok (fun _ => True)
                (FuturePrediction_init_step c latent_dim n_layers)
                (py_range n_blocks)) with (s := (@nil SpatialGRU, @nil (list Bottleneck)))
                                          (n := n)
      as (s' & n' & Hs & _); [|exact I|].
    - intros i [grus res] n0 _. unfold FuturePrediction_init_step. cbv zeta.
      destruct (SpatialGRU_init_ok (if i =? 0 then latent_dim else c) c r0 n0
                  ltac:(destruct (i =? 0); lia) Hc) as (g & n1 & Hg).
      rewrite (cbind_ok _ _ _ _ _ Hg).
      ctor_ok layer_ok.
      destruct (ctor_for_ok (fun _ => True)
                  (fun (_ : Z) acc =>
                     (b <- Bottleneck_init c None 3 1 1 false false 0 ;;
                      cret (acc ++ [b]))%ctor)
                  (py_range n_layers)) with (s := @nil Bottleneck) (n := n1)
        as (bs & n2 & Hbs & _); [|exact I|].
      + intros j acc n3 _. rewrite (cbind_ok _ _ _ _ _ (Bottleneck_init_default c n3 Hc)).
        eexists. eexists. split; [reflexivity | exact I].
      + unfold bottleneck_stack. rewrite (cbind_ok _ _ _ _ _ Hbs).
        rewrite nn_Sequential_modules. ctor_ok layer_ok. ctor_ok layer_ok.
        eexists. eexists. split; [reflexivity | exact I].
    - rewrite (cbind_ok _ _ _ _ _ Hs). eexists. eexists. reflexivity. }
  destruct Hinit as (self & n' & Hinit). exists self, n'.
  split; [exact Hinit|].
  assert (Hcon : constructs (FuturePrediction_init c latent_dim n_blocks n_layers)
                            n self) by (exists n'; exact Hinit).
  pose proof (FuturePrediction_init_inv _ _ _ _ _ _ Hcon)
    as (_ & Hlg & _ & _ & Hres).
  split; [exact Hlg|].
  eapply Forall_impl; [|exact Hres].
  intros blocks [Hlen Hall]. split; [exact Hlen|].
  eapply Forall_impl; [|exact Hall].
  intros b [id Hb]. apply Bottleneck_init_default_inv in Hb.
  destruct Hb as [_ ->]. reflexivity.
Qed.

(** *** The feature pyramid (fpn.py) *)

Lemma bind_raises_l {A B : Type} (c : result A) (k : A -> result B) :
  raises c -> raises (bind c k).
Proof. intros [e ->]. exists e. reflexivity. Qed.

Lemma bind_raises_r {A B : Type} (c : result A) (k : A -> result B) :
  (forall a, raises (k a)) -> raises (bind c k).
Proof.
  intros Hk. destruct c as [a|e]; cbn [bind]; [apply Hk | exists e; reflexivity].
Qed.

Lemma count_index k m : forall s,
  List.length (filter (fun i => py_in i [k]) (map Z.of_nat (seq s m)))
  = if (Z.of_nat s <=? k) && (k <? Z.of_nat (s + m)) then 1%nat else 0%nat.
Proof.
  induction m as [|m IH]; intros s.
  - cbn [seq map filter List.length]. rewrite Nat.add_0_r.
    destruct (Z.leb_spec (Z.of_nat s) k), (Z.ltb_spec k (Z.of_nat s));
      cbn [andb]; try reflexivity; lia.
  - cbn [seq map filter]. unfold py_in at 1. cbn [existsb]. rewrite orb_false_r.
    destruct (Z.eqb_spec (Z.of_nat s) k) as [E|E]; cbn [List.length]; rewrite IH.
    + destruct (Z.leb_spec (Z.of_nat (S s)) k); [lia|]. cbn [andb].
      destruct (Z.leb_spec (Z.of_nat s) k); [|lia].
      destruct (Z.ltb_spec k (Z.of_nat (s + S m))); [reflexivity | lia].
    + replace (s + S m)%nat with (S s + m)%nat by lia.
      destruct (Z.leb_spec (Z.of_nat (S s)) k), (Z.leb_spec (Z.of_nat s) k);
        cbn [andb]; try reflexivity; lia.
Qed.

(** The convolutions the loop of [FPN.__init__] appends: one lateral 1x1
    convolution per level, one 3x3 convolution per level listed in
    [out_ids]. *)
Lemma FPN_init_loop_inv out_channels ids cs : forall s lat fpn n lat' fpn' n',
  ctor_for_each (combine (map Z.of_nat (seq s (List.length cs))) cs)
    (FPN_init_step out_channels ids) (lat, fpn) n = Ok ((lat', fpn'), n') ->
  exists new_lat new_fpn,
    lat' = lat ++ new_lat /\ fpn' = fpn ++ new_fpn
    /\ Forall2 (fun c m => exists id,
                    m = MConv2d (mkConv2d id c out_channels 1 1 0 1 1 true))
               cs new_lat
    /\ Forall (fun m => exists id,
                   m = MConv2d (mkConv2d id out_channels out_channels 3 1 1 1 1 true))
              new_fpn
    /\ List.length new_fpn
       = List.length (filter (fun i => py_in i ids)
                        (map Z.of_nat (seq s (List.length cs)))).
Proof.
  induction cs as [|c cs IH]; intros s lat fpn n lat' fpn' n' H.
  - cbn in H. inversion H; subst. exists [], []. rewrite !app_nil_r.
    repeat split; constructor.
  - cbn [List.length seq map combine ctor_for_each] in H.
    apply cbind_inv in H. destruct H as ([lat1 fpn1] & n1 & Hstep & H).
    unfold FPN_init_step in Hstep.
    apply cbind_inv in Hstep. destruct Hstep as (lc & n2 & Hlc & Hstep).
    apply nn_Conv2d_inv in Hlc. destruct Hlc as (_ & -> & ->).
    apply cbind_inv in Hstep. destruct Hstep as (lat2 & n3 & Hl & Hstep).
    apply lift_inv in Hl. destruct Hl as [Hl ->]. cbn in Hl. inversion Hl; subst lat2.
    apply IH in H.
    destruct H as (nl & nf & -> & -> & Hlat & Hfpn & Hlen).
    cbn [List.length seq map filter].
    destruct (py_in (Z.of_nat s) ids).
    + apply cbind_inv in Hstep. destruct Hstep as (fc & n4 & Hfc & Hstep).
      apply nn_Conv2d_inv in Hfc. destruct Hfc as (_ & -> & ->).
      apply cbind_inv in Hstep. destruct Hstep as (fpn2 & n5 & Hf & Hstep).
      apply lift_inv in Hf. destruct Hf as [Hf ->]. cbn in Hf. inversion Hf; subst fpn2.
      apply cret_inv in Hstep. destruct Hstep as [Hstep _]. inversion Hstep; subst.
      eexists (_ :: nl), (_ :: nf). rewrite <- !app_assoc. cbn [app List.length].
      repeat split; try reflexivity.
      * constructor; [eexists; reflexivity | exact Hlat].
      * constructor; [eexists; reflexivity | exact Hfpn].
      * congruence.
    + apply cret_inv in Hstep. destruct Hstep as [Hstep _]. inversion Hstep; subst.
      eexists (_ :: nl), nf. rewrite <- !app_assoc. cbn [app].
      repeat split; try reflexivity; try assumption.
      constructor; [eexists; reflexivity | exact Hlat].
Qed.

Lemma FPN_init_inv in_channels out_channels ids n self :
  constructs (FPN_init in_channels out_channels ids) n self ->
  FPN_in_channels self = in_channels
  /\ out_ids self = ids
  /\ Forall2 (fun c m => exists id,
                  m = MConv2d (mkConv2d id c out_channels 1 1 0 1 1 true))
             in_channels (lateral_convs self)
  /\ Forall (fun m => exists id,
                 m = MConv2d (mkConv2d id out_channels out_channels 3 1 1 1 1 true))
            (fpn_convs self)
  /\ List.length (fpn_convs self)
     = List.length (filter (fun i => py_in i ids)
                      (map Z.of_nat (seq 0 (List.length in_channels)))).
Proof.
  intros [n' H]. unfold FPN_init in H.
  apply cbind_inv in H. destruct H as ([lat fpn] & n1 & Hloop & H).
  apply cret_inv in H. destruct H as [-> _].
  cbn [FPN_in_channels out_ids lateral_convs fpn_convs fst snd].
  unfold py_enumerate in Hloop.
  apply FPN_init_loop_inv in Hloop.
  destruct Hloop as (nl & nf & -> & -> & Hlat & Hfpn & Hlen). cbn [app].
  repeat split; assumption.
Qed.

Lemma py_index_out_of_range {A : Type} (l : list A) i :
  (i < 0 -> l = []) -> (0 <= i -> Z.of_nat (List.length l) <= i) ->
  py_index l i = Raise (IndexError "index out of range").
Proof.
  intros Hneg Hpos. unfold py_index.
  destruct (Z.ltb_spec i 0) as [Hi|Hi].
  - rewrite (Hneg Hi). cbn [List.length Z.of_nat]. rewrite Z.add_0_r.
    replace (i <? 0) with true by (symmetry; apply Z.ltb_lt; lia). reflexivity.
  - replace (i <? 0) with false by (symmetry; apply Z.ltb_ge; lia).
    destruct (nth_error l (Z.to_nat i)) eqn:E; [|reflexivity].
    assert (Z.to_nat i < List.length l)%nat
      by (apply nth_error_Some; congruence).
    specialize (Hpos Hi). lia.
Qed.

(** X10. An FPN asked for a single output level other than level 0 cannot
    be applied: [fpn_convs] holds one convolution per listed level, in order,
    but [forward] indexes it with the level itself, so [forward] raises on
    every input (an [IndexError] once the lateral maps are merged). *)
Theorem FPN_single_output_level_must_be_zero
        in_channels out_channels k n self (inputs : list tensor) :
  constructs (FPN_init in_channels out_channels [k]) n self ->
  k <> 0 ->
  py_index (fpn_convs self) k = Raise (IndexError "index out of range")
  /\ raises (FPN_forward self inputs).
Proof.
  intros Hself Hk.
  apply FPN_init_inv in Hself. destruct Hself as (_ & Hids & _ & _ & Hlen).
  rewrite count_index in Hlen.
  assert (Hidx : py_index (fpn_convs self) k = Raise (IndexError "index out of range")).
  { apply py_index_out_of_range.
    - intros Hneg. replace (Z.of_nat 0 <=? k) with false in Hlen
        by (symmetry; apply Z.leb_gt; lia).
      cbn [andb] in Hlen. destruct (fpn_convs self); [reflexivity | discriminate Hlen].
    - intros Hpos.
      destruct ((Z.of_nat 0 <=? k) && (k <? Z.of_nat (0 + List.length in_channels)));
        rewrite Hlen; cbn; lia. }
  split; [exact Hidx|].
  unfold FPN_forward.
  apply bind_raises_r; intros _.
  apply bind_raises_r; intros laterals.
  apply bind_raises_r; intros merged.
  apply bind_raises_l. rewrite Hids. cbn [py_comprehension].
  apply bind_raises_l. apply bind_raises_l. rewrite Hidx. eexists. reflexivity.
Qed.

Lemma module_forward_lateral id c out (x : tensor) N h w :
  shape x = [N; c; h; w] -> 1 <= h -> 1 <= w -> 1 <= out ->
  module_forward (MConv2d (mkConv2d id c out 1 1 0 1 1 true)) x
  = Ok (mkTensor [N; out; h; w]
          (kernel (MConv2d (mkConv2d id c out 1 1 0 1 1 true)) x)).
Proof.
  intros Hx Hh Hw Hout. cbn [module_forward].
  rewrite (Conv2d_forward_stride1 id c out 1 0 1 true x N h w Hx
             ltac:(lia) ltac:(lia) ltac:(lia) ltac:(lia) Hout).
  replace (h + 2 * 0 - 1 + 1) with h by lia.
  replace (w + 2 * 0 - 1 + 1) with w by lia. reflexivity.
Qed.

Lemma py_index_app {A : Type} (pre : list A) x rest :
  py_index (pre ++ x :: rest) (Z.of_nat (List.length pre)) = Ok x.
Proof.
  apply py_index_nth. rewrite nth_error_app2 by lia.
  rewrite Nat.sub_diag. reflexivity.
Qed.

Lemma FPN_laterals_ok N out (inputs : list tensor) convs (Hout : 1 <= out) :
  forall cs xs pre,
  inputs = pre ++ xs ->
  Forall2 (fun c m => exists id, m = MConv2d (mkConv2d id c out 1 1 0 1 1 true))
          cs convs ->
  Forall2 (fun c (x : tensor) => exists h w, shape x = [N; c; h; w] /\ 1 <= h /\ 1 <= w)
          cs xs ->
  exists ls,
    py_comprehension
      (combine (map Z.of_nat (seq (List.length pre) (List.length convs))) convs)
      (fun item => let '(i, lateral_conv) := item in
                   (x <- py_index inputs i ;; module_forward lateral_conv x)%result)
    = Ok ls
    /\ Forall2 (fun (x l : tensor) =>
                  exists c h w, shape x = [N; c; h; w]
                                /\ shape l = [N; out; h; w] /\ 1 <= h /\ 1 <= w)
               xs ls.
Proof.
  induction convs as [|m convs IH]; intros cs xs pre Hin Hconv Hx.
  - inversion Hconv; subst cs. inversion Hx; subst xs.
    exists []. split; [reflexivity | constructor].
  - inversion Hconv as [|c m' cs' convs' [id Hm] Hconv']; subst.
    inversion Hx as [|c' x cs'' xs' (h & w & Hs & Hh & Hw) Hx']; subst.
    cbn [List.length seq map combine py_comprehension].
    rewrite py_index_app. cbn [bind].
    rewrite (module_forward_lateral id c out x N h w Hs Hh Hw Hout). cbn [bind].
    destruct (IH cs' xs' (pre ++ [x])
                ltac:(rewrite <- app_assoc; reflexivity) Hconv' Hx')
      as (ls & Hls & Hall).
    rewrite length_app in Hls. cbn [List.length] in Hls.
    rewrite Nat.add_1_r in Hls. rewrite Hls. cbn [bind].
    eexists. split; [reflexivity|].
    constructor; [|exact Hall].
    exists c, h, w. repeat split; assumption.
Qed.

Lemma F_interpolate_size_ok (x : tensor) N c h w h' w' :
  shape x = [N; c; h; w] -> 1 <= h -> 1 <= w -> 1 <= h' -> 1 <= w' ->
  exists y, F_interpolate_size x [h'; w'] = Ok y /\ shape y = [N; c; h'; w'].
Proof.
  intros Hx Hh Hw Hh' Hw'. unfold F_interpolate_size. rewrite Hx.
  cbn [List.length Nat.add Nat.eqb Nat.leb negb andb skipn firstn existsb app].
  replace (h <=? 0) with false by (symmetry; apply Z.leb_gt; lia).
  replace (w <=? 0) with false by (symmetry; apply Z.leb_gt; lia).
  replace (h' <=? 0) with false by (symmetry; apply Z.leb_gt; lia).
  replace (w' <=? 0) with false by (symmetry; apply Z.leb_gt; lia).
  cbn [orb]. eexists. split; reflexivity.
Qed.

Lemma torch_iadd_same (a b : tensor) :
  shape b = shape a ->
  exists y, torch_iadd a b = Ok y /\ shape y = shape a.
Proof.
  intros H. unfold torch_iadd. rewrite H, broadcast_shapes_same, shape_eqb_refl.
  eexists. split; reflexivity.
Qed.

Lemma py_setitem_shapes (ls : list tensor) k (old v : tensor) :
  nth_error ls k = Some old -> shape v = shape old ->
  exists ls', py_setitem ls (Z.of_nat k) v = Ok ls'
              /\ map shape ls' = map shape ls.
Proof.
  intros Hk Hv.
  assert (Hlt : (k < List.length ls)%nat) by (apply nth_error_Some; congruence).
  unfold py_setitem.
  replace (Z.of_nat k <? 0) with false by (symmetry; apply Z.ltb_ge; lia).
  cbv zeta.
  replace (Z.of_nat k <? 0) with false by (symmetry; apply Z.ltb_ge; lia).
  replace (Z.of_nat (List.length ls) <=? Z.of_nat k) with false
    by (symmetry; apply Z.leb_gt; lia).
  cbn [orb]. rewrite Nat2Z.id. eexists. split; [reflexivity|].
  rewrite map_app. cbn [map]. rewrite Hv.
  rewrite <- (firstn_skipn k ls) at 3. rewrite map_app. f_equal.
  clear Hv v Hlt. revert k Hk.
  induction ls as [|l ls IH]; intros [|k] Hk; cbn in Hk; try discriminate.
  - inversion Hk; subst. reflexivity.
  - cbn [skipn]. apply IH. exact Hk.
Qed.

Section Pyramid.

Variables (N out : Z).

Lemma nth_error_map_shape (ls : list tensor) k s :
  nth_error (map shape ls) k = Some s ->
  exists l, nth_error ls k = Some l /\ shape l = s.
Proof.
  rewrite nth_error_map. destruct (nth_error ls k) as [l|]; cbn; [|discriminate].
  intros H. inversion H. exists l. split; reflexivity.
Qed.

(** One turn of the top-down loop adds the resampled upper map to the
    lower one and leaves every shape as it is. *)
Lemma FPN_merge_step_ok (ls : list tensor) i :
  Forall (level N out) (map shape ls) ->
  1 <= i < Z.of_nat (List.length ls) ->
  exists ls', FPN_merge_step i ls = Ok ls' /\ map shape ls' = map shape ls.
Proof.
  intros Hall Hi.
  assert (Hlow : exists lo, nth_error ls (Z.to_nat (i - 1)) = Some lo).
  { destruct (nth_error ls (Z.to_nat (i - 1))) eqn:E; [eauto|].
    apply nth_error_None in E. lia. }
  assert (Hup : exists up, nth_error ls (Z.to_nat i) = Some up).
  { destruct (nth_error ls (Z.to_nat i)) eqn:E; [eauto|].
    apply nth_error_None in E. lia. }
  destruct Hlow as (lo & Hlo). destruct Hup as (up & Hup).
  assert (Llo : level N out (shape lo)).
  { eapply Forall_nth_error; [exact Hall|].
    rewrite nth_error_map, Hlo. reflexivity. }
  assert (Lup : level N out (shape up)).
  { eapply Forall_nth_error; [exact Hall|].
    rewrite nth_error_map, Hup. reflexivity. }
  destruct Llo as (h & w & Slo & Hh & Hw).
  destruct Lup as (h' & w' & Sup & Hh' & Hw').
  assert (E1 : py_index ls (i - 1) = Ok lo).
  { replace (i - 1) with (Z.of_nat (Z.to_nat (i - 1))) by lia.
    apply py_index_nth. exact Hlo. }
  assert (E2 : py_index ls i = Ok up).
  { replace i with (Z.of_nat (Z.to_nat i)) by lia.
    apply py_index_nth. exact Hup. }
  unfold FPN_merge_step. rewrite E1, E2. cbn [bind].
  rewrite Slo. cbn [skipn].
  destruct (F_interpolate_size_ok up N out h' w' h w Sup Hh' Hw' Hh Hw)
    as (y & Hy & Sy).
  rewrite Hy. cbn [bind].
  destruct (torch_iadd_same lo y ltac:(congruence)) as (z & Hz & Sz).
  rewrite Hz. cbn [bind].
  replace (i - 1) with (Z.of_nat (Z.to_nat (i - 1))) by lia.
  apply (py_setitem_shapes ls _ lo z Hlo Sz).
Qed.

Lemma FPN_merge_loop_ok items : forall (ls : list tensor),
  Forall (level N out) (map shape ls) ->
  Forall (fun i => 1 <= i < Z.of_nat (List.length ls)) items ->
  exists ls', py_for items FPN_merge_step ls = Ok ls'
              /\ map shape ls' = map shape ls.
Proof.
  induction items as [|i items IH]; intros ls Hall Hitems.
  - exists ls. split; reflexivity.
  - inversion Hitems as [|? ? Hi Hrest]; subst. cbn [py_for].
    destruct (FPN_merge_step_ok ls i Hall Hi) as (ls1 & H1 & S1).
    rewrite H1. cbn [bind].
    assert (Hlen : List.length ls1 = List.length ls).
    { rewrite <- (length_map shape ls1), S1, length_map. reflexivity. }
    destruct (IH ls1) as (ls' & H' & S').
    + rewrite S1. exact Hall.
    + rewrite Hlen. exact Hrest.
    + exists ls'. split; [exact H' | congruence].
Qed.

Lemma py_range_down_bounds len :
  Forall (fun i => 1 <= i < Z.of_nat len) (py_range_down (Z.of_nat len - 1) 0).
Proof.
  unfold py_range_down. apply Forall_forall. intros i Hi.
  apply in_map_iff in Hi. destruct Hi as (k & <- & Hk).
  apply in_seq in Hk. lia.
Qed.

End Pyramid.

(** X11. An FPN with the default output level [[0]] refuses a list of
    inputs whose length is not the number of levels with an
    [AssertionError]; with at least one output channel, applied to one
    non-empty feature map [N,c_i,h_i,w_i] per level, each with the channel
    count of its level (at least one) and a positive spatial size, it
    returns exactly one map, of shape [N,out_channels,h_0,w_0]: the
    resolution of the first level, whatever the resolutions of the others. *)
Theorem FPN_forward_first_level
        in_channels out_channels n self (inputs : list tensor) N :
  constructs (FPN_init in_channels out_channels [0]) n self ->
  (List.length inputs <> List.length in_channels ->
   FPN_forward self inputs = Raise (AssertionError ""))
  /\ (1 <= out_channels -> 1 <= N ->
      Forall (fun c => 1 <= c) in_channels ->
      Forall2 (fun c (x : tensor) =>
                 exists h w, shape x = [N; c; h; w] /\ 1 <= h /\ 1 <= w)
              in_channels inputs ->
      forall x0 rest c0 h0 w0,
        inputs = x0 :: rest -> shape x0 = [N; c0; h0; w0] ->
        exists y, FPN_forward self inputs = Ok [y]
                  /\ shape y = [N; out_channels; h0; w0]).
Proof.
  intros Hself.
  apply FPN_init_inv in Hself.
  destruct Hself as (Hcs & Hids & Hlat & Hfpn & Hlen).
  split.
  - intros Hne. unfold FPN_forward. rewrite Hcs.
    apply Nat.eqb_neq in Hne. rewrite Hne. reflexivity.
  - intros Hout _ _ Hx x0 rest c0 h0 w0 Hin Hs0.
    pose proof (Forall2_length Hx) as Hl.
    unfold FPN_forward. rewrite Hcs, <- Hl, Nat.eqb_refl. cbn [py_assert bind].
    clear Hcs.
    destruct (FPN_laterals_ok N out_channels inputs (lateral_convs self) Hout
                in_channels inputs [] eq_refl Hlat Hx) as (ls & Hls & Hrel).
    unfold py_enumerate. cbn [List.length] in Hls. rewrite Hls. cbn [bind].
    assert (Hlevels : Forall (level N out_channels) (map shape ls)).
    { clear - Hrel. induction Hrel as [|x l xs ls' (c & h & w & _ & Sl & Hh & Hw) _ IH];
        cbn [map]; constructor; [|exact IH].
      exists h, w. repeat split; assumption. }
    destruct (FPN_merge_loop_ok N out_channels
                (py_range_down (Z.of_nat (List.length ls) - 1) 0) ls Hlevels
                (py_range_down_bounds (List.length ls)))
      as (ls' & Hmerge & Hshapes).
    rewrite Hmerge. cbn [bind]. rewrite Hids. cbn [py_comprehension].
    (* the single 3x3 convolution *)
    rewrite count_index in Hlen.
    subst inputs. inversion Hx as [|c x cs' xs' _ _ Ecs]; subst.
    assert (Hone : List.length (fpn_convs self) = 1%nat).
    { rewrite Hlen. cbn [List.length Nat.add].
      change (Z.of_nat 0 <=? 0) with true.
      replace (0 <? Z.of_nat (S (List.length cs'))) with true
        by (symmetry; apply Z.ltb_lt; lia).
      reflexivity. }
    clear Hlen.
    destruct (fpn_convs self) as [|m [|m' ms]]; try discriminate Hone.
    apply Forall_inv in Hfpn. destruct Hfpn as [id ->].
    change (py_index [MConv2d (mkConv2d id out_channels out_channels 3 1 1 1 1 true)] 0)
      with (Ok (MConv2d (mkConv2d id out_channels out_channels 3 1 1 1 1 true))).
    cbn [bind].
    (* the merged map of level 0 *)
    inversion Hrel as [|? l0 ? ls0 (c1 & h1 & w1 & Sx & Sl & Hh & Hw) _]; subst.
    rewrite Hs0 in Sx. inversion Sx; subst c1 h1 w1.
    destruct ls' as [|l0' ls0']; [discriminate Hshapes|].
    cbn [map] in Hshapes. inversion Hshapes as [[Sl0 _]].
    change (py_index (l0' :: ls0') 0) with (Ok l0'). cbn [bind module_forward].
    rewrite (Conv2d_forward_3x3 id out_channels out_channels true l0' N h0 w0
               ltac:(congruence) Hh Hw Hout).
    cbn [bind]. eexists. split; reflexivity.
Qed.

End Properties.

(** ** The statements at concrete inputs *)

Lemma ZKernels_warp_keeps_shape mode s f :
  @warp_keeps_shape ZScalar ZKernels mode s f.
Proof.
  intros state flow_t Hs _. exists state. split; [reflexivity | exact Hs].
Defined.

(** C1 at the invocation of the source: [torch.zeros(4,5,64,200,200)] and
    [torch.zeros(4,64,200,200)]. *)
Lemma FuturePrediction_reference_invocation_witness :
  exists net n' y,
    @FuturePrediction_init ZScalar 64 64 3 3 0%nat = Ok (net, n')
    /\ @FuturePrediction_forward ZScalar ZKernels net reference_x reference_hidden_state
       = Ok y
    /\ shape y = [4; 5; 64; 200; 200].
Proof.
  apply (@FuturePrediction_reference_invocation ZScalar ZKernels
           reference_x reference_hidden_state 0%nat); reflexivity.
Defined.

(** C3 at [FuturePrediction(64, 64)]. *)
Lemma FuturePrediction_stages_share_current_state_witness :
  exists self : @FuturePrediction ZScalar,
    constructs (@FuturePrediction_init ZScalar 64 64 3 3) 0%nat self
    /\ List.length (spatial_grus self) = 3%nat
    /\ List.length (res_blocks self) = 3%nat
    /\ (forall i gru,
          nth_error (spatial_grus self) i = Some gru ->
          input_size gru = (if Nat.eqb i 0 then 64 else 64) /\ hidden_size gru = 64)
    /\ (forall x hidden_state : Ztensor,
          @FuturePrediction_forward ZScalar ZKernels self x hidden_state
          = @FuturePrediction_spec ZScalar ZKernels self x hidden_state).
Proof.
  assert (H : exists self n', @FuturePrediction_init ZScalar 64 64 3 3 0%nat
                              = Ok (self, n'))
    by (vm_compute; eexists; eexists; reflexivity).
  destruct H as (self & n' & H). exists self.
  assert (Hc : constructs (@FuturePrediction_init ZScalar 64 64 3 3) 0%nat self)
    by (exists n'; exact H).
  split; [exact Hc|].
  exact (@FuturePrediction_stages_share_current_state ZScalar ZKernels
           64 64 3 3 0%nat self Hc).
Defined.

(** C4 (amended) at a SpatialGRU with 3 input and 2 hidden channels and a
    sequence of three 4x4 maps in a batch of two, without initial state. *)
Lemma SpatialGRU_forward_output_sequence_witness :
  exists self : @SpatialGRU ZScalar,
    constructs (@SpatialGRU_init ZScalar 3 2 0 "bn" "relu") 0%nat self
    /\ exists hs y,
        @SpatialGRU_forward ZScalar ZKernels self (arange [2; 3; 3; 4; 4]) None None
                            "bilinear" = Ok y
        /\ @torch_stack1 ZScalar hs = Ok y
        /\ shape y = [2; 3; 2; 4; 4]
        /\ Z.of_nat (List.length hs) = 3.
Proof.
  assert (H : exists self n', @SpatialGRU_init ZScalar 3 2 0 "bn" "relu" 0%nat
                              = Ok (self, n'))
    by (vm_compute; eexists; eexists; reflexivity).
  destruct H as (self & n' & H). exists self.
  assert (Hc : constructs (@SpatialGRU_init ZScalar 3 2 0 "bn" "relu") 0%nat self)
    by (exists n'; exact H).
  split; [exact Hc|].
  destruct (@SpatialGRU_forward_output_sequence ZScalar ZKernels
              3 2 0 "bn" "relu" 0%nat self (arange [2; 3; 3; 4; 4]) None None
              "bilinear" 2 3 4 4 Hc
              ltac:(lia) ltac:(lia) ltac:(lia) ltac:(lia) ltac:(lia)
              ltac:(split; intros _; discriminate)
              eq_refl
              ltac:(intros s Hs; discriminate Hs)
              ltac:(intros f Hf; discriminate Hf)
              (ZKernels_warp_keeps_shape "bilinear" [2; 2; 4; 4] [2; 2; 4; 4]))
    as (_ & hs & y & Hf & Hst & Hsh & Hlen & _).
  exists hs, y. repeat split; assumption.
Defined.

(** C4 as stated fails: on a sequence with no time step the loop appends
    nothing and [torch.stack] refuses the empty list; and on a batch of one
    1x1 map the batch normalisation of the candidate state, in training
    mode, has a single value per channel. *)
Lemma SpatialGRU_forward_fails_on_empty_sequence :
  exists self : @SpatialGRU ZScalar,
    constructs (@SpatialGRU_init ZScalar 3 2 0 "bn" "relu") 0%nat self
    /\ @SpatialGRU_forward ZScalar ZKernels self (arange [2; 0; 3; 4; 4]) None None
                           "bilinear"
       = Raise (RuntimeError "stack expects a non-empty TensorList")
    /\ @SpatialGRU_forward ZScalar ZKernels self (arange [1; 2; 3; 1; 1]) None None
                           "bilinear"
       = Raise (ValueError "Expected more than 1 value per channel when training").
Proof.
  eexists. split; [eexists; vm_compute; reflexivity|].
  split; vm_compute; reflexivity.
Qed.

(** C6 (amended) at [Bottleneck(64, 128)], [Bottleneck(64, downsample=True)]
    and [Bottleneck(64)]. *)
Lemma Bottleneck_projection_is_never_built_witness :
  ctor_raises (Bottleneck_init 64 (Some 128) 3 1 1 false false 0)
  /\ Bottleneck_init 64 None 3 1 1 false true 0 0%nat
     = Raise (TypeError "list.append() takes exactly one argument (2 given)")
  /\ exists layers n',
      Bottleneck_init 64 None 3 1 1 false false 0 0%nat
      = Ok (mkBottleneck false layers None, n')
      /\ List.length layers = 10%nat.
Proof.
  pose proof Bottleneck_projection_is_never_built as (H1 & H2 & H3).
  split; [|split].
  - apply (H1 64 (Some 128) 3 1 1 false false 0%Q). reflexivity.
  - apply (H2 64 None 3 1 false true 0%Q 0%nat); reflexivity.
  - apply (H3 64 None 3 1 0%Q 0%nat); reflexivity.
Defined.

(** C6 as stated fails: [Bottleneck(64, dilation=2)] has equal channel
    counts and no resampling, and the assertion on the dilation stops its
    construction. *)
Lemma Bottleneck_identity_configuration_raises :
  requires_projection 64 None false false = false
  /\ Bottleneck_init 64 None 3 2 1 false false 0 0%nat = Raise (AssertionError "").
Proof. split; reflexivity. Qed.

(** C8 at a SpatialGRU with 3 input channels: a 4-axis input, a 5-axis
    input with 5 channels, and a 5-axis input with 3 channels. *)
Lemma SpatialGRU_forward_preconditions_witness :
  let self := @mkSpatialGRU ZScalar 3 2 0
                (MConv2d (mkConv2d 0 5 2 3 1 1 1 1 true))
                (MConv2d (mkConv2d 1 5 2 3 1 1 1 1 true))
                (mkConvBlock (MConv2d (mkConv2d 2 5 2 3 1 1 1 1 false))
                             (Some (MBatchNorm2d (mkBatchNorm2d 3 2)))
                             (Some (MReLU true))) in
  @SpatialGRU_forward ZScalar ZKernels self (arange [2; 3; 4; 4]) None None "bilinear"
  = Raise (AssertionError "Input tensor must be BxTxCxHxW.")
  /\ @SpatialGRU_forward ZScalar ZKernels self (arange [2; 3; 5; 4; 4]) None None
                         "bilinear"
     = Raise (AssertionError
                "feature sizes must match, got input 5 for layer with size 3")
  /\ no_assertion (@SpatialGRU_forward ZScalar ZKernels self (arange [2; 3; 3; 4; 4])
                                       None None "bilinear").
Proof.
  intros self. split; [|split].
  - apply (proj1 (@SpatialGRU_forward_preconditions ZScalar ZKernels self
                    (arange [2; 3; 4; 4]) None None "bilinear")).
    cbn. discriminate.
  - apply (proj1 (proj2 (@SpatialGRU_forward_preconditions ZScalar ZKernels self
                           (arange [2; 3; 5; 4; 4]) None None "bilinear"))
             2 3 5 4 4); [reflexivity | cbn; discriminate].
  - apply (proj2 (proj2 (@SpatialGRU_forward_preconditions ZScalar ZKernels self
                           (arange [2; 3; 3; 4; 4]) None None "bilinear"))
             2 3 4 4 eq_refl).
    intros f Hf. discriminate Hf.
Defined.

(** C9 at the selectors ['gn'] and ['swish'], at
    [Bottleneck(64, upsample=True, downsample=True)] and at
    [ConvBlock(64, norm='in', activation='elu')]. *)
Lemma configuration_errors_at_construction_witness :
  ConvBlock_init 64 None 3 1 "gn" "relu" false false 0%nat
  = Raise (ValueError "Invalid norm gn")
  /\ ConvBlock_init 64 None 3 1 "bn" "swish" false false 0%nat
     = Raise (ValueError "Invalid activation swish")
  /\ ctor_raises (ConvBlock_init 64 None 3 1 "gn" "relu" false true)
  /\ ctor_raises (ConvBlock_init 64 None 3 1 "bn" "swish" false true)
  /\ exists cb n', ConvBlock_init 64 None 3 1 "in" "elu" false false 0%nat = Ok (cb, n').
Proof.
  pose proof configuration_errors_at_construction
    as (H1 & H2 & H3 & H4 & H5 & H6 & H7 & H8).
  split; [|split; [|split; [|split]]].
  - apply (H3 64 None 3 1 "gn"%string "relu"%string false 0%nat); reflexivity.
  - apply (H4 64 None 3 1 "bn"%string "swish"%string false 0%nat); reflexivity.
  - apply (H1 64 None 3 1 "gn"%string "relu"%string false true). reflexivity.
  - apply (H2 64 None 3 1 "bn"%string "swish"%string false true). reflexivity.
  - apply (H7 64 None 3 1 "in"%string "elu"%string false 0%nat);
      [reflexivity | reflexivity | discriminate | reflexivity].
Defined.

(** C10 at a SpatialGRU whose gate bias is -1, where the saturating
    logistic function sends every element of the update gate to 0. *)
Lemma gru_cell_identity_when_update_gate_is_zero_witness :
  exists (self : @SpatialGRU ZScalar) (u h' : Ztensor),
    constructs (@SpatialGRU_init ZScalar 3 2 (-1) "bn" "relu") 0%nat self
    /\ @update_gate_spec ZScalar ZKernels self (arange [2; 3; 4; 4]) (arange [2; 2; 4; 4])
       = Ok u
    /\ @all_zero ZScalar u
    /\ @gru_cell ZScalar ZKernels self (arange [2; 3; 4; 4]) (arange [2; 2; 4; 4]) = Ok h'
    /\ @tensor_eq ZScalar h' (arange [2; 2; 4; 4]).
Proof.
  assert (H : exists self n', @SpatialGRU_init ZScalar 3 2 (-1) "bn" "relu" 0%nat
                              = Ok (self, n'))
    by (vm_compute; eexists; eexists; reflexivity).
  destruct H as (self & n' & H).
  assert (Hc : constructs (@SpatialGRU_init ZScalar 3 2 (-1) "bn" "relu") 0%nat self)
    by (exists n'; exact H).
  vm_compute in H. inversion H; subst self n'. clear H.
  assert (Hu : exists u, @update_gate_spec ZScalar ZKernels
                           (@mkSpatialGRU ZScalar 3 2 (-1)
                              (MConv2d (mkConv2d 0 5 2 3 1 1 1 1 true))
                              (MConv2d (mkConv2d 1 5 2 3 1 1 1 1 true))
                              (mkConvBlock (MConv2d (mkConv2d 2 5 2 3 1 1 1 1 false))
                                 (Some (MBatchNorm2d (mkBatchNorm2d 3 2)))
                                 (Some (MReLU true))))
                           (arange [2; 3; 4; 4]) (arange [2; 2; 4; 4]) = Ok u
                         /\ @all_zero ZScalar u).
  { eexists. split; [reflexivity|]. intros idx _. reflexivity. }
  destruct Hu as (u & Hu & Hz).
  destruct (@gru_cell_identity_when_update_gate_is_zero ZScalar ZKernels ZExact
              3 2 (-1) "bn" "relu" 0%nat _ (arange [2; 3; 4; 4]) (arange [2; 2; 4; 4])
              u 2 4 4 Hc ltac:(lia) ltac:(lia) ltac:(lia)
              ltac:(split; intros _; discriminate) eq_refl eq_refl Hu Hz)
    as (h' & Hcell & Heq).
  eexists. exists u, h'. repeat split; try eassumption; apply Heq.
Defined.

(** The identity of C10 does not hold for every slice. At
    [SpatialGRU(3, 2, gru_bias_init=-1000)] on a single 1x1 map the update
    gate is 0 at every element, and still the cell does not return the
    state: it raises, because the batch normalisation of the candidate
    state finds one value per channel. *)
Lemma gru_cell_raises_although_update_gate_is_zero :
  exists (self : @SpatialGRU ZScalar) (u : Ztensor),
    constructs (@SpatialGRU_init ZScalar 3 2 (-1000) "bn" "relu") 0%nat self
    /\ @update_gate_spec ZScalar ZKernels self (arange [1; 3; 1; 1]) (arange [1; 2; 1; 1])
       = Ok u
    /\ shape u = [1; 2; 1; 1]
    /\ @all_zero ZScalar u
    /\ @gru_cell ZScalar ZKernels self (arange [1; 3; 1; 1]) (arange [1; 2; 1; 1])
       = Raise (ValueError "Expected more than 1 value per channel when training").
Proof.
  eexists. eexists.
  split; [eexists; vm_compute; reflexivity|].
  split; [reflexivity|].
  split; [reflexivity|].
  split; [intros idx _; reflexivity|].
  vm_compute. reflexivity.
Qed.

(** ** The further properties at concrete inputs *)

(** The SpatialGRU the examples below use: 3 input and 2 hidden channels. *)
Lemma example_SpatialGRU bias :
  exists self : @SpatialGRU ZScalar,
    constructs (@SpatialGRU_init ZScalar 3 2 bias "bn" "relu") 0%nat self.
Proof.
  eexists. eexists. vm_compute. reflexivity.
Defined.

(** X2 at an input [2,0,3,4,4] without initial state. *)
Lemma SpatialGRU_forward_empty_time_axis_witness :
  constructs (@SpatialGRU_init ZScalar 3 2 0 "bn" "relu") 0%nat SpatialGRU_3_2
  /\ @SpatialGRU_forward ZScalar ZKernels SpatialGRU_3_2
       (arange [2; 0; 3; 4; 4]) None None "bilinear"
     = Raise (RuntimeError "stack expects a non-empty TensorList").
Proof.
  split; [eexists; vm_compute; reflexivity|].
  apply (@SpatialGRU_forward_empty_time_axis ZScalar ZKernels SpatialGRU_3_2
           (arange [2; 0; 3; 4; 4]) None None "bilinear" 2 4 4 eq_refl).
  intros _. cbn. lia.
Defined.

(** X3 at a state with 5 channels where 2 are configured. *)
Lemma SpatialGRU_forward_rejects_misshaped_state_witness :
  exists (self : @SpatialGRU ZScalar) msg,
    constructs (@SpatialGRU_init ZScalar 3 2 0 "bn" "relu") 0%nat self
    /\ @SpatialGRU_forward ZScalar ZKernels self (arange [2; 3; 3; 4; 4])
         (Some (arange [2; 5; 4; 4])) None "bilinear"
       = Raise (RuntimeError msg).
Proof.
  destruct (example_SpatialGRU 0) as (self & Hc).
  destruct (@SpatialGRU_forward_rejects_misshaped_state ZScalar ZKernels
              3 2 0 "bn" "relu" 0%nat self (arange [2; 3; 3; 4; 4])
              (arange [2; 5; 4; 4]) "bilinear" 2 3 4 4 2 5 4 4 Hc eq_refl
              ltac:(lia) eq_refl ltac:(discriminate)) as (msg & H).
  exists self, msg. split; assumption.
Defined.

(** X4 at a SpatialGRU whose gate bias is 0, where the saturating logistic
    function sends every element of the update gate to 1. *)
Lemma gru_cell_candidate_when_update_gate_is_one_witness :
  exists (self : @SpatialGRU ZScalar) (st h' : Ztensor),
    constructs (@SpatialGRU_init ZScalar 3 2 0 "bn" "relu") 0%nat self
    /\ @state_tilde_spec ZScalar ZKernels self (arange [2; 3; 4; 4]) (arange [2; 2; 4; 4])
       = Ok st
    /\ @gru_cell ZScalar ZKernels self (arange [2; 3; 4; 4]) (arange [2; 2; 4; 4]) = Ok h'
    /\ @tensor_eq ZScalar h' st.
Proof.
  destruct (example_SpatialGRU 0) as (self & Hc).
  destruct (@gru_cell_pointwise ZScalar ZKernels 3 2 0 "bn" "relu" 0%nat self
              (arange [2; 3; 4; 4]) (arange [2; 2; 4; 4]) 2 4 4 Hc
              ltac:(lia) ltac:(lia) ltac:(lia)
              ltac:(split; intros _; discriminate) eq_refl eq_refl)
    as (u & st & _ & Hu & _ & Hst & _).
  assert (Hone : forall idx, in_range (shape u) idx -> data u idx = 1).
  { destruct Hc as (n' & Hc). vm_compute in Hc. inversion Hc; subst self.
    vm_compute in Hu. inversion Hu; subst u. intros idx _. reflexivity. }
  destruct (@gru_cell_candidate_when_update_gate_is_one ZScalar ZKernels ZExact
              3 2 0 "bn" "relu" 0%nat self (arange [2; 3; 4; 4]) (arange [2; 2; 4; 4])
              u st 2 4 4 Hc ltac:(lia) ltac:(lia) ltac:(lia)
              ltac:(split; intros _; discriminate) eq_refl eq_refl Hu Hone Hst)
    as (h' & Hcell & Heq).
  exists self, st, h'. repeat split; try assumption; apply Heq.
Defined.

(** X5 at the same SpatialGRU and operands. *)
Lemma gru_cell_moves_state_toward_candidate_witness :
  exists (self : @SpatialGRU ZScalar) (u st h' : Ztensor),
    constructs (@SpatialGRU_init ZScalar 3 2 0 "bn" "relu") 0%nat self
    /\ @gru_cell ZScalar ZKernels self (arange [2; 3; 4; 4]) (arange [2; 2; 4; 4]) = Ok h'
    /\ shape h' = [2; 2; 4; 4]
    /\ forall idx, in_range [2; 2; 4; 4] idx ->
         data h' idx
         = data (arange [2; 2; 4; 4]) idx
           + data u idx * (data st idx - data (arange [2; 2; 4; 4]) idx).
Proof.
  destruct (example_SpatialGRU 0) as (self & Hc).
  destruct (@gru_cell_moves_state_toward_candidate ZScalar ZKernels ZExact
              3 2 0 "bn" "relu" 0%nat self (arange [2; 3; 4; 4]) (arange [2; 2; 4; 4])
              2 4 4 Hc ltac:(lia) ltac:(lia) ltac:(lia)
              ltac:(split; intros _; discriminate) eq_refl eq_refl)
    as (u & st & h' & _ & _ & Hcell & _ & _ & Hs & Hd).
  exists self, u, st, h'. repeat split; assumption.
Defined.

(** X6 at [ConvBlock(3, 5, kernel_size=4)] on a batch [2,3,6,6]: the even
    kernel takes one row and one column off. *)
Lemma ConvBlock_forward_spatial_size_witness :
  exists cb (y : Ztensor),
    constructs (ConvBlock_init 3 (Some 5) 4 1 "bn" "relu" false false) 0%nat cb
    /\ @ConvBlock_forward ZScalar ZKernels cb (arange [2; 3; 6; 6]) = Ok y
    /\ shape y = [2; 5; 5; 5].
Proof.
  assert (Hc : exists cb,
             constructs (ConvBlock_init 3 (Some 5) 4 1 "bn" "relu" false false) 0%nat cb)
    by (eexists; eexists; vm_compute; reflexivity).
  destruct Hc as (cb & Hc).
  destruct (@ConvBlock_forward_spatial_size ZScalar ZKernels
              3 (Some 5) 4 "bn" "relu" false 0%nat cb (arange [2; 3; 6; 6]) 2 6 6
              Hc ltac:(lia) ltac:(lia) ltac:(cbn; lia) eq_refl ltac:(lia)
              ltac:(cbn; lia) ltac:(cbn; lia)
              ltac:(split; intros _; [cbn; lia | discriminate]))
    as (y & Hy & Hs).
  exists cb, y. repeat split; assumption.
Defined.

(** X7 at [Bottleneck(4)] on batches [2,4,3,3] and [2,5,3,3], and at
    [Bottleneck(1)] on a batch [2,1,3,3]. *)
Lemma Bottleneck_forward_keeps_shape_witness :
  (exists blk (y : Ztensor),
     constructs (Bottleneck_init 4 None 3 1 1 false false 0) 0%nat blk
     /\ @Bottleneck_forward ZScalar ZKernels blk (arange [2; 4; 3; 3]) = Ok y
     /\ shape y = [2; 4; 3; 3]
     /\ exists msg,
         @Bottleneck_forward ZScalar ZKernels blk (arange [2; 5; 3; 3])
         = Raise (RuntimeError msg))
  /\ (exists blk msg,
        constructs (Bottleneck_init 1 None 3 1 1 false false 0) 0%nat blk
        /\ @Bottleneck_forward ZScalar ZKernels blk (arange [2; 1; 3; 3])
           = Raise (RuntimeError msg)).
Proof.
  split.
  - assert (Hc : exists blk,
               constructs (Bottleneck_init 4 None 3 1 1 false false 0) 0%nat blk)
      by (eexists; eexists; vm_compute; reflexivity).
    destruct Hc as (blk & Hc).
    destruct (@Bottleneck_forward_keeps_shape ZScalar ZKernels 4 0%nat blk
                (arange [2; 4; 3; 3]) 2 4 3 3 Hc eq_refl ltac:(lia) ltac:(lia))
      as (_ & Hok & _).
    destruct (Hok eq_refl ltac:(lia) ltac:(lia) ltac:(lia)) as (y & Hy & Hs).
    destruct (@Bottleneck_forward_keeps_shape ZScalar ZKernels 4 0%nat blk
                (arange [2; 5; 3; 3]) 2 5 3 3 Hc eq_refl ltac:(lia) ltac:(lia))
      as (_ & _ & Hbad).
    destruct (Hbad ltac:(left; lia)) as (msg & Hmsg).
    exists blk, y. repeat split; try assumption. exists msg. exact Hmsg.
  - assert (Hc : exists blk,
               constructs (Bottleneck_init 1 None 3 1 1 false false 0) 0%nat blk)
      by (eexists; eexists; vm_compute; reflexivity).
    destruct Hc as (blk & Hc).
    destruct (@Bottleneck_forward_keeps_shape ZScalar ZKernels 1 0%nat blk
                (arange [2; 1; 3; 3]) 2 1 3 3 Hc eq_refl ltac:(lia) ltac:(lia))
      as (_ & _ & Hbad).
    destruct (Hbad ltac:(right; lia)) as (msg & Hmsg).
    exists blk, msg. split; assumption.
Defined.

(** X8 at [FuturePrediction(4, 6, n_gru_blocks=2, n_res_layers=1)] and at
    [FuturePrediction(4, 6, n_gru_blocks=0)]. *)
Lemma FuturePrediction_forward_shape_witness :
  (exists (self : @FuturePrediction ZScalar) (y : Ztensor),
      constructs (@FuturePrediction_init ZScalar 4 6 2 1) 0%nat self
      /\ @FuturePrediction_forward ZScalar ZKernels self (arange [2; 3; 6; 4; 4])
           (arange [2; 4; 4; 4]) = Ok y
      /\ shape y = [2; 3; 4; 4; 4])
  /\ (exists self : @FuturePrediction ZScalar,
         constructs (@FuturePrediction_init ZScalar 4 6 0 1) 0%nat self
         /\ @FuturePrediction_forward ZScalar ZKernels self (arange [2; 3; 6; 4; 4])
              (arange [2; 4; 4; 4]) = Ok (arange [2; 3; 6; 4; 4])).
Proof.
  split.
  - assert (Hc : exists self,
               constructs (@FuturePrediction_init ZScalar 4 6 2 1) 0%nat self)
      by (eexists; eexists; vm_compute; reflexivity).
    destruct Hc as (self & Hc).
    destruct (@FuturePrediction_forward_shape ZScalar ZKernels 4 6 2 1 0%nat self
                (arange [2; 3; 6; 4; 4]) (arange [2; 4; 4; 4]) 2 3 4 4 Hc
                eq_refl eq_refl) as (_ & Hok).
    destruct (Hok ltac:(lia) ltac:(lia) ltac:(lia) ltac:(lia) ltac:(lia)
                  ltac:(lia) ltac:(lia)) as (y & Hy & Hs).
    exists self, y. repeat split; assumption.
  - assert (Hc : exists self,
               constructs (@FuturePrediction_init ZScalar 4 6 0 1) 0%nat self)
      by (eexists; eexists; vm_compute; reflexivity).
    destruct Hc as (self & Hc).
    destruct (@FuturePrediction_forward_shape ZScalar ZKernels 4 6 0 1 0%nat self
                (arange [2; 3; 6; 4; 4]) (arange [2; 4; 4; 4]) 2 3 4 4 Hc
                eq_refl eq_refl) as (Hzero & _).
    exists self. split; [exact Hc|]. apply Hzero. lia.
Defined.

(** X9 at [FuturePrediction(64, 32)]. *)
Lemma FuturePrediction_is_constructed_witness :
  exists (self : @FuturePrediction ZScalar) n',
    @FuturePrediction_init ZScalar 64 32 3 3 0%nat = Ok (self, n')
    /\ List.length (spatial_grus self) = 3%nat
    /\ Forall (fun blocks =>
                 List.length blocks = 3%nat
                 /\ Forall (fun b => Bottleneck_projection b = None) blocks)
              (res_blocks self).
Proof.
  apply (@FuturePrediction_is_constructed ZScalar 64 32 3 3 0%nat); lia.
Defined.

(** X10 at [FPN([8, 16], 4, out_ids=[1])]. *)
Lemma FPN_single_output_level_must_be_zero_witness :
  exists self,
    constructs (FPN_init [8; 16] 4 [1]) 0%nat self
    /\ raises (@FPN_forward ZScalar ZKernels self
                 [arange [2; 8; 6; 6]; arange [2; 16; 3; 3]]).
Proof.
  assert (Hc : exists self, constructs (FPN_init [8; 16] 4 [1]) 0%nat self)
    by (eexists; eexists; vm_compute; reflexivity).
  destruct Hc as (self & Hc). exists self. split; [exact Hc|].
  apply (@FPN_single_output_level_must_be_zero ZScalar ZKernels [8; 16] 4 1 0%nat
           self _ Hc). lia.
Defined.

(** X11 at [FPN([8, 16], 4)] on maps of 6x6 and 3x3. *)
Lemma FPN_forward_first_level_witness :
  exists self (y : Ztensor),
    constructs (FPN_init [8; 16] 4 [0]) 0%nat self
    /\ @FPN_forward ZScalar ZKernels self [arange [2; 8; 6; 6]; arange [2; 16; 3; 3]]
       = Ok [y]
    /\ shape y = [2; 4; 6; 6]
    /\ @FPN_forward ZScalar ZKernels self [arange [2; 8; 6; 6]]
       = Raise (AssertionError "").
Proof.
  assert (Hc : exists self, constructs (FPN_init [8; 16] 4 [0]) 0%nat self)
    by (eexists; eexists; vm_compute; reflexivity).
  destruct Hc as (self & Hc).
  destruct (@FPN_forward_first_level ZScalar ZKernels [8; 16] 4 0%nat self
              [arange [2; 8; 6; 6]; arange [2; 16; 3; 3]] 2 Hc) as (_ & Hok).
  destruct (Hok ltac:(lia) ltac:(lia) ltac:(repeat constructor; lia)
                ltac:(repeat constructor; eexists; eexists;
                      (split; [reflexivity | lia]))
                _ _ 8 6 6 eq_refl eq_refl) as (y & Hy & Hs).
  destruct (@FPN_forward_first_level ZScalar ZKernels [8; 16] 4 0%nat self
              [arange [2; 8; 6; 6]] 2 Hc) as (Hbad & _).
  exists self, y. repeat split; try assumption. apply Hbad. cbn. lia.
Defined.

